(** * DemandManagement: a shallow embedding of the smart-grid simulator

    The development follows the Python sources under [simulator/]:
    [utils.py], [profile.py], [appliance.py], [connection.py], [house.py],
    [grid.py] and [run.py].

    Conventions of the embedding.
    - A [datetime] is a minute-aligned timestamp, represented by the number
      of minutes since a fixed midnight ([Z]); a [timedelta] is a number of
      minutes.  [oneDay] is 1440 minutes.
    - A numpy array of floats is a [list Q]: floating-point numbers are
      idealised as exact rationals.  Results that numpy reports as an
      exception (or as a non-finite number after a division by zero) are
      [None].
    - Python slices, negative indices and numpy broadcasting are written
      out in module [numpy].
    - Python's [random] module is an abstract generator whose state is
      threaded through the calls; the outcomes of numpy's random functions
      are explicit arguments.
    - scipy's peak finder and interpolation, and the cosine, are
      parameters of the functions that use them. *)

From Stdlib Require Import ZArith QArith Qround Qabs List Sorted Lia Lqa String Ascii.
From stdpp Require Import gmap list.
Import ListNotations.

Local Open Scope Z_scope.

(** ** numpy and Python list primitives *)

Module numpy.

(** Python's normalisation of a slice bound [i] for a sequence of length [n]. *)
Definition sliceBound (n i : Z) : Z :=
  if i <? 0 then Z.max 0 (i + n) else Z.min i n.

Definition size {A} (a : list A) : Z := Z.of_nat (length a).

(** [a[i:j]] *)
Definition slice {A} (a : list A) (i j : Z) : list A :=
  let lo := sliceBound (size a) i in
  let hi := sliceBound (size a) j in
  take (Z.to_nat (hi - lo)) (drop (Z.to_nat lo) a).

(** [a[i:]] *)
Definition sliceFrom {A} (a : list A) (i : Z) : list A :=
  drop (Z.to_nat (sliceBound (size a) i)) a.

(** [numpy.zeros(n)]; a negative dimension raises [ValueError]. *)
Definition zeros (n : Z) : option (list Q) :=
  if n <? 0 then None else Some (replicate (Z.to_nat n) 0%Q).

(** Broadcasting a one-dimensional source to a destination of [m] cells. *)
Definition broadcastTo (m : nat) (src : list Q) : option (list Q) :=
  if decide (length src = m) then Some src
  else match src with
       | [x] => Some (replicate m x)
       | _ => None
       end.

(** [a[i:j] = src] *)
Definition setSlice (a : list Q) (i j : Z) (src : list Q) : option (list Q) :=
  let lo := Z.to_nat (sliceBound (size a) i) in
  let hi := Z.to_nat (sliceBound (size a) j) in
  let m := (hi - lo)%nat in
  src' ← broadcastTo m src;
  Some (take lo a ++ src' ++ drop (lo + m) a).

(** [a[i:] = src] *)
Definition setSliceFrom (a : list Q) (i : Z) (src : list Q) : option (list Q) :=
  setSlice a i (size a) src.

(** Element-wise binary operation of two one-dimensional arrays. *)
Definition binop (f : Q -> Q -> Q) (a b : list Q) : option (list Q) :=
  if decide (length a = length b) then Some (zip_with f a b)
  else match a, b with
       | [x], _ => Some (map (f x) b)
       | _, [y] => Some (map (fun x => f x y) a)
       | _, _ => None
       end.

(** [a[i:j] += src]: the slice is the output, so only [src] may be
    broadcast. *)
Definition addSlice (a : list Q) (i j : Z) (src : list Q) : option (list Q) :=
  let lo := Z.to_nat (sliceBound (size a) i) in
  let hi := Z.to_nat (sliceBound (size a) j) in
  let m := (hi - lo)%nat in
  src' ← broadcastTo m src;
  Some (take lo a ++ zip_with Qplus (take m (drop lo a)) src' ++ drop (lo + m) a).

(** [a.resize(n)] for [n] larger than the current size: new cells are zero. *)
Definition resize (a : list Q) (n : Z) : list Q :=
  a ++ replicate (Z.to_nat n - length a)%nat 0%Q.

(** [numpy.pad(a, (0, k), constant_values=c)]; a negative width raises. *)
Definition padRight (a : list Q) (k : Z) (c : Q) : option (list Q) :=
  if k <? 0 then None else Some (a ++ replicate (Z.to_nat k) c).

(** [numpy.sum] *)
Definition sum (a : list Q) : Q := fold_right Qplus 0%Q a.

(** [numpy.cumsum]; the running sum is kept in lowest terms. *)
Fixpoint cumsumFrom (acc : Q) (a : list Q) : list Q :=
  match a with
  | [] => []
  | x :: a' => let acc' := Qred (acc + x) in acc' :: cumsumFrom acc' a'
  end.
Definition cumsum (a : list Q) : list Q := cumsumFrom 0%Q a.

(** [a[i]] with Python's negative indices; out of range raises [IndexError]. *)
Definition item {A} (a : list A) (i : Z) : option A :=
  if i <? 0 then
    (if 0 <=? i + size a then a !! Z.to_nat (i + size a) else None)
  else a !! Z.to_nat i.

End numpy.

(** ** utils.py *)

Module utils.

Definition oneDay : Z := 1440.

(** [minutesIn]: a [timedelta] is already a number of minutes. *)
Definition minutesIn (td : Z) : Z := td.

Definition minutesBetween (startDT endDT : Z) : Z := minutesIn (endDT - startDT).

(** [dt.date()], a day number. *)
Definition dateOf (dt : Z) : Z := dt / oneDay.

(** The midnight timestamps from [dt] onwards, in steps of one day. *)
Fixpoint midnightsFrom (fuel : nat) (currentDT : Z) : list Z :=
  match fuel with
  | O => []
  | S fuel' => currentDT :: midnightsFrom fuel' (currentDT + oneDay)
  end.

(** [midnightsBetween]: the start is kept when it is a midnight, whatever
    [endDT] is; then every later midnight strictly before [endDT]. *)
Definition midnightsBetween (startDT endDT : Z) : list Z :=
  let first := if startDT mod oneDay =? 0 then [startDT] else [] in
  let currentDT := dateOf startDT * oneDay + oneDay in
  let count := (endDT - currentDT + oneDay - 1) / oneDay in
  first ++ midnightsFrom (Z.to_nat count) currentDT.

End utils.

(** ** profile.py *)

Module profile.
Import numpy utils.

Record Profile := mkProfile {
  startingDT : option Z;
  values : list Q
}.

(** The constructor [Profile(startingDT, values)]. *)
Definition new (sdt : option Z) (vals : option (list Q)) : Profile :=
  match sdt, vals with
  | Some _, Some v => mkProfile sdt v
  | _, _ => mkProfile sdt []
  end.

Definition empty : Profile := new None None.

(** [get(fromDT, toDT)] with both bounds given. *)
Definition get (p : Profile) (fromDT toDT : Z) : option (list Q) :=
  match startingDT p with
  | None => zeros (minutesBetween fromDT toDT)
  | Some t0 =>
      let startIndex := minutesBetween t0 fromDT in
      let length := minutesBetween fromDT toDT in
      res ← zeros length;
      let stopIndex := Z.min (size (values p)) (minutesBetween t0 toDT) in
      setSlice res 0 (stopIndex - startIndex) (slice (values p) startIndex stopIndex)
  end.

(** [get(fromDT)]: a single value; an empty profile raises [IndexError]. *)
Definition getAt (p : Profile) (fromDT : Z) : option Q :=
  match startingDT p with
  | None => None
  | Some t0 =>
      let startIndex := minutesBetween t0 fromDT in
      if (startIndex <? 0) || (size (values p) <=? startIndex) then Some 0%Q
      else values p !! Z.to_nat startIndex
  end.

Definition resizeTo (vals : list Q) (newSize : Z) : list Q :=
  if size vals <? newSize then resize vals newSize else vals.

(** [set(fromDT, newValues)] *)
Definition set (p : Profile) (fromDT : Z) (newValues : list Q) : option Profile :=
  match startingDT p with
  | None => Some (mkProfile (Some fromDT) newValues)
  | Some t0 =>
      let startIndex := minutesBetween t0 fromDT in
      let newSize := startIndex + size newValues in
      let vals := resizeTo (values p) newSize in
      vals' ← setSlice vals startIndex (startIndex + size newValues) newValues;
      Some (mkProfile (Some t0) vals')
  end.

(** [add(fromDT, valuesToAdd)] *)
Definition add (p : Profile) (fromDT : Z) (valuesToAdd : list Q) : option Profile :=
  let t0 := match startingDT p with None => fromDT | Some t => t end in
  let startIndex := minutesBetween t0 fromDT in
  let newSize := startIndex + size valuesToAdd in
  let vals := resizeTo (values p) newSize in
  vals' ← addSlice vals startIndex (startIndex + size valuesToAdd) valuesToAdd;
  Some (mkProfile (Some t0) vals').

Section Transition.

(** [halfCosine n k] stands for [(cos(pi * k / n) + 1) / 2], entry [k] of
    [(numpy.cos(numpy.linspace(0, numpy.pi, num=n, endpoint=False)) + 1) / 2].
    The cosine is not rational, so the table is a parameter of the model. *)
Variable halfCosine : nat -> nat -> Q.

Definition ratioVector (n : Z) : list Q :=
  map (halfCosine (Z.to_nat n)) (seq 0 (Z.to_nat n)).

(** [transition(fromDT, newValues)] *)
Definition transition (p : Profile) (fromDT : Z) (newValues : list Q) : option Profile :=
  match startingDT p with
  | None => set p fromDT newValues
  | Some t0 =>
      let startIndex := minutesBetween t0 fromDT in
      let overlappingValues := size (values p) - startIndex in
      let newSize := startIndex + size newValues in
      let vals := resizeTo (values p) newSize in
      if overlappingValues =? 0 then
        Some (mkProfile (Some t0) (vals ++ newValues))
      else if overlappingValues <? 0 then
        vals' ← setSliceFrom vals startIndex newValues;
        Some (mkProfile (Some t0) vals')
      else
        let oldValues := sliceFrom vals startIndex in
        let ratio := ratioVector overlappingValues in
        oldMask ← padRight ratio (size newValues - overlappingValues) 0%Q;
        newMask ← padRight (map (fun x => 1 - x)%Q ratio)
                           (size newValues - overlappingValues) 1%Q;
        old' ← binop Qmult oldValues oldMask;
        new' ← binop Qmult newValues newMask;
        blend ← binop Qplus old' new';
        vals' ← setSliceFrom vals startIndex blend;
        Some (mkProfile (Some t0) vals')
  end.

End Transition.

(** [scale(s)] *)
Definition scale (p : Profile) (s : Q) : Profile :=
  mkProfile (startingDT p) (map (fun x => x * s)%Q (values p)).

(** [prune(toDT)] *)
Definition prune (p : Profile) (toDT : Z) : Profile :=
  match startingDT p with
  | None => p
  | Some t0 =>
      if toDT <=? t0 then p
      else mkProfile (Some toDT) (sliceFrom (values p) (minutesBetween t0 toDT))
  end.

(** The exact values of [(cos(pi*k/n)+1)/2] for overlaps of at most three
    minutes, where they are rational; used to evaluate [transition] on
    small profiles. *)
Definition halfCosineSmall (n k : nat) : Q :=
  match n, k with
  | 1%nat, 0%nat => 1
  | 2%nat, 0%nat => 1
  | 2%nat, 1%nat => 1 # 2
  | 3%nat, 0%nat => 1
  | 3%nat, 1%nat => 3 # 4
  | 3%nat, 2%nat => 1 # 4
  | _, _ => 0
  end%Q.

(** [numpy.mean] of a one-dimensional array. *)
Definition mean (a : list Q) : Q := (sum a / inject_Z (size a))%Q.

(** The loop of [dailyAverages], [fuel] turns at most. *)
Fixpoint dailyAveragesFrom (fuel : nat) (vals : list Q) (currentDate startIndex endIndex : Z)
    : list (Z * Q) :=
  match fuel with
  | O => []
  | S fuel' =>
      if startIndex <? size vals then
        let dayValues := slice vals (Z.max 0 startIndex) (Z.min endIndex (size vals)) in
        (currentDate, mean dayValues)
          :: dailyAveragesFrom fuel' vals (currentDate + 1)
                               (startIndex + 24 * 60) (endIndex + 24 * 60)
      else []
  end.

(** [dailyAverages]: the dictionary as the list of its items, in the
    order in which the dates are inserted. *)
Definition dailyAverages (p : Profile) : list (Z * Q) :=
  match startingDT p with
  | None => []
  | Some t0 =>
      if size (values p) =? 0 then []
      else
        let currentDate := dateOf t0 in
        let startIndex := minutesBetween t0 (currentDate * oneDay) in
        let endIndex := startIndex + 24 * 60 in
        dailyAveragesFrom (Z.to_nat ((size (values p) - startIndex + 24 * 60 - 1) / (24 * 60)))
                          (values p) currentDate startIndex endIndex
  end.

(** A profile that can take an [add] at [fromDT] and be read from there
    on: it has no anchor and no values, or its anchor is at or before
    [fromDT] and its values reach [fromDT]. *)
Definition extendableAt (p : Profile) (fromDT : Z) : Prop :=
  match startingDT p with
  | None => values p = []
  | Some t0 => t0 <= fromDT /\ fromDT - t0 <= size (values p)
  end.

(** The value stored at position [j] of the array, zero past its end. *)
Definition cell (p : Profile) (j : nat) : Q := default 0%Q (values p !! j).

End profile.

(** ** Python statements on a mutable object

    A method mutates its object in place and may raise: the state is
    threaded through, and it survives an exception ([None]). *)

Module py.

Definition M (S A : Type) : Type := S -> option A * S.

Definition ret {S A} (a : A) : M S A := fun s => (Some a, s).

Definition bind {S A B} (m : M S A) (k : A -> M S B) : M S B :=
  fun s => match m s with
           | (Some a, s') => k a s'
           | (None, s') => (None, s')
           end.

Definition raise {S A} : M S A := fun s => (None, s).

Definition gets {S A} (f : S -> A) : M S A := fun s => (Some (f s), s).

Definition modify {S} (f : S -> S) : M S unit := fun s => (Some tt, f s).

(** The value of an expression that may raise. *)
Definition eval {S A} (o : option A) : M S A := fun s => (o, s).

(** [for x in l: body] *)
Fixpoint forEach {S X} (l : list X) (body : X -> M S unit) : M S unit :=
  match l with
  | [] => ret tt
  | x :: l' => bind (body x) (fun _ => forEach l' body)
  end.

(** Running a method of a component inside a larger object. *)
Definition zoom {S T A} (proj : S -> T) (inj : T -> S -> S) (m : M T A) : M S A :=
  fun s => let '(r, t') := m (proj s) in (r, inj t' s).

(** A statement keeps a relation between the state before and after it,
    whether it returns or raises. *)
Definition preserves {S A} (R : S -> S -> Prop) (m : M S A) : Prop :=
  forall s, R s (snd (m s)).

Definition state {S A} (m : M S A) (s : S) : S := snd (m s).
Definition result {S A} (m : M S A) (s : S) : option A := fst (m s).

Module Import notations.
Notation "x <~ m ; k" := (bind m (fun x => k))
  (at level 20, m at level 100, k at level 200, only parsing).
Notation "m ;~ k" := (bind m (fun _ => k))
  (at level 100, k at level 200, right associativity, only parsing).
End notations.

End py.

(** Python's [random] module: the generator state is abstract, the draws
    are functions of it. *)
Record RandomModule := {
  Rng : Type;
  (** [random.random()], a float in [0, 1) *)
  randomFloat : Rng -> Q * Rng;
  (** the position picked by [random.choice] in a sequence of given length *)
  randomIndex : nat -> Rng -> nat * Rng;
  (** [random.gauss(mu, sigma)] *)
  randomGauss : Q -> Q -> Rng -> Q * Rng
}.

(** [datetime.time] *)
Record Time := mkTime { hour : Z; minute : Z }.

Definition validTime (t : Time) : Prop :=
  0 <= hour t < 24 /\ 0 <= minute t < 60.

Definition Qlt_bool (a b : Q) : bool := negb (Qle_bool b a).

(** Sorting of slot indices by value. *)
Module sorting.

Fixpoint insertBy (key : nat -> Q) (i : nat) (l : list nat) : list nat :=
  match l with
  | [] => [i]
  | j :: l' => if Qle_bool (key i) (key j) then i :: l
               else j :: insertBy key i l'
  end.

(** [numpy.argsort(a)]: the indices of [a] by ascending value.  numpy
    leaves the order of equal values open; here the earlier index comes
    first. *)
Definition argsort (a : list Q) : list nat :=
  let key i := match a !! i with Some x => x | None => 0%Q end in
  fold_right (insertBy key) [] (seq 0 (length a)).

(** [numpy.argpartition(a, kth)]: a permutation of the indices with the
    [kth] smallest values first; [kth] out of bounds raises.  numpy leaves
    the order inside both parts open; here both are sorted. *)
Definition argpartition (a : list Q) (kth : Z) : option (list nat) :=
  if (kth <? - numpy.size a) || (numpy.size a <=? kth) then None
  else Some (argsort a).

End sorting.

(** A world: the process-wide random generator and one mutable object. *)
Module world.
Import py py.notations.

Section World.
Context {R : RandomModule} {Obj : Type}.

Record World := mkWorld { rng : Rng R; self : Obj }.

(** A method that does not draw random numbers. *)
Definition onSelf {A} (m : M Obj A) : M World A :=
  zoom self (fun o w => mkWorld (rng w) o) m.

(** [random.random()] *)
Definition random_random : M World Q :=
  fun w => let '(x, g) := randomFloat R (rng w) in (Some x, mkWorld g (self w)).

(** [random.gauss(mu, sigma)] *)
Definition random_gauss (mu sigma : Q) : M World Q :=
  fun w => let '(x, g) := randomGauss R mu sigma (rng w) in (Some x, mkWorld g (self w)).

(** [random.choice(seq)]; an empty sequence raises [IndexError]. *)
Definition random_choice {A} (l : list A) : M World A :=
  match l with
  | [] => raise
  | _ => fun w => let '(i, g) := randomIndex R (length l) (rng w) in
                  (l !! i, mkWorld g (self w))
  end.

(** A statement that may draw random numbers but leaves the object alone. *)
Definition sameSelf (w w' : World) : Prop := self w' = self w.

End World.
Arguments World : clear implicits.
End world.

(** ** appliance.py: Battery *)

Module battery.
Import numpy utils profile py py.notations world sorting.

(** [((disconnectionTime, connectionTime), chargeNeeded)] *)
Definition Usage : Type := (Time * Time) * Q.

Record BatteryStatistics := mkBatteryStatistics {
  chargingPowers : list Q;
  usageProbabilities : gmap Z Q;
  neededCharges : gmap Z (list Q);
  (** a [defaultdict(list)]: a missing date reads as the empty list *)
  usageIntervals : gmap Z (list (option Time * option Time))
}.

Record Battery := mkBattery {
  usageStatistics : BatteryStatistics;
  chargingPower : Q;
  currentDT : Z;
  usages : gmap Z Usage;
  priceProfile : Profile;
  smartDemand : Profile;
  uncontrolledDemand : Profile;
  spreadOutDemand : Profile
}.

Definition setCurrentDT (dt : Z) (b : Battery) : Battery :=
  mkBattery (usageStatistics b) (chargingPower b) dt (usages b) (priceProfile b)
            (smartDemand b) (uncontrolledDemand b) (spreadOutDemand b).
Definition setUsages (u : gmap Z Usage) (b : Battery) : Battery :=
  mkBattery (usageStatistics b) (chargingPower b) (currentDT b) u (priceProfile b)
            (smartDemand b) (uncontrolledDemand b) (spreadOutDemand b).
Definition setPrices (p : Profile) (b : Battery) : Battery :=
  mkBattery (usageStatistics b) (chargingPower b) (currentDT b) (usages b) p
            (smartDemand b) (uncontrolledDemand b) (spreadOutDemand b).
Definition setSmart (p : Profile) (b : Battery) : Battery :=
  mkBattery (usageStatistics b) (chargingPower b) (currentDT b) (usages b) (priceProfile b)
            p (uncontrolledDemand b) (spreadOutDemand b).
Definition setUncontrolled (p : Profile) (b : Battery) : Battery :=
  mkBattery (usageStatistics b) (chargingPower b) (currentDT b) (usages b) (priceProfile b)
            (smartDemand b) p (spreadOutDemand b).
Definition setSpreadOut (p : Profile) (b : Battery) : Battery :=
  mkBattery (usageStatistics b) (chargingPower b) (currentDT b) (usages b) (priceProfile b)
            (smartDemand b) (uncontrolledDemand b) p.

Definition sameUsages (b b' : Battery) : Prop := usages b' = usages b.

(** [a[i:j] = x] for a scalar [x] *)
Definition fillSlice (a : list Q) (i j : Z) (x : Q) : list Q :=
  let lo := Z.to_nat (sliceBound (size a) i) in
  let hi := Z.to_nat (sliceBound (size a) j) in
  take lo a ++ replicate (hi - lo)%nat x ++ drop (lo + (hi - lo))%nat a.

(** [a[i] = x]; out of range raises [IndexError]. *)
Definition setItem (a : list Q) (i : Z) (x : Q) : option (list Q) :=
  let k := if i <? 0 then i + size a else i in
  if (0 <=? k) && (k <? size a) then Some (<[Z.to_nat k := x]> a) else None.

(** [a[idxs] = x] for an array of indices *)
Fixpoint setItems (a : list Q) (idxs : list Z) (x : Q) : option (list Q) :=
  match idxs with
  | [] => Some a
  | i :: idxs' => a' ← setItem a i x; setItems a' idxs' x
  end.

Definition slotOf (t : Time) : Z := hour t * 60 + minute t.

(** [math.ceil(chargeNeeded / chargePerSlot)]; a zero divisor raises. *)
Definition slotsToCharge (chargeNeeded chargePerSlot : Q) : option Z :=
  if Qeq_bool chargePerSlot 0 then None
  else Some (Qceiling (chargeNeeded / chargePerSlot)).

(** The body of the loop of [calculateSmartDemand] for one midnight: the
    two-day power profile. *)
Definition smartDayProfile (chargingPower : Q) (connectionTime disconnectionTime : Time)
    (chargeNeeded : Q) (prices : Profile) (midnight : Z) : option (list Q) :=
  powerProfile ← zeros (2 * minutesIn oneDay);
  let chargePerSlot := (chargingPower / 60)%Q in
  slotsToChargeCompletely ← slotsToCharge chargeNeeded chargePerSlot;
  if 0 <? slotsToChargeCompletely then
    let connectionSlot := slotOf connectionTime in
    let disconnectionSlot := minutesIn oneDay + slotOf disconnectionTime in
    if disconnectionSlot - connectionSlot <=? slotsToChargeCompletely then
      Some (fillSlice powerProfile connectionSlot disconnectionSlot chargingPower)
    else
      priceProfile ← get prices midnight (midnight + 2 * oneDay);
      order ← argpartition (slice priceProfile connectionSlot disconnectionSlot)
                            slotsToChargeCompletely;
      let cheapestSlots :=
        map (fun i => Z.of_nat i + connectionSlot)
            (slice order 0 slotsToChargeCompletely) in
      powerProfile1 ← setItems powerProfile (slice cheapestSlots 0 (-1)) chargingPower;
      let lastSlotCharge :=
        (chargeNeeded - chargePerSlot * inject_Z (slotsToChargeCompletely - 1))%Q in
      lastSlot ← item cheapestSlots (-1);
      setItem powerProfile1 lastSlot (lastSlotCharge * 60)%Q
  else Some powerProfile.

(** The same for [calculateUncontrolledDemand]. *)
Definition uncontrolledDayProfile (chargingPower : Q) (connectionTime disconnectionTime : Time)
    (chargeNeeded : Q) : option (list Q) :=
  powerProfile ← zeros (2 * minutesIn oneDay);
  let chargePerSlot := (chargingPower / 60)%Q in
  slotsToChargeCompletely ← slotsToCharge chargeNeeded chargePerSlot;
  if 0 <? slotsToChargeCompletely then
    let connectionSlot := slotOf connectionTime in
    let disconnectionSlot := minutesIn oneDay + slotOf disconnectionTime in
    if disconnectionSlot - connectionSlot <? slotsToChargeCompletely then
      Some (fillSlice powerProfile connectionSlot disconnectionSlot chargingPower)
    else
      let powerProfile1 :=
        fillSlice powerProfile connectionSlot
                  (connectionSlot + slotsToChargeCompletely - 1) chargingPower in
      let lastSlotCharge :=
        (chargeNeeded - chargePerSlot * inject_Z (slotsToChargeCompletely - 1))%Q in
      setItem powerProfile1 (connectionSlot + slotsToChargeCompletely)
              (lastSlotCharge * 60)%Q
  else Some powerProfile.

(** The same for [calculateSpreadOutDemand]. *)
Definition spreadOutDayProfile (chargingPower : Q) (connectionTime disconnectionTime : Time)
    (chargeNeeded : Q) : option (list Q) :=
  powerProfile ← zeros (2 * minutesIn oneDay);
  let chargePerSlot := (chargingPower / 60)%Q in
  slotsToChargeCompletely ← slotsToCharge chargeNeeded chargePerSlot;
  if 0 <? slotsToChargeCompletely then
    let connectionSlot := slotOf connectionTime in
    let disconnectionSlot := minutesIn oneDay + slotOf disconnectionTime in
    if disconnectionSlot - connectionSlot <? slotsToChargeCompletely then
      Some (fillSlice powerProfile connectionSlot disconnectionSlot chargingPower)
    else
      Some (fillSlice powerProfile connectionSlot disconnectionSlot
              (chargeNeeded / (inject_Z (disconnectionSlot - connectionSlot) / 60))%Q)
  else Some powerProfile.

(** [self.memory.usages[date]] and [self.memory.usages[date + oneDay]] *)
Definition readUsages (date : Z) : M Battery (Time * Q * Time) :=
  today <~ (fun b => (usages b !! date, b));
  tomorrow <~ (fun b => (usages b !! (date + 1), b));
  let '((_, connectionTime), chargeNeeded) := today in
  let '((disconnectionTime, _), _) := tomorrow in
  ret (connectionTime, chargeNeeded, disconnectionTime).

Definition calculateSmartDemand (fromDT toDT : Z) : M Battery unit :=
  forEach (midnightsBetween fromDT toDT) (fun midnight =>
    let date := dateOf midnight in
    u <~ readUsages date;
    let '(connectionTime, chargeNeeded, disconnectionTime) := u in
    powerProfile <~ (fun b =>
      (smartDayProfile (chargingPower b) connectionTime disconnectionTime
                       chargeNeeded (priceProfile b) midnight, b));
    demand <~ (fun b => (add (smartDemand b) midnight powerProfile, b));
    modify (setSmart demand)).

Definition calculateUncontrolledDemand (fromDT toDT : Z) : M Battery unit :=
  forEach (midnightsBetween fromDT toDT) (fun midnight =>
    let date := dateOf midnight in
    u <~ readUsages date;
    let '(connectionTime, chargeNeeded, disconnectionTime) := u in
    powerProfile <~ (fun b =>
      (uncontrolledDayProfile (chargingPower b) connectionTime disconnectionTime
                              chargeNeeded, b));
    demand <~ (fun b => (add (uncontrolledDemand b) midnight powerProfile, b));
    modify (setUncontrolled demand)).

Definition calculateSpreadOutDemand (fromDT toDT : Z) : M Battery unit :=
  forEach (midnightsBetween fromDT toDT) (fun midnight =>
    let date := dateOf midnight in
    u <~ readUsages date;
    let '(connectionTime, chargeNeeded, disconnectionTime) := u in
    powerProfile <~ (fun b =>
      (spreadOutDayProfile (chargingPower b) connectionTime disconnectionTime
                           chargeNeeded, b));
    demand <~ (fun b => (add (spreadOutDemand b) midnight powerProfile, b));
    modify (setSpreadOut demand)).

(** [Appliance.calculateDemand] *)
Definition calculateDemand (fromDT toDT : Z) : M Battery unit :=
  calculateSmartDemand fromDT toDT;~
  calculateUncontrolledDemand fromDT toDT;~
  calculateSpreadOutDemand fromDT toDT.

(** [Appliance.setPriceProfile] *)
Definition setPriceProfile (dt : Z) (prices : list Q) : M Battery unit :=
  p <~ (fun b => (set (priceProfile b) dt prices, b));
  modify (setPrices p).

Section Random.
Context {R : RandomModule}.

(** [BatteryStatistics.randomNeededCharge] *)
Definition randomNeededCharge (date : Z) : M (World R Battery) Q :=
  u <~ random_random;
  p <~ (fun w => (usageProbabilities (usageStatistics (self w)) !! date, w));
  if Qlt_bool u p then
    charges <~ (fun w => (neededCharges (usageStatistics (self w)) !! date, w));
    random_choice charges
  else ret 0%Q.

(** [BatteryStatistics.randomUsageInterval] *)
Definition randomUsageInterval (date : Z) : M (World R Battery) (option Time * option Time) :=
  intervals <~ gets (fun w => default [] (usageIntervals (usageStatistics (self w)) !! date));
  if decide (length intervals = 0%nat) then ret (None, None)
  else random_choice intervals.

Definition generateUsage (fromDT toDT : Z) : M (World R Battery) unit :=
  forEach (midnightsBetween fromDT (toDT + oneDay)) (fun midnight =>
    let date := dateOf midnight in
    known <~ gets (fun w => usages (self w) !! date);
    match known with
    | Some _ => ret tt
    | None =>
        interval <~ randomUsageInterval date;
        let disconnectionTime := default (mkTime 23 59) (fst interval) in
        let connectionTime := default (mkTime 0 0) (snd interval) in
        chargeNeeded <~ randomNeededCharge date;
        onSelf (modify (fun b =>
          setUsages (<[date := ((disconnectionTime, connectionTime), chargeNeeded)]> (usages b)) b))
    end).

(** [Appliance.setUp] *)
Definition setUp (dt : Z) : M (World R Battery) unit :=
  onSelf (modify (setCurrentDT dt));~
  generateUsage dt (dt + oneDay).

(** [Appliance.tick] *)
Definition tick : M (World R Battery) unit :=
  cdt <~ gets (fun w => currentDT (self w));
  onSelf (modify (fun b => setPrices (prune (priceProfile b) (cdt - oneDay)) b));~
  onSelf (modify (fun b => setSmart (prune (smartDemand b) (cdt - oneDay)) b));~
  onSelf (modify (fun b => setUncontrolled (prune (uncontrolledDemand b) (cdt - oneDay)) b));~
  onSelf (modify (fun b => setSpreadOut (prune (spreadOutDemand b) (cdt - oneDay)) b));~
  generateUsage (cdt + oneDay) (cdt + 2 * oneDay);~
  onSelf (calculateDemand cdt (cdt + oneDay));~
  onSelf (modify (setCurrentDT (cdt + oneDay))).

(** The usages known before are still there, unchanged. *)
Definition keepsUsages (w w' : World R Battery) : Prop :=
  usages (self w) ⊆ usages (self w').

(** The public methods of a battery appliance. *)
Inductive Call :=
| CallSetUp (dt : Z)
| CallTick
| CallGenerateUsage (fromDT toDT : Z)
| CallCalculateDemand (fromDT toDT : Z)
| CallCalculateSmartDemand (fromDT toDT : Z)
| CallCalculateUncontrolledDemand (fromDT toDT : Z)
| CallCalculateSpreadOutDemand (fromDT toDT : Z)
| CallSetPriceProfile (dt : Z) (prices : list Q).

Definition call (c : Call) : M (World R Battery) unit :=
  match c with
  | CallSetUp dt => setUp dt
  | CallTick => tick
  | CallGenerateUsage f t => generateUsage f t
  | CallCalculateDemand f t => onSelf (calculateDemand f t)
  | CallCalculateSmartDemand f t => onSelf (calculateSmartDemand f t)
  | CallCalculateUncontrolledDemand f t => onSelf (calculateUncontrolledDemand f t)
  | CallCalculateSpreadOutDemand f t => onSelf (calculateSpreadOutDemand f t)
  | CallSetPriceProfile dt prices => onSelf (setPriceProfile dt prices)
  end.

(** A sequence of calls; an exception ends the program. *)
Definition calls (cs : list Call) : M (World R Battery) unit := forEach cs call.

End Random.
End battery.

(** ** appliance.py: Accumulator *)

Module accumulator.
Import numpy utils profile py py.notations sorting.

Record Accumulator := mkAccumulator {
  chargingPower : Q;
  capacity : Q;
  currentDT : Z;
  (** [usageStatistics.dischargingProfile] *)
  averageDischargingProfile : Profile;
  (** [memory.dischargingProfileScale] *)
  dischargingProfileScale : Q;
  (** [memory.smart.currentCharge] *)
  smartCharge : Q;
  (** [memory.uncontrolled.currentCharge] *)
  uncontrolledCharge : Q;
  (** [memory.spreadOut.charging] and [memory.spreadOut.currentCharge] *)
  spreadOutCharging : bool;
  spreadOutCharge : Q;
  (** [memory.dischargingProfile] *)
  dischargingProfile : Profile;
  priceProfile : Profile;
  smartDemand : Profile;
  uncontrolledDemand : Profile;
  spreadOutDemand : Profile
}.

(** The constructor; [u1], [flag] and [u2] are the outcomes of
    [random.random()], [random.choice([True, False])] and
    [random.random()], in this order. *)
Definition init (chargingPower capacity dischargingProfileScale : Q)
    (averageDischarging : Profile) (u1 : Q) (flag : bool) (u2 : Q) : Accumulator :=
  mkAccumulator chargingPower capacity 0 averageDischarging dischargingProfileScale
    (u1 * capacity)%Q capacity flag (u2 * capacity)%Q
    empty empty empty empty empty.

(** *** The limits of the smart algorithm, in integer charging steps *)

Definition lowerLimitRaw (startingCharge chargingRate : Q) (dischargingSum : list Q) : list Z :=
  map (fun d => Qceiling ((0 - startingCharge + d) / chargingRate)) dischargingSum.

Definition upperLimitRaw (upperTarget startingCharge chargingRate : Q)
    (dischargingSum : list Q) : list Z :=
  map (fun d => Qfloor ((upperTarget - startingCharge + d) / chargingRate)) dischargingSum.

(** [for i in range(totalSlots - 1): if lim[i+1] < lim[i]: lim[i+1] = lim[i]] *)
Fixpoint forwardFrom (prev : Z) (lim : list Z) : list Z :=
  match lim with
  | [] => []
  | x :: lim' => let x' := if x <? prev then prev else x in
                 x' :: forwardFrom x' lim'
  end.
Definition forwardCut (lim : list Z) : list Z :=
  match lim with
  | [] => []
  | x :: lim' => x :: forwardFrom x lim'
  end.

(** [for i in reversed(range(totalSlots - 1)):
      if lim[i] < lim[i+1] - 1: lim[i] = lim[i+1] - 1] *)
Fixpoint backwardCut (lim : list Z) : list Z :=
  match lim with
  | [] => []
  | x :: lim' =>
      let done := backwardCut lim' in
      match done with
      | [] => [x]
      | y :: _ => (if x <? y - 1 then y - 1 else x) :: done
      end
  end.

(** [for i in range(totalSlots): if lim[i] > i + off: lim[i] = i + off
    else: break] *)
Fixpoint capFrom (off i : Z) (lim : list Z) : list Z :=
  match lim with
  | [] => []
  | x :: lim' => if i + off <? x then (i + off) :: capFrom off (i + 1) lim' else lim
  end.

(** The limits as they enter the greedy loop, the starting point [0]
    included. *)
Definition lowerLimits (startingCharge chargingRate : Q) (dischargingSum : list Q) : list Z :=
  let raw := lowerLimitRaw startingCharge chargingRate dischargingSum in
  let clamped := map (fun x => Z.max x 0) raw in
  0 :: capFrom 0 0 (backwardCut (forwardCut clamped)).

Definition upperLimits (upperTarget startingCharge chargingRate : Q)
    (dischargingSum : list Q) (totalSlots : Z) : list Z :=
  let raw := upperLimitRaw upperTarget startingCharge chargingRate dischargingSum in
  let clamped := map (fun x => Z.min x totalSlots) raw in
  0 :: capFrom 1 0 (backwardCut (forwardCut clamped)).

(** [(mask).argmax()]: the first position where the test holds, 0 when it
    holds nowhere. *)
Fixpoint firstWhere (test : Z -> bool) (lim : list Z) : option nat :=
  match lim with
  | [] => None
  | x :: lim' => if test x then Some 0%nat else S <$> firstWhere test lim'
  end.
Definition argmaxWhere (test : Z -> bool) (lim : list Z) : nat :=
  default 0%nat (firstWhere test lim).

(** [lim[k:] -= 1] *)
Definition decreaseFrom (k : nat) (lim : list Z) : list Z :=
  take k lim ++ map (fun x => x - 1) (drop k lim).

Record Greedy := mkGreedy {
  lowerLimit : list Z;
  upperLimit : list Z;
  chargingProfile : list Q
}.

(** One turn of [for slot in cheapestOrder]. *)
Definition greedyStep (g : Greedy) (slot : nat) : option Greedy :=
  lowerHere ← lowerLimit g !! slot;
  upperNext ← upperLimit g !! S slot;
  lowerLast ← item (lowerLimit g) (-1);
  if (lowerHere <? upperNext) && (lowerHere <? lowerLast) then
    let lowerSlot := argmaxWhere (fun x => lowerHere <? x) (lowerLimit g) in
    let upperSlot := argmaxWhere (fun x => x =? upperNext) (upperLimit g) in
    Some (mkGreedy (decreaseFrom lowerSlot (lowerLimit g))
                   (decreaseFrom upperSlot (upperLimit g))
                   (<[slot := 1%Q]> (chargingProfile g)))
  else Some g.

Fixpoint greedyLoop (g : Greedy) (order : list nat) : option Greedy :=
  match order with
  | [] => Some g
  | slot :: order' => g' ← greedyStep g slot; greedyLoop g' order'
  end.

(** The charging profile over the whole planning window: 1 for a slot in
    which the appliance charges, 0 otherwise.  A zero charging rate makes
    the limits non-finite; that is [None]. *)
Definition smartChargingProfile (chargingPower capacity startingCharge : Q)
    (priceProfile dischargingKW : list Q) (totalSlots : Z) : option (list Q) :=
  let chargingRate := (chargingPower / 60)%Q in
  if Qeq_bool chargingRate 0 then None
  else
    let dischargingRates := map (fun x => x / 60)%Q dischargingKW in
    let dischargingSum := cumsum dischargingRates in
    let lower := lowerLimits startingCharge chargingRate dischargingSum in
    let upper := upperLimits capacity startingCharge chargingRate dischargingSum totalSlots in
    profile0 ← zeros totalSlots;
    g ← greedyLoop (mkGreedy lower upper profile0) (argsort priceProfile);
    Some (chargingProfile g).

(** The charge after each minute of the planning window under a charging
    profile: [c0 + onCount(k) * r - D_k]. *)
Definition simulatedCharges (chargingPower startingCharge : Q)
    (chargingProfile dischargingKW : list Q) : list Q :=
  let chargingRate := (chargingPower / 60)%Q in
  let dischargingSum := cumsum (map (fun x => x / 60)%Q dischargingKW) in
  zip_with (fun on d => startingCharge + on * chargingRate - d)%Q
           (cumsum chargingProfile) dischargingSum.

Definition withinBounds (capacity : Q) (charges : list Q) : bool :=
  forallb (fun c => Qle_bool 0 c && Qle_bool c capacity) charges.

Definition setSmartCharge (charge : Q) (a : Accumulator) : Accumulator :=
  mkAccumulator (chargingPower a) (capacity a) (currentDT a) (averageDischargingProfile a)
    (dischargingProfileScale a) charge (uncontrolledCharge a) (spreadOutCharging a)
    (spreadOutCharge a) (dischargingProfile a) (priceProfile a) (smartDemand a)
    (uncontrolledDemand a) (spreadOutDemand a).

Definition setSmartDemand (demand : Profile) (a : Accumulator) : Accumulator :=
  mkAccumulator (chargingPower a) (capacity a) (currentDT a) (averageDischargingProfile a)
    (dischargingProfileScale a) (smartCharge a) (uncontrolledCharge a) (spreadOutCharging a)
    (spreadOutCharge a) (dischargingProfile a) (priceProfile a) demand
    (uncontrolledDemand a) (spreadOutDemand a).

Definition setUncontrolledCharge (charge : Q) (a : Accumulator) : Accumulator :=
  mkAccumulator (chargingPower a) (capacity a) (currentDT a) (averageDischargingProfile a)
    (dischargingProfileScale a) (smartCharge a) charge (spreadOutCharging a)
    (spreadOutCharge a) (dischargingProfile a) (priceProfile a) (smartDemand a)
    (uncontrolledDemand a) (spreadOutDemand a).

Definition setUncontrolledDemand (demand : Profile) (a : Accumulator) : Accumulator :=
  mkAccumulator (chargingPower a) (capacity a) (currentDT a) (averageDischargingProfile a)
    (dischargingProfileScale a) (smartCharge a) (uncontrolledCharge a) (spreadOutCharging a)
    (spreadOutCharge a) (dischargingProfile a) (priceProfile a) (smartDemand a)
    demand (spreadOutDemand a).

Definition setSpreadOutState (charging : bool) (charge : Q) (a : Accumulator) : Accumulator :=
  mkAccumulator (chargingPower a) (capacity a) (currentDT a) (averageDischargingProfile a)
    (dischargingProfileScale a) (smartCharge a) (uncontrolledCharge a) charging
    charge (dischargingProfile a) (priceProfile a) (smartDemand a)
    (uncontrolledDemand a) (spreadOutDemand a).

Definition setSpreadOutDemand (demand : Profile) (a : Accumulator) : Accumulator :=
  mkAccumulator (chargingPower a) (capacity a) (currentDT a) (averageDischargingProfile a)
    (dischargingProfileScale a) (smartCharge a) (uncontrolledCharge a) (spreadOutCharging a)
    (spreadOutCharge a) (dischargingProfile a) (priceProfile a) (smartDemand a)
    (uncontrolledDemand a) demand.

Definition setDischargingProfile (p : Profile) (a : Accumulator) : Accumulator :=
  mkAccumulator (chargingPower a) (capacity a) (currentDT a) (averageDischargingProfile a)
    (dischargingProfileScale a) (smartCharge a) (uncontrolledCharge a) (spreadOutCharging a)
    (spreadOutCharge a) p (priceProfile a) (smartDemand a)
    (uncontrolledDemand a) (spreadOutDemand a).

(** [Accumulator.generateUsage] *)
Definition generateUsage (fromDT toDT : Z) : M Accumulator unit :=
  average <~ (fun a => (get (averageDischargingProfile a) fromDT toDT, a));
  scale <~ gets dischargingProfileScale;
  p <~ (fun a => (set (dischargingProfile a) fromDT (map (fun x => x * scale)%Q average), a));
  modify (setDischargingProfile p).

(** [Accumulator.calculateSmartDemand] *)
Definition calculateSmartDemand (fromDT toDT : Z) : M Accumulator unit :=
  let endMargin := oneDay in
  let wantedSlots := minutesBetween fromDT toDT in
  let totalSlots := minutesBetween fromDT (toDT + endMargin) in
  prices <~ (fun a => (get (priceProfile a) fromDT (toDT + endMargin), a));
  dischargingKW <~ (fun a => (get (dischargingProfile a) fromDT (toDT + endMargin), a));
  startingCharge <~ gets smartCharge;
  power <~ gets chargingPower;
  cap <~ gets capacity;
  charging <~ eval (smartChargingProfile power cap startingCharge prices dischargingKW totalSlots);
  let chargingRate := (power / 60)%Q in
  let dischargingSum := cumsum (map (fun x => x / 60)%Q dischargingKW) in
  discharged <~ eval (item dischargingSum (wantedSlots - 1));
  let newCharge :=
    (startingCharge - discharged + sum (slice charging 0 wantedSlots) * chargingRate)%Q in
  let powerProfile := map (fun x => x * power)%Q (slice charging 0 wantedSlots) in
  modify (setSmartCharge newCharge);~
  demand <~ (fun a => (set (smartDemand a) fromDT powerProfile, a));
  modify (setSmartDemand demand).

(** *** The uncontrolled simulation *)

(** One turn of [for slot in range(totalSlots)]: the new charge and the
    power drawn in the slot. *)
Definition uncontrolledStep (chargingPower upperLimit charge dischargingRate : Q) : Q * Q :=
  let chargingRate := (chargingPower / 60)%Q in
  let charge1 := (charge - dischargingRate)%Q in
  if Qlt_bool (charge1 + chargingRate) upperLimit
  then ((charge1 + chargingRate)%Q, chargingPower)
  else (charge1, 0%Q).

(** The loop; it returns the final charge, the power profile and the
    charge after each slot. *)
Fixpoint uncontrolledLoop (chargingPower upperLimit charge : Q) (dischargingRates : list Q)
    : Q * list Q * list Q :=
  match dischargingRates with
  | [] => (charge, [], [])
  | d :: rest =>
      let '(charge', power) := uncontrolledStep chargingPower upperLimit charge d in
      let '(final, powers, trace) := uncontrolledLoop chargingPower upperLimit charge' rest in
      (final, power :: powers, charge' :: trace)
  end.

(** [Accumulator.calculateUncontrolledDemand] *)
Definition calculateUncontrolledDemand (fromDT toDT : Z) : M Accumulator unit :=
  dischargingKW <~ (fun a => (get (dischargingProfile a) fromDT toDT, a));
  let dischargingRates := map (fun x => x / 60)%Q dischargingKW in
  power <~ gets chargingPower;
  upperLimit <~ gets capacity;
  charge <~ gets uncontrolledCharge;
  let '(final, powerProfile, _) := uncontrolledLoop power upperLimit charge dischargingRates in
  modify (setUncontrolledCharge final);~
  demand <~ (fun a => (set (uncontrolledDemand a) fromDT powerProfile, a));
  modify (setUncontrolledDemand demand).

(** *** The thermostat simulation *)

Fixpoint spreadOutLoop (chargingPower upperLimit charge : Q) (charging : bool)
    (dischargingRates : list Q) : Q * bool * list Q :=
  match dischargingRates with
  | [] => (charge, charging, [])
  | d :: rest =>
      let chargingRate := (chargingPower / 60)%Q in
      let charge1 := (charge - d)%Q in
      let charging' :=
        if charging then negb (Qlt_bool upperLimit (charge1 + chargingRate))
        else Qle_bool charge1 0 in
      let charge2 := if charging' then (charge1 + chargingRate)%Q else charge1 in
      let '(final, flag, powers) := spreadOutLoop chargingPower upperLimit charge2 charging' rest in
      (final, flag, (if charging' then chargingPower else 0%Q) :: powers)
  end.

(** [Accumulator.calculateSpreadOutDemand] *)
Definition calculateSpreadOutDemand (fromDT toDT : Z) : M Accumulator unit :=
  dischargingKW <~ (fun a => (get (dischargingProfile a) fromDT toDT, a));
  let dischargingRates := map (fun x => x / 60)%Q dischargingKW in
  power <~ gets chargingPower;
  upperLimit <~ gets capacity;
  charge <~ gets spreadOutCharge;
  charging <~ gets spreadOutCharging;
  let '(final, flag, powerProfile) :=
    spreadOutLoop power upperLimit charge charging dischargingRates in
  modify (setSpreadOutState flag final);~
  demand <~ (fun a => (set (spreadOutDemand a) fromDT powerProfile, a));
  modify (setSpreadOutDemand demand).

(** The shape of the state of the greedy loop for a window of [n] slots:
    [n + 1] limits on either side and [n] profile entries, each 0 or 1. *)
Definition greedyShape (n : nat) (g : Greedy) : Prop :=
  length (lowerLimit g) = S n /\ length (upperLimit g) = S n
  /\ length (chargingProfile g) = n
  /\ Forall (fun x => x = 0%Q \/ x = 1%Q) (chargingProfile g).

End accumulator.

(** ** appliance.py: Machine *)

Module machine.
Import numpy utils profile py py.notations world.

(** [((startAfter, finishBy), powerUsageProfile)], or [None] when the
    machine does not run that day. *)
Definition Usage : Type := option ((Time * Time) * list Q).

Record MachineStatistics := mkMachineStatistics {
  startAfterParameters : Q * Q;
  finishByParameters : Q * Q;
  usageProbabilities : gmap Z Q;
  usageProfiles : list (list Q)
}.

Record Machine := mkMachine {
  usageStatistics : MachineStatistics;
  currentDT : Z;
  usages : gmap Z Usage;
  priceProfile : Profile;
  smartDemand : Profile;
  uncontrolledDemand : Profile;
  spreadOutDemand : Profile
}.

Definition setCurrentDT (dt : Z) (m : Machine) : Machine :=
  mkMachine (usageStatistics m) dt (usages m) (priceProfile m)
            (smartDemand m) (uncontrolledDemand m) (spreadOutDemand m).
Definition setUsages (u : gmap Z Usage) (m : Machine) : Machine :=
  mkMachine (usageStatistics m) (currentDT m) u (priceProfile m)
            (smartDemand m) (uncontrolledDemand m) (spreadOutDemand m).
Definition setPrices (p : Profile) (m : Machine) : Machine :=
  mkMachine (usageStatistics m) (currentDT m) (usages m) p
            (smartDemand m) (uncontrolledDemand m) (spreadOutDemand m).
Definition setSmart (p : Profile) (m : Machine) : Machine :=
  mkMachine (usageStatistics m) (currentDT m) (usages m) (priceProfile m)
            p (uncontrolledDemand m) (spreadOutDemand m).
Definition setUncontrolled (p : Profile) (m : Machine) : Machine :=
  mkMachine (usageStatistics m) (currentDT m) (usages m) (priceProfile m)
            (smartDemand m) p (spreadOutDemand m).
Definition setSpreadOut (p : Profile) (m : Machine) : Machine :=
  mkMachine (usageStatistics m) (currentDT m) (usages m) (priceProfile m)
            (smartDemand m) (uncontrolledDemand m) p.

Definition sameUsages (m m' : Machine) : Prop := usages m' = usages m.

Definition slotOf (t : Time) : Z := hour t * 60 + minute t.

(** [numpy.dot] of two one-dimensional arrays; different lengths raise. *)
Definition dot (a b : list Q) : option Q :=
  if decide (length a = length b) then Some (sum (zip_with Qmult a b)) else None.

(** [range(a, b)] *)
Definition range (a b : Z) : list Z :=
  map (fun i => a + Z.of_nat i) (seq 0 (Z.to_nat (b - a))).

(** The search loop of [calculateSmartDemand]; [cheapestPrice = None] is
    [math.inf]. *)
Fixpoint searchCheapest (powerUsageProfile priceProfile : list Q) (runtime : Z)
    (slots : list Z) (cheapestSlot : Z) (cheapestPrice : option Q) : option Z :=
  match slots with
  | [] => Some cheapestSlot
  | startingSlot :: slots' =>
      slotPrice ← dot powerUsageProfile
                      (slice priceProfile startingSlot (startingSlot + runtime));
      let better := match cheapestPrice with
                    | None => true
                    | Some c => Qlt_bool slotPrice c
                    end in
      if better
      then searchCheapest powerUsageProfile priceProfile runtime slots'
                          startingSlot (Some slotPrice)
      else searchCheapest powerUsageProfile priceProfile runtime slots'
                          cheapestSlot cheapestPrice
  end.

(** The slot in which the smart machine starts. *)
Definition smartStartSlot (startAfter finishBy : Time) (powerUsageProfile priceProfile : list Q)
    : option Z :=
  let startAfterSlot := slotOf startAfter in
  let finishBySlot := slotOf finishBy + minutesIn oneDay in
  let runtime := size powerUsageProfile in
  if runtime <? finishBySlot - startAfterSlot then
    searchCheapest powerUsageProfile priceProfile runtime
                   (range startAfterSlot (finishBySlot - runtime)) startAfterSlot None
  else Some startAfterSlot.

(** The slot in which the uncontrolled machine starts. *)
Definition uncontrolledStartSlot (startAfter : Time) : Z := slotOf startAfter.

(** The slot in which the spread-out machine starts. *)
Definition spreadOutStartSlot (startAfter finishBy : Time) (powerUsageProfile : list Q) : Z :=
  let startAfterSlot := slotOf startAfter in
  let finishBySlot := slotOf finishBy + minutesIn oneDay in
  startAfterSlot + Z.max 0 ((finishBySlot - startAfterSlot - size powerUsageProfile) / 2).

(** The price of a run that starts at [slot]: the dot product of the
    usage profile with the prices from [slot] on. *)
Definition runCost (powerUsageProfile priceProfile : list Q) (slot : Z) : Q :=
  sum (zip_with Qmult powerUsageProfile
                (slice priceProfile slot (slot + size powerUsageProfile))).

(** [powerProfile[slot:slot+runtime] = powerUsageProfile] on a zeroed
    two-day buffer. *)
Definition pasteRun (powerUsageProfile : list Q) (slot : Z) : option (list Q) :=
  powerProfile ← zeros (2 * minutesIn oneDay);
  setSlice powerProfile slot (slot + size powerUsageProfile) powerUsageProfile.

Definition smartDayProfile (usage : Usage) (prices : Profile) (midnight : Z)
    : option (list Q) :=
  match usage with
  | None => zeros (2 * minutesIn oneDay)
  | Some ((startAfter, finishBy), powerUsageProfile) =>
      priceProfile ← get prices midnight (midnight + 2 * oneDay);
      cheapestSlot ← smartStartSlot startAfter finishBy powerUsageProfile priceProfile;
      pasteRun powerUsageProfile cheapestSlot
  end.

Definition uncontrolledDayProfile (usage : Usage) : option (list Q) :=
  match usage with
  | None => zeros (2 * minutesIn oneDay)
  | Some ((startAfter, _), powerUsageProfile) =>
      pasteRun powerUsageProfile (uncontrolledStartSlot startAfter)
  end.

Definition spreadOutDayProfile (usage : Usage) : option (list Q) :=
  match usage with
  | None => zeros (2 * minutesIn oneDay)
  | Some ((startAfter, finishBy), powerUsageProfile) =>
      pasteRun powerUsageProfile (spreadOutStartSlot startAfter finishBy powerUsageProfile)
  end.

Definition calculateSmartDemand (fromDT toDT : Z) : M Machine unit :=
  forEach (midnightsBetween fromDT toDT) (fun midnight =>
    let date := dateOf midnight in
    usage <~ (fun m => (usages m !! date, m));
    powerProfile <~ (fun m => (smartDayProfile usage (priceProfile m) midnight, m));
    demand <~ (fun m => (add (smartDemand m) midnight powerProfile, m));
    modify (setSmart demand)).

Definition calculateUncontrolledDemand (fromDT toDT : Z) : M Machine unit :=
  forEach (midnightsBetween fromDT toDT) (fun midnight =>
    let date := dateOf midnight in
    usage <~ (fun m => (usages m !! date, m));
    powerProfile <~ eval (uncontrolledDayProfile usage);
    demand <~ (fun m => (add (uncontrolledDemand m) midnight powerProfile, m));
    modify (setUncontrolled demand)).

Definition calculateSpreadOutDemand (fromDT toDT : Z) : M Machine unit :=
  forEach (midnightsBetween fromDT toDT) (fun midnight =>
    let date := dateOf midnight in
    usage <~ (fun m => (usages m !! date, m));
    powerProfile <~ eval (spreadOutDayProfile usage);
    demand <~ (fun m => (add (spreadOutDemand m) midnight powerProfile, m));
    modify (setSpreadOut demand)).

Definition calculateDemand (fromDT toDT : Z) : M Machine unit :=
  calculateSmartDemand fromDT toDT;~
  calculateUncontrolledDemand fromDT toDT;~
  calculateSpreadOutDemand fromDT toDT.

Definition setPriceProfile (dt : Z) (prices : list Q) : M Machine unit :=
  p <~ (fun m => (set (priceProfile m) dt prices, m));
  modify (setPrices p).

Section Random.
Context {R : RandomModule}.

(** [min(max(0, math.floor(random.gauss(mu, sigma))), minutesIn(oneDay)-1)]
    as a [datetime.time] *)
Definition randomMinuteOfDay (params : Q * Q) : M (World R Machine) Time :=
  x <~ random_gauss (fst params) (snd params);
  let minutes := Z.min (Z.max 0 (Qfloor x)) (minutesIn oneDay - 1) in
  ret (mkTime (minutes / 60) (minutes mod 60)).

Definition randomStartAfter : M (World R Machine) Time :=
  params <~ gets (fun w => startAfterParameters (usageStatistics (self w)));
  randomMinuteOfDay params.

Definition randomFinishBy : M (World R Machine) Time :=
  params <~ gets (fun w => finishByParameters (usageStatistics (self w)));
  randomMinuteOfDay params.

Definition randomUsageProfile : M (World R Machine) (list Q) :=
  profiles <~ gets (fun w => usageProfiles (usageStatistics (self w)));
  random_choice profiles.

Definition generateUsage (fromDT toDT : Z) : M (World R Machine) unit :=
  forEach (midnightsBetween fromDT toDT) (fun midnight =>
    let date := dateOf midnight in
    known <~ gets (fun w => usages (self w) !! date);
    match known with
    | Some _ => ret tt
    | None =>
        u <~ random_random;
        p <~ (fun w => (usageProbabilities (usageStatistics (self w)) !! date, w));
        if Qlt_bool u p then
          startAfter <~ randomStartAfter;
          finishBy <~ randomFinishBy;
          powerUsageProfile <~ randomUsageProfile;
          onSelf (modify (fun m =>
            setUsages (<[date := Some ((startAfter, finishBy), powerUsageProfile)]> (usages m)) m))
        else
          onSelf (modify (fun m => setUsages (<[date := None]> (usages m)) m))
    end).

Definition setUp (dt : Z) : M (World R Machine) unit :=
  onSelf (modify (setCurrentDT dt));~
  generateUsage dt (dt + oneDay).

Definition tick : M (World R Machine) unit :=
  cdt <~ gets (fun w => currentDT (self w));
  onSelf (modify (fun m => setPrices (prune (priceProfile m) (cdt - oneDay)) m));~
  onSelf (modify (fun m => setSmart (prune (smartDemand m) (cdt - oneDay)) m));~
  onSelf (modify (fun m => setUncontrolled (prune (uncontrolledDemand m) (cdt - oneDay)) m));~
  onSelf (modify (fun m => setSpreadOut (prune (spreadOutDemand m) (cdt - oneDay)) m));~
  generateUsage (cdt + oneDay) (cdt + 2 * oneDay);~
  onSelf (calculateDemand cdt (cdt + oneDay));~
  onSelf (modify (setCurrentDT (cdt + oneDay))).

(** The usages known before are still there, unchanged. *)
Definition keepsUsages (w w' : World R Machine) : Prop :=
  usages (self w) ⊆ usages (self w').

Inductive Call :=
| CallSetUp (dt : Z)
| CallTick
| CallGenerateUsage (fromDT toDT : Z)
| CallCalculateDemand (fromDT toDT : Z)
| CallCalculateSmartDemand (fromDT toDT : Z)
| CallCalculateUncontrolledDemand (fromDT toDT : Z)
| CallCalculateSpreadOutDemand (fromDT toDT : Z)
| CallSetPriceProfile (dt : Z) (prices : list Q).

Definition call (c : Call) : M (World R Machine) unit :=
  match c with
  | CallSetUp dt => setUp dt
  | CallTick => tick
  | CallGenerateUsage f t => generateUsage f t
  | CallCalculateDemand f t => onSelf (calculateDemand f t)
  | CallCalculateSmartDemand f t => onSelf (calculateSmartDemand f t)
  | CallCalculateUncontrolledDemand f t => onSelf (calculateUncontrolledDemand f t)
  | CallCalculateSpreadOutDemand f t => onSelf (calculateSpreadOutDemand f t)
  | CallSetPriceProfile dt prices => onSelf (setPriceProfile dt prices)
  end.

Definition calls (cs : list Call) : M (World R Machine) unit := forEach cs call.

End Random.
End machine.

(** ** priceConfig.py *)

Record PriceConfig := mkPriceConfig {
  cheapIntervalLength : Z;
  cheapMinutesCount : Z;
  lowerPrice : Q;
  higherPrice : Q
}.

(** ** connection.py *)

Module connection.
Import numpy utils profile py py.notations.

Record Connection := mkConnection {
  cheaperPriceRatioProfile : Profile;
  cheaperMinutesProfile : Profile;
  priceProfile : Profile
}.

Definition setCheaperMinutes (p : Profile) (c : Connection) : Connection :=
  mkConnection (cheaperPriceRatioProfile c) p (priceProfile c).

(** [utils.randomWithRelativeProbs] normalises the weights and hands them
    to [numpy.random.choice], which rejects weights that are negative or
    do not add up to one (a zero sum gives not-a-number). *)
Definition usableWeights (relativeProbs : list Q) : bool :=
  forallb (Qle_bool 0) relativeProbs && Qlt_bool 0 (sum relativeProbs).

Definition nonZeroCount (relativeProbs : list Q) : Z :=
  size (filter (fun p => Qlt_bool 0 p = true) relativeProbs).

(** What a single draw of [randomWithRelativeProbs(probs)] can return: a
    position with a non-zero weight. *)
Definition possibleDraw (relativeProbs : list Q) (c : Z) : Prop :=
  0 <= c < size relativeProbs
  /\ Qlt_bool 0 (default 0%Q (relativeProbs !! Z.to_nat c)) = true.

(** What [randomWithRelativeProbs(probs, count)] can return: [count]
    distinct positions. *)
Definition possibleSample (relativeProbs : list Q) (count : Z) (positions : list Z) : Prop :=
  size positions = count /\ NoDup positions /\ Forall (possibleDraw relativeProbs) positions.

(** [a[i] = 1] for every index of an index array *)
Fixpoint setOnes (a : list Q) (idxs : list Z) : option (list Q) :=
  match idxs with
  | [] => Some a
  | i :: idxs' =>
      let k := if i <? 0 then i + size a else i in
      if (0 <=? k) && (k <? size a)
      then setOnes (<[Z.to_nat k := 1%Q]> a) idxs'
      else None
  end.

(** [a[i:j] = 1] *)
Definition fillOnes (a : list Q) (i j : Z) : list Q :=
  let lo := Z.to_nat (sliceBound (size a) i) in
  let hi := Z.to_nat (sliceBound (size a) j) in
  take lo a ++ replicate (hi - lo)%nat 1%Q ++ drop (lo + (hi - lo))%nat a.

(** [while numpy.sum(cheaperIntervals) < cheapMinutesTotal]: every turn
    uses one draw; [None] when the draws at hand do not end the loop. *)
Fixpoint cheapIntervalLoop (cheapIntervalLength cheapMinutesTotal : Z)
    (cheaperIntervals : list Q) (draws : list Z) : option (list Q) :=
  if Qlt_bool (sum cheaperIntervals) (inject_Z cheapMinutesTotal) then
    match draws with
    | [] => None
    | c :: draws' =>
        let shift := cheapIntervalLength in
        let cheapIntervalStart := minutesIn shift + c - cheapIntervalLength / 2 in
        cheapIntervalLoop cheapIntervalLength cheapMinutesTotal
          (fillOnes cheaperIntervals cheapIntervalStart
                    (cheapIntervalStart + cheapIntervalLength))
          draws'
    end
  else Some cheaperIntervals.

(** The cheap-minute mask of one day (the [else] branch, for a positive
    [cheapMinutesCount]); [draws] are the outcomes of the random
    positions: the sample when the interval length is 1, the successive
    single draws otherwise. *)
Definition cheaperIntervalsOfDay (config : PriceConfig) (ratios : Profile)
    (midnight : Z) (draws : list Z) : option (list Q) :=
  let cheapIntervalLength := cheapIntervalLength config in
  let cheapMinutesTotal := cheapMinutesCount config in
  cheaperIntervals ← zeros (minutesIn oneDay + 2 * cheapIntervalLength);
  let shift := cheapIntervalLength in
  probs ← get ratios (midnight + shift) (midnight + shift + oneDay);
  if cheapIntervalLength =? 1 then
    if usableWeights probs && (cheapMinutesTotal <=? nonZeroCount probs)
    then setOnes cheaperIntervals draws
    else None
  else
    if Qlt_bool (sum cheaperIntervals) (inject_Z cheapMinutesTotal)
         && negb (usableWeights probs)
    then None
    else cheapIntervalLoop cheapIntervalLength cheapMinutesTotal cheaperIntervals draws.

(** A mask holds only 0 and 1. *)
Definition binary (mask : list Q) : Prop :=
  Forall (fun x => x = 0%Q \/ x = 1%Q) mask.

(** A mask with one block of ones: [a] zeros, [b] ones, [c] zeros. *)
Definition blockMask (a b c : nat) : list Q :=
  replicate a 0%Q ++ replicate b 1%Q ++ replicate c 0%Q.

(** The draws [j * L, (j + 1) * L, ...], [k] of them: cheap intervals
    that follow each other without a gap. *)
Fixpoint adjacentDraws (L : Z) (j : nat) (k : nat) : list Z :=
  match k with
  | O => []
  | S k' => Z.of_nat j * L :: adjacentDraws L (S j) k'
  end.

(** The number of cells of a mask that hold 1. *)
Definition onesCount (mask : list Q) : Z :=
  size (filter (fun x => Qeq_bool x 1 = true) mask).

(** The outcomes of the random calls of one run: the uniform numbers of
    the zero-count branch, and the positions for each midnight. *)
Record Outcomes := mkOutcomes {
  uniforms : list Q;
  positionsOfDay : Z -> list Z
}.

Definition generateRandomCheaperIntervals (config : PriceConfig) (o : Outcomes)
    (fromDT toDT : Z) : M Connection unit :=
  if cheapMinutesCount config =? 0 then
    probs <~ (fun c => (get (cheaperPriceRatioProfile c) fromDT toDT, c));
    let cheaperMinutes :=
      zip_with (fun u p => if Qlt_bool u p then 1%Q else 0%Q) (uniforms o) probs in
    minutes <~ (fun c => (add (cheaperMinutesProfile c) fromDT cheaperMinutes, c));
    modify (setCheaperMinutes minutes)
  else
    forEach (midnightsBetween fromDT toDT) (fun midnight =>
      cheaperIntervals <~ (fun c =>
        (cheaperIntervalsOfDay config (cheaperPriceRatioProfile c) midnight
                               (positionsOfDay o midnight), c));
      minutes <~ (fun c => (add (cheaperMinutesProfile c) midnight cheaperIntervals, c));
      modify (setCheaperMinutes minutes)).

Definition setPrices (p : Profile) (c : Connection) : Connection :=
  mkConnection (cheaperPriceRatioProfile c) (cheaperMinutesProfile c) p.

Definition setRatios (p : Profile) (c : Connection) : Connection :=
  mkConnection p (cheaperMinutesProfile c) (priceProfile c).

(** [numpy.minimum(x, 1)] *)
Definition atMostOne (x : Q) : Q := if Qle_bool x 1 then x else 1%Q.

(** [x.astype(bool)]: every non-zero value is true. *)
Definition astypeBool (x : Q) : bool := negb (Qeq_bool x 0).

(** [generatePriceProfile]; [jitter i] is entry [i] of the outcome of
    [numpy.random.random(prices.size)]. *)
Definition generatePriceProfile (config : PriceConfig) (jitter : nat -> Q)
    (fromDT toDT : Z) : M Connection unit :=
  cheaperMinutes <~ (fun c => (get (cheaperMinutesProfile c) fromDT toDT, c));
  let cheapIntervals := map atMostOne cheaperMinutes in
  let full := replicate (length cheapIntervals) (higherPrice config) in
  let masked :=
    zip_with (fun cheap price => if astypeBool cheap then lowerPrice config else price)
             cheapIntervals full in
  let noise := map (fun i => jitter i * (1 # 100))%Q (seq 0 (length masked)) in
  let prices := zip_with Qplus masked noise in
  p <~ (fun c => (set (priceProfile c) fromDT prices, c));
  modify (setPrices p).

(** [setPriceRatio] *)
Definition setPriceRatio (fromDT : Z) (priceRatio : list Q) : M Connection unit :=
  p <~ (fun c => (set (cheaperPriceRatioProfile c) fromDT priceRatio, c));
  modify (setRatios p).

End connection.

(** ** grid.py *)

Module grid.
Import numpy utils profile py py.notations.

(** The tables of [applianceStatistics] that the grid reads. *)
Record ApplianceStatistics := mkApplianceStatistics {
  atLeastThisManyCarsProbability : list Q;
  (** [carStatistics[i].averageNeededCharge] *)
  carAverageNeededCharge : list (gmap Z Q);
  ownershipAirConditioning : Q;
  ownershipElectricalHeating : Q;
  ownershipFridge : Q;
  ownershipWaterHeater : Q;
  ownershipDishwasher : Q;
  ownershipWashingMachine : Q;
  airConditioningAverageDailyCharge : gmap Z Q;
  electricalHeatingAverageDailyCharge : gmap Z Q;
  fridgeAverageDailyCharge : gmap Z Q;
  waterHeaterAverageDailyCharge : gmap Z Q;
  dishwasherAveragePowerNeeded : gmap Z Q;
  washingMachineAveragePowerNeeded : gmap Z Q
}.

Record Grid := mkGrid {
  currentDT : Z;
  predictedBaseDemand : Profile;
  targetDemand : Profile;
  cheapPriceRatio : Profile;
  connections : list connection.Connection
}.

Definition setTargetDemand (p : Profile) (g : Grid) : Grid :=
  mkGrid (currentDT g) (predictedBaseDemand g) p (cheapPriceRatio g) (connections g).

(** The day portions after the first one, [count] of them at most. *)
Fixpoint dayPortionsFrom (count : nat) (currentDT nextMidnight endDT : Z) : list (Q * Z) :=
  match count with
  | O => if currentDT <? endDT
         then [(inject_Z (endDT - currentDT) / 1440, dateOf currentDT)%Q]
         else []
  | S count' =>
      if nextMidnight <=? endDT then
        (inject_Z (nextMidnight - currentDT) / 1440, dateOf currentDT)%Q
          :: dayPortionsFrom count' nextMidnight (nextMidnight + oneDay) endDT
      else if currentDT <? endDT
           then [(inject_Z (endDT - currentDT) / 1440, dateOf currentDT)%Q]
           else []
  end.

(** [utils.dayPortionsBetween] *)
Definition dayPortionsBetween (startDT endDT : Z) : list (Q * Z) :=
  if endDT <=? startDT then []
  else if dateOf startDT =? dateOf endDT then
    [(inject_Z (endDT - startDT) / 1440, dateOf startDT)%Q]
  else
    let nextMidnight := dateOf startDT * oneDay + oneDay in
    dayPortionsFrom (Z.to_nat ((endDT - nextMidnight) / oneDay + 1))
                    startDT nextMidnight endDT.

(** The expected consumption of one household on one day; a date that a
    table lacks raises [KeyError]. *)
Definition expectedDayConsumption (stats : ApplianceStatistics) (day : Z) : option Q :=
  cars ← foldl (fun acc carIndex =>
                  sofar ← acc;
                  ratio ← atLeastThisManyCarsProbability stats !! S carIndex;
                  table ← carAverageNeededCharge stats !! carIndex;
                  charge ← table !! day;
                  Some (sofar + ratio * charge)%Q)
               (Some 0%Q) (seq 0 4);
  ac ← airConditioningAverageDailyCharge stats !! day;
  eh ← electricalHeatingAverageDailyCharge stats !! day;
  fr ← fridgeAverageDailyCharge stats !! day;
  wh ← waterHeaterAverageDailyCharge stats !! day;
  dw ← dishwasherAveragePowerNeeded stats !! day;
  wm ← washingMachineAveragePowerNeeded stats !! day;
  Some (cars + ownershipAirConditioning stats * ac
             + ownershipElectricalHeating stats * eh
             + ownershipFridge stats * fr
             + ownershipWaterHeater stats * wh
             + ownershipDishwasher stats * dw
             + ownershipWashingMachine stats * wm)%Q.

(** The expected consumption of all households in the interval, before
    the random error is applied. *)
Definition expectedConsumption (stats : ApplianceStatistics) (houses : Z)
    (fromDT toDT : Z) : option Q :=
  foldl (fun acc portion =>
           total ← acc;
           day ← expectedDayConsumption stats (snd portion);
           Some (total + fst portion * inject_Z houses * day)%Q)
        (Some 0%Q) (dayPortionsBetween fromDT toDT).

(** [numpy.maximum(x, 0)] *)
Definition clampAtZero (x : Q) : Q := if Qle_bool x 0 then 0%Q else x.

Section Target.

(** The smooth curve through the peaks of the base demand,
    [scipy.signal.find_peaks] followed by [scipy.interpolate.interp1d];
    [None] when scipy raises (no peak found). *)
Variable peakEnvelope : list Q -> option (list Q).
Variable halfCosine : nat -> nat -> Q.
Variable stats : ApplianceStatistics.

(** The target demand that [calculateTargetDemand] hands to
    [targetDemand.transition], together with the total expected
    consumption after the random error; [noise] is the outcome of
    [numpy.random.random()]. *)
Definition newTargetDemand (noise : Q) (g : Grid) (fromDT toDT : Z) : option (Q * list Q) :=
  expected ← expectedConsumption stats (size (connections g)) fromDT toDT;
  let totalExpectedConsumption := (expected * ((9 # 10) + noise * (2 # 10)))%Q in
  let startMargin := oneDay in
  let endMargin := oneDay / 2 in
  let startIndex := minutesIn startMargin in
  baseDemand ← get (predictedBaseDemand g) (fromDT - startMargin) (toDT + endMargin);
  smoothDemand ← peakEnvelope baseDemand;
  difference ← binop Qminus smoothDemand baseDemand;
  let targetDemand := sliceFrom difference startIndex in
  let intervalLength := minutesBetween fromDT toDT in
  let totalTargetIntervalConsumption := (sum (slice targetDemand 0 intervalLength) / 60)%Q in
  adjusted ←
    (if Qle_bool totalExpectedConsumption totalTargetIntervalConsumption then
       if Qeq_bool totalTargetIntervalConsumption 0 then None
       else Some (map (fun x => x * (totalExpectedConsumption / totalTargetIntervalConsumption))%Q
                      targetDemand)
     else
       if intervalLength =? 0 then None
       else Some (map (fun x => x + (totalExpectedConsumption - totalTargetIntervalConsumption)
                                     / (inject_Z intervalLength / 60))%Q
                      targetDemand));
  Some (totalExpectedConsumption, map clampAtZero adjusted).

(** [Grid.calculateTargetDemand] *)
Definition calculateTargetDemand (noise : Q) (fromDT toDT : Z) : M Grid unit :=
  new <~ (fun g => (newTargetDemand noise g fromDT toDT, g));
  stored <~ (fun g => (transition halfCosine (targetDemand g) fromDT (snd new), g));
  modify (setTargetDemand stored).

End Target.

(** No entry of a power profile is negative. *)
Definition nonNegative (powers : list Q) : Prop := Forall (fun x => 0 <= x)%Q powers.

(** The integral, in kWh, of a power profile read over a window. *)
Definition integral (powers : list Q) : Q := (sum powers / 60)%Q.

End grid.

(** ** house.py *)

Module house.
Import numpy utils profile py py.notations.

(** The appliances of a house: cars are batteries; air conditioning,
    heating, water heaters and fridges are accumulators; washing machines
    and dishwashers are machines. *)
Inductive Appliance :=
| OfBattery (b : battery.Battery)
| OfAccumulator (a : accumulator.Accumulator)
| OfMachine (m : machine.Machine).

Definition applianceSmartDemand (appliance : Appliance) : Profile :=
  match appliance with
  | OfBattery b => battery.smartDemand b
  | OfAccumulator a => accumulator.smartDemand a
  | OfMachine m => machine.smartDemand m
  end.
Definition applianceUncontrolledDemand (appliance : Appliance) : Profile :=
  match appliance with
  | OfBattery b => battery.uncontrolledDemand b
  | OfAccumulator a => accumulator.uncontrolledDemand a
  | OfMachine m => machine.uncontrolledDemand m
  end.
Definition applianceSpreadOutDemand (appliance : Appliance) : Profile :=
  match appliance with
  | OfBattery b => battery.spreadOutDemand b
  | OfAccumulator a => accumulator.spreadOutDemand a
  | OfMachine m => machine.spreadOutDemand m
  end.

Record House := mkHouse {
  currentDT : Z;
  appliances : list Appliance;
  priceProfile : Profile;
  smartDemand : Profile;
  uncontrolledDemand : Profile;
  spreadOutDemand : Profile
}.

Definition setSmart (p : Profile) (h : House) : House :=
  mkHouse (currentDT h) (appliances h) (priceProfile h) p
          (uncontrolledDemand h) (spreadOutDemand h).
Definition setUncontrolled (p : Profile) (h : House) : House :=
  mkHouse (currentDT h) (appliances h) (priceProfile h) (smartDemand h)
          p (spreadOutDemand h).
Definition setSpreadOut (p : Profile) (h : House) : House :=
  mkHouse (currentDT h) (appliances h) (priceProfile h) (smartDemand h)
          (uncontrolledDemand h) p.

(** [getSmartDemand(fromDT, toDT)] and its two siblings *)
Definition getSmartDemand (h : House) (fromDT toDT : Z) : option (list Q) :=
  get (smartDemand h) fromDT toDT.
Definition getUncontrolledDemand (h : House) (fromDT toDT : Z) : option (list Q) :=
  get (uncontrolledDemand h) fromDT toDT.
Definition getSpreadOutDemand (h : House) (fromDT toDT : Z) : option (list Q) :=
  get (spreadOutDemand h) fromDT toDT.

(** One turn of the loop of [collectApplianceDemand]. *)
Definition collectFrom (fromDT toDT : Z) (appliance : Appliance) : M House unit :=
  smart <~ eval (get (applianceSmartDemand appliance) fromDT toDT);
  uncontrolled <~ eval (get (applianceUncontrolledDemand appliance) fromDT toDT);
  spreadOut <~ eval (get (applianceSpreadOutDemand appliance) fromDT toDT);
  p1 <~ (fun h => (add (smartDemand h) fromDT smart, h));
  modify (setSmart p1);~
  p2 <~ (fun h => (add (uncontrolledDemand h) fromDT uncontrolled, h));
  modify (setUncontrolled p2);~
  p3 <~ (fun h => (add (spreadOutDemand h) fromDT spreadOut, h));
  modify (setSpreadOut p3).

(** [collectApplianceDemand] *)
Definition collectApplianceDemand (fromDT toDT : Z) : M House unit :=
  all <~ gets appliances;
  forEach all (collectFrom fromDT toDT).

(** What the house reads of an appliance in one turn. *)
Definition readsOf (fromDT toDT : Z) (appliance : Appliance)
    (r : list Q * list Q * list Q) : Prop :=
  get (applianceSmartDemand appliance) fromDT toDT = Some r.1.1
  /\ get (applianceUncontrolledDemand appliance) fromDT toDT = Some r.1.2
  /\ get (applianceSpreadOutDemand appliance) fromDT toDT = Some r.2.

(** The three demand profiles of the house can be added to at
    [fromDT]. *)
Definition extendableHouse (h : House) (fromDT : Z) : Prop :=
  extendableAt (smartDemand h) fromDT
  /\ extendableAt (uncontrolledDemand h) fromDT
  /\ extendableAt (spreadOutDemand h) fromDT.

(** What the grid reads of a house. *)
Definition demandsOf (fromDT toDT : Z) (h : House) (r : list Q * list Q * list Q) : Prop :=
  getSmartDemand h fromDT toDT = Some r.1.1
  /\ getUncontrolledDemand h fromDT toDT = Some r.1.2
  /\ getSpreadOutDemand h fromDT toDT = Some r.2.

(** The element-wise sum of a list of arrays of one length, from [base]
    on. *)
Definition addAll (base : list Q) (arrays : list (list Q)) : list Q :=
  foldl (zip_with Qplus) base arrays.

(** The demands that the grid records ([Grid.smartDemand] and its two
    siblings). *)
Record RecordedDemands := mkRecordedDemands {
  gridSmartDemand : Profile;
  gridUncontrolledDemand : Profile;
  gridSpreadOutDemand : Profile
}.

(** [acc += x] on arrays: only [x] may be broadcast. *)
Definition inPlaceAdd (acc x : list Q) : option (list Q) :=
  x' ← broadcastTo (length acc) x;
  Some (zip_with Qplus acc x').

(** The loop of [Grid.collectDemands] over the houses of the
    connections. *)
Fixpoint sumDemands (houses : list House) (fromDT toDT : Z)
    (smart uncontrolled spreadOut : list Q) : option (list Q * list Q * list Q) :=
  match houses with
  | [] => Some (smart, uncontrolled, spreadOut)
  | h :: houses' =>
      s ← getSmartDemand h fromDT toDT;
      smart' ← inPlaceAdd smart s;
      u ← getUncontrolledDemand h fromDT toDT;
      uncontrolled' ← inPlaceAdd uncontrolled u;
      o ← getSpreadOutDemand h fromDT toDT;
      spreadOut' ← inPlaceAdd spreadOut o;
      sumDemands houses' fromDT toDT smart' uncontrolled' spreadOut'
  end.

(** [Grid.collectDemands] *)
Definition collectDemands (houses : list House) (fromDT toDT : Z) : M RecordedDemands unit :=
  let length := minutesBetween fromDT toDT in
  smartDemand <~ eval (zeros length);
  uncontrolledDemand <~ eval (zeros length);
  spreadOutDemand <~ eval (zeros length);
  sums <~ eval (sumDemands houses fromDT toDT smartDemand uncontrolledDemand spreadOutDemand);
  let '(smart, uncontrolled, spreadOut) := sums in
  p1 <~ (fun g => (set (gridSmartDemand g) fromDT smart, g));
  modify (fun g => mkRecordedDemands p1 (gridUncontrolledDemand g) (gridSpreadOutDemand g));~
  p2 <~ (fun g => (set (gridUncontrolledDemand g) fromDT uncontrolled, g));
  modify (fun g => mkRecordedDemands (gridSmartDemand g) p2 (gridSpreadOutDemand g));~
  p3 <~ (fun g => (set (gridSpreadOutDemand g) fromDT spreadOut, g));
  modify (fun g => mkRecordedDemands (gridSmartDemand g) (gridUncontrolledDemand g) p3).

End house.

(** ** run.py *)

Module run.

Definition isDigit (c : ascii) : bool :=
  let n := nat_of_ascii c in (48 <=? n)%nat && (n <=? 57)%nat.

Definition digitValue (c : ascii) : Z := Z.of_nat (nat_of_ascii c) - 48.

(** The white space that [int] strips (ASCII). *)
Definition isSpace (c : ascii) : bool :=
  let n := nat_of_ascii c in
  ((9 <=? n)%nat && (n <=? 13)%nat) || ((28 <=? n)%nat && (n <=? 32)%nat).

Fixpoint lstrip (s : list ascii) : list ascii :=
  match s with
  | c :: s' => if isSpace c then lstrip s' else s
  | [] => []
  end.

Definition strip (s : list ascii) : list ascii :=
  rev (lstrip (rev (lstrip s))).

(** Decimal digits, single underscores allowed between digits. *)
Fixpoint digitsValue (acc : Z) (afterDigit : bool) (s : list ascii) : option Z :=
  match s with
  | [] => if afterDigit then Some acc else None
  | c :: s' =>
      if isDigit c then digitsValue (acc * 10 + digitValue c) true s'
      else if Ascii.eqb c "_"%char && afterDigit then digitsValue acc false s'
      else None
  end.

(** [int(s)] for a string; [None] is [ValueError].  (ASCII digits only.) *)
Definition int (s : string) : option Z :=
  match strip (list_ascii_of_string s) with
  | c :: s' =>
      if Ascii.eqb c "-"%char then Z.opp <$> digitsValue 0 false s'
      else if Ascii.eqb c "+"%char then digitsValue 0 false s'
      else digitsValue 0 false (c :: s')
  | [] => None
  end.

Definition isLeap (y : Z) : bool :=
  ((y mod 4 =? 0) && negb (y mod 100 =? 0)) || (y mod 400 =? 0).

Definition daysInMonth (y m : Z) : Z :=
  if m =? 2 then (if isLeap y then 29 else 28)
  else if (m =? 4) || (m =? 6) || (m =? 9) || (m =? 11) then 30 else 31.

(** The start of [s] as a one- or two-digit number in [1, hi], two digits
    first, as the regular expressions of [%m] and [%d] take it. *)
Definition leadingNumber (hi : Z) (s : list ascii) : option (Z * list ascii) :=
  match s with
  | a :: b :: s' =>
      let two := digitValue a * 10 + digitValue b in
      if isDigit a && isDigit b && (1 <=? two) && (two <=? hi) then Some (two, s')
      else if isDigit a && (1 <=? digitValue a) then Some (digitValue a, b :: s')
      else None
  | [a] => if isDigit a && (1 <=? digitValue a) then Some (digitValue a, []) else None
  | [] => None
  end.

(** [datetime.datetime.strptime(s, "%Y-%m-%d")] as (year, month, day);
    [None] is [ValueError]. *)
Definition strptime (s : string) : option (Z * Z * Z) :=
  match list_ascii_of_string s with
  | y1 :: y2 :: y3 :: y4 :: dash :: rest =>
      if isDigit y1 && isDigit y2 && isDigit y3 && isDigit y4 && Ascii.eqb dash "-"%char then
        let year := ((digitValue y1 * 10 + digitValue y2) * 10 + digitValue y3) * 10
                    + digitValue y4 in
        '(month, rest1) ← leadingNumber 12 rest;
        match rest1 with
        | dash2 :: rest2 =>
            if Ascii.eqb dash2 "-"%char then
              '(day, rest3) ←
                match rest2 with
                | sp :: d :: rest3 =>
                    if Ascii.eqb sp " "%char && isDigit d && (1 <=? digitValue d)
                    then Some (digitValue d, rest3)
                    else leadingNumber 31 rest2
                | _ => leadingNumber 31 rest2
                end;
              match rest3 with
              | [] => if (1 <=? year) && (day <=? daysInMonth year month)
                      then Some (year, month, day) else None
              | _ => None
              end
            else None
        | [] => None
        end
      else None
  | _ => None
  end.

(** What the script does with its arguments: it prints the usage banner
    and exits, or it calls [Simulator.run]. *)
Inductive Outcome :=
| UsageAndExit (code : Z)
| SimulatorRun (startingDate : Z * Z * Z) (simulationLength houseCount : Z)
               (outputFolder : string).

(** The script, on [sys.argv]. *)
Definition main (argv : list string) : Outcome :=
  match argv with
  | [_; a1; a2; a3; a4] =>
      match strptime a1 with
      | None => UsageAndExit 1
      | Some startingDate =>
          match int a2 with
          | None => UsageAndExit 1
          | Some n2 =>
              let simulationLength := Z.max 0 n2 in
              match int a3 with
              | None => UsageAndExit 1
              | Some n3 =>
                  let houseCount := Z.max 0 n3 in
                  SimulatorRun startingDate simulationLength houseCount a4
              end
          end
      end
  | _ => UsageAndExit 1
  end.

End run.

(** ** Concrete inputs used by the examples below *)

Module examples.
Import numpy utils profile.

(** A heater of 60 kW and 10 kWh, full, whose stored discharging profile
    covers three minutes. *)
Definition heater : accumulator.Accumulator :=
  accumulator.mkAccumulator 60 10 0 empty 1 10 10 false 10
    (new (Some 0) (Some [120; 0; 30]%Q)) empty empty empty empty.

(** Two days of prices: 2 until minute 1300, then 1. *)
Definition twoDayPrices : list Q := replicate 1300 2%Q ++ replicate 1580 1%Q.
Definition twoDayPriceProfile : Profile := new (Some 0) (Some twoDayPrices).

(** A machine run of three minutes. *)
Definition washCycle : list Q := [1; 2; 1]%Q.

(** Prices of an evening: 1 from 18:00 to 20:00 of the first day, 2 at
    every other minute of the two days. *)
Definition eveningPrices : list Q :=
  replicate 1080 2%Q ++ replicate 120 1%Q ++ replicate 1680 2%Q.
Definition eveningPriceProfile : Profile := new (Some 0) (Some eveningPrices).

(** Cheap-price probabilities of one half for 2000 minutes. *)
Definition evenRatios : Profile := new (Some 0) (Some (replicate 2000 (1 # 2)%Q)).

(** Three cheap minutes a day, one by one. *)
Definition singleMinuteConfig : PriceConfig := mkPriceConfig 1 3 (1 # 10) (2 # 10).
Definition singleMinuteSample : list Z := [5; 100; 7].

(** Three cheap hours a day; the second draw repeats the first. *)
Definition hourlyConfig : PriceConfig := mkPriceConfig 60 180 (1 # 10) (2 # 10).
Definition hourlyDraws : list Z := [100; 100; 400; 700; 1000].

(** A random module that counts its draws: the n-th draw returns n/10
    (mod 1) as a float and n (mod the length) as a position, and the
    mean as a Gaussian. *)
Definition countingRandom : RandomModule :=
  {| Rng := nat;
     randomFloat := fun n => ((Z.of_nat (n mod 10) # 10)%Q, Datatypes.S n);
     randomIndex := fun len n => ((n mod len)%nat, Datatypes.S n);
     randomGauss := fun mu _ n => (mu, Datatypes.S n) |}.

(** Car statistics for the days 0..3. *)
Definition carStatistics : battery.BatteryStatistics :=
  battery.mkBatteryStatistics
    [36 # 5; 3]%Q
    (list_to_map [(0, 1%Q); (1, 1%Q); (2, 1%Q); (3, 1%Q)])
    (list_to_map [(0, [5; 10]%Q); (1, [6; 12]%Q); (2, [7; 14]%Q); (3, [8; 16]%Q)])
    (list_to_map [(0, [(Some (mkTime 7 30), Some (mkTime 18 0));
                       (Some (mkTime 8 0), Some (mkTime 17 0))]);
                  (1, [(Some (mkTime 9 0), Some (mkTime 19 0))]);
                  (2, [(None, None)])]).

Definition car : battery.Battery :=
  battery.mkBattery carStatistics (36 # 5) 0 ∅ empty empty empty empty.

Definition carWorld (seed : nat) : world.World countingRandom battery.Battery :=
  @world.mkWorld countingRandom _ seed car.

(** The same boiler, nearly empty (0.2 kWh), losing 0.5 kWh in every
    minute, half of what it gains in a minute of charging; minute 0 is the
    most expensive one, the price rises from minute 1 on. *)
Definition steadyDischarging : list Q := replicate 2880 30%Q.
Definition expensiveStartPrices : list Q :=
  5000%Q :: map (fun i => inject_Z (Z.of_nat i)) (seq 1 2879).
Definition drainedBoiler : accumulator.Accumulator :=
  accumulator.mkAccumulator 60 10 0 empty 1 (1 # 5) 10 false 10
    (new (Some 0) (Some steadyDischarging)) (new (Some 0) (Some expensiveStartPrices))
    empty empty empty.

(** Charging in every other minute, from minute 0 on. *)
Definition alternatingSchedule : list Q := flat_map (fun _ => [1; 0]%Q) (seq 0 1440).

(** Statistics of a population that owns fridges only, each expected to
    take 1440 kWh on day 0. *)
Definition fridgeOnlyStatistics : grid.ApplianceStatistics :=
  grid.mkApplianceStatistics
    [1; 0; 0; 0; 0]%Q
    (replicate 4 {[ 0 := 0%Q ]})
    0 0 1 0 0 0
    {[ 0 := 0%Q ]} {[ 0 := 0%Q ]} {[ 0 := 1440%Q ]} {[ 0 := 0%Q ]}
    {[ 0 := 0%Q ]} {[ 0 := 0%Q ]}.

(** A predicted base demand from the day before minute 0 on, for 2162
    minutes: a single triangular peak of 60 kW at minute -740, zero
    elsewhere. *)
Definition peakedBaseDemand : list Q :=
  map (fun i => inject_Z (Z.max 0 (60 - Z.abs (Z.of_nat i - 700)))) (seq 0 2162).

(** The smooth curve through the peaks of [peakedBaseDemand]: its only
    peak and the two end points, which take the value of the peak, give
    the constant 60. *)
Definition constantEnvelope (baseDemand : list Q) : option (list Q) :=
  Some (replicate (length baseDemand) 60%Q).

Definition oneConnection : connection.Connection :=
  connection.mkConnection empty empty empty.

(** A grid with one house whose stored target demand is zero for the
    minutes 0 and 1. *)
Definition gridWithZeroTarget : grid.Grid :=
  grid.mkGrid 0 (new (Some (-1440)) (Some peakedBaseDemand))
              (new (Some 0) (Some [0; 0]%Q)) empty [oneConnection].

(** The same grid before any target demand was stored. *)
Definition freshGrid : grid.Grid :=
  grid.mkGrid 0 (new (Some (-1440)) (Some peakedBaseDemand)) empty empty [oneConnection].

(** The target demand computed for the minutes 0 and 1 with a random
    error of one half (a factor of 1). *)
Definition computedTarget : list Q :=
  snd (default (0%Q, []) (grid.newTargetDemand constantEnvelope fridgeOnlyStatistics
                                                (1 # 2) freshGrid 0 2)).

(** A boiler of 60 kW (1 kWh per minute) and 10 kWh that holds 9.5 kWh.
    It loses nothing in minute 0, 2 kWh in minute 1, 8.5 kWh in minute 2
    and nothing in the 2877 minutes after; the price rises every minute,
    so minute 0 is the cheapest.  The planning window of one wanted day
    has 2880 minutes. *)
Definition boilerDischarging : list Q := [0; 120; 510]%Q ++ replicate 2877 0%Q.
Definition risingPrices : list Q := map (fun i => inject_Z (Z.of_nat i)) (seq 1 2880).
Definition boiler : accumulator.Accumulator :=
  accumulator.mkAccumulator 60 10 0 empty 1 (19 # 2) 10 false 10
    (new (Some 0) (Some boilerDischarging)) (new (Some 0) (Some risingPrices))
    empty empty empty.

(** A connection whose cheap-minute profile marks the minutes 1 and 2
    of four, minute 2 twice. *)
Definition markedConnection : connection.Connection :=
  connection.mkConnection empty (new (Some 0) (Some [0; 1; 2; 0]%Q)) empty.

(** A car that holds demands for the minutes 0 and 1, and a house with
    two such cars that has not collected anything yet. *)
Definition chargingCar : battery.Battery :=
  battery.mkBattery carStatistics (36 # 5) 0 ∅ empty
    (new (Some 0) (Some [1; 2]%Q)) (new (Some 0) (Some [3; 4]%Q))
    (new (Some 0) (Some [5; 6]%Q)).
Definition twoCarHouse : house.House :=
  house.mkHouse 0 [house.OfBattery chargingCar; house.OfBattery chargingCar]
                empty empty empty empty.

(** A house that holds demands for the minutes 0 and 1. *)
Definition busyHouse : house.House :=
  house.mkHouse 0 [] empty (new (Some 0) (Some [1; 2]%Q)) (new (Some 0) (Some [3; 4]%Q))
                (new (Some 0) (Some [5; 6]%Q)).

End examples.

(** * Properties *)

(** ** Arrays *)

Section ArrayFacts.
Import numpy.

Lemma size_nonneg {A} (a : list A) : 0 <= size a.
Proof. unfold size; lia. Qed.

Lemma sliceBound_inside (n i : Z) : 0 <= i <= n -> sliceBound n i = i.
Proof. unfold sliceBound; intros H. destruct (Z.ltb_spec i 0); lia. Qed.

Lemma sliceBound_range (n i : Z) : 0 <= n -> 0 <= sliceBound n i <= n.
Proof. unfold sliceBound; intros H. destruct (Z.ltb_spec i 0); lia. Qed.

Lemma broadcastTo_same (src : list Q) : broadcastTo (length src) src = Some src.
Proof. unfold broadcastTo. destruct (decide _); [done | congruence]. Qed.

Lemma broadcastTo_length (m : nat) (src out : list Q) :
  broadcastTo m src = Some out -> length out = m.
Proof.
  unfold broadcastTo. destruct (decide _) as [E | _].
  - intros [= <-]. exact E.
  - destruct src as [| x [| y src]]; intros [= <-]. apply length_replicate.
Qed.

Lemma setSlice_length (a src out : list Q) (i j : Z) :
  setSlice a i j src = Some out -> length out = length a.
Proof.
  unfold setSlice. intros H.
  destruct (broadcastTo _ src) as [src' |] eqn:E; simpl in H; [| discriminate].
  injection H as <-. apply broadcastTo_length in E.
  pose proof (sliceBound_range (size a) i (size_nonneg a)) as Hi.
  pose proof (sliceBound_range (size a) j (size_nonneg a)) as Hj.
  unfold size in *.
  rewrite !length_app, length_take, length_drop, E. lia.
Qed.

Lemma setSlice_inside (a src : list Q) (i : Z) :
  0 <= i -> i + size src <= size a ->
  setSlice a i (i + size src) src
  = Some (take (Z.to_nat i) a ++ src ++ drop (Z.to_nat i + length src) a).
Proof.
  intros Hi Hj. unfold setSlice.
  pose proof (size_nonneg src) as Hs.
  rewrite !sliceBound_inside by lia.
  replace (Z.to_nat (i + size src) - Z.to_nat i)%nat with (length src)
    by (unfold size; lia).
  rewrite broadcastTo_same. reflexivity.
Qed.

Lemma resize_length (a : list Q) (n : Z) :
  size a < n -> size (resize a n) = n.
Proof.
  unfold resize, size. intros H. rewrite length_app, length_replicate. lia.
Qed.

End ArrayFacts.

(** ** Profile *)

Section ProfileFacts.
Import numpy utils profile.

Lemma zeros_length (n : Z) (z : list Q) : zeros n = Some z -> size z = n.
Proof.
  unfold zeros. destruct (Z.ltb_spec n 0); [discriminate |].
  intros [= <-]. unfold size. rewrite length_replicate. lia.
Qed.

(** A window read that succeeds has one entry per minute of the window. *)
Lemma get_length (p : Profile) (fromDT toDT : Z) (res : list Q) :
  get p fromDT toDT = Some res -> size res = minutesBetween fromDT toDT.
Proof.
  unfold get. destruct (startingDT p) as [t0 |].
  - destruct (zeros _) as [z |] eqn:Ez; simpl; [| discriminate].
    intros H. apply setSlice_length in H. apply zeros_length in Ez.
    unfold size in *. lia.
  - apply zeros_length.
Qed.

Lemma resizeTo_size (vals : list Q) (n : Z) :
  size (resizeTo vals n) = Z.max (size vals) n.
Proof.
  unfold resizeTo. destruct (Z.ltb_spec (size vals) n).
  - rewrite resize_length by lia. lia.
  - lia.
Qed.

(** [set] at or after the anchor keeps the anchor, and the stored length
    becomes the larger of the old length and the end of the written
    range. *)
Lemma set_anchor_and_length (p : Profile) (t0 fromDT : Z) (newValues : list Q) :
  startingDT p = Some t0 -> t0 <= fromDT ->
  exists p', set p fromDT newValues = Some p'
    /\ startingDT p' = Some t0
    /\ size (values p') = Z.max (size (values p)) (fromDT - t0 + size newValues).
Proof.
  intros Ht Hle. unfold set. rewrite Ht.
  unfold minutesBetween, minutesIn.
  set (vals := resizeTo (values p) (fromDT - t0 + size newValues)).
  assert (Hsz : size vals = Z.max (size (values p)) (fromDT - t0 + size newValues))
    by apply resizeTo_size.
  rewrite setSlice_inside by lia. simpl.
  eexists; split; [reflexivity |]. split; [reflexivity |]. simpl.
  pose proof (size_nonneg newValues).
  unfold size in *. rewrite !length_app, length_take, length_drop. lia.
Qed.

Lemma addSlice_inside (a src : list Q) (i : Z) :
  0 <= i -> i + size src <= size a ->
  exists out, addSlice a i (i + size src) src = Some out /\ length out = length a.
Proof.
  intros Hi Hj. unfold addSlice.
  pose proof (size_nonneg src) as Hs.
  rewrite !sliceBound_inside by lia.
  replace (Z.to_nat (i + size src) - Z.to_nat i)%nat with (length src)
    by (unfold size; lia).
  rewrite broadcastTo_same. simpl. eexists; split; [reflexivity |].
  unfold size in *.
  rewrite !length_app, length_zip_with, !length_take, !length_drop. lia.
Qed.

(** The same for [add]. *)
Lemma add_anchor_and_length (p : Profile) (t0 fromDT : Z) (valuesToAdd : list Q) :
  startingDT p = Some t0 -> t0 <= fromDT ->
  exists p', add p fromDT valuesToAdd = Some p'
    /\ startingDT p' = Some t0
    /\ size (values p') = Z.max (size (values p)) (fromDT - t0 + size valuesToAdd).
Proof.
  intros Ht Hle. unfold add. rewrite Ht.
  unfold minutesBetween, minutesIn.
  set (vals := resizeTo (values p) (fromDT - t0 + size valuesToAdd)).
  assert (Hsz : size vals = Z.max (size (values p)) (fromDT - t0 + size valuesToAdd))
    by apply resizeTo_size.
  destruct (addSlice_inside vals valuesToAdd (fromDT - t0)) as (out & -> & Hlen);
    [lia | lia |].
  simpl. eexists; split; [reflexivity |]. split; [reflexivity |]. simpl.
  unfold size in *. lia.
Qed.

Lemma ratioVector_length (hc : nat -> nat -> Q) (n : Z) :
  length (ratioVector hc n) = Z.to_nat n.
Proof. unfold ratioVector. rewrite length_map, length_seq. reflexivity. Qed.

Lemma binop_same_length (f : Q -> Q -> Q) (a b : list Q) :
  length a = length b ->
  binop f a b = Some (zip_with f a b).
Proof. intros H. unfold binop. destruct (decide _); [done | contradiction]. Qed.

Lemma padRight_length (a out : list Q) (k : Z) (c : Q) :
  padRight a k c = Some out -> size out = size a + k /\ 0 <= k.
Proof.
  unfold padRight. destruct (Z.ltb_spec k 0); [discriminate |].
  intros [= <-]. unfold size. rewrite length_app, length_replicate. lia.
Qed.

(** [transition] at or after the anchor, when the new values do not start
    exactly at the end of the stored ones: a call that completes keeps the
    anchor and leaves the larger of the two lengths. *)
Lemma transition_anchor_and_length (hc : nat -> nat -> Q) (p p' : Profile)
    (t0 fromDT : Z) (newValues : list Q) :
  startingDT p = Some t0 -> t0 <= fromDT ->
  size (values p) <> fromDT - t0 ->
  transition hc p fromDT newValues = Some p' ->
  startingDT p' = Some t0
  /\ size (values p') = Z.max (size (values p)) (fromDT - t0 + size newValues).
Proof.
  intros Ht Hle Hne. unfold transition. rewrite Ht.
  unfold minutesBetween, minutesIn.
  set (start := fromDT - t0).
  set (vals := resizeTo (values p) (start + size newValues)).
  assert (Hsz : size vals = Z.max (size (values p)) (start + size newValues))
    by apply resizeTo_size.
  pose proof (size_nonneg newValues) as Hn.
  destruct (Z.eqb_spec (size (values p) - start) 0) as [E | _]; [lia |].
  destruct (Z.ltb_spec (size (values p) - start) 0) as [Hneg | Hpos].
  - unfold setSliceFrom.
    replace (size vals) with (start + size newValues) by lia.
    rewrite setSlice_inside by lia. simpl. intros [= <-]. simpl.
    split; [reflexivity |].
    unfold size in *. rewrite !length_app, length_take, length_drop. lia.
  - destruct (padRight (ratioVector hc _) _ 0%Q) as [oldMask |] eqn:Eo; simpl; [| discriminate].
    destruct (padRight (map _ _) _ 1%Q) as [newMask |] eqn:En; simpl; [| discriminate].
    apply padRight_length in Eo as [Eo Hk]. apply padRight_length in En as [En _].
    unfold size in Eo, En. rewrite length_map in En.
    rewrite ratioVector_length in Eo, En.
    assert (Hold : length (sliceFrom vals start) = length newValues).
    { unfold sliceFrom. rewrite sliceBound_inside by lia.
      rewrite length_drop. unfold size in *. lia. }
    rewrite (binop_same_length Qmult (sliceFrom vals start) oldMask)
      by (unfold size in *; lia).
    simpl. rewrite (binop_same_length Qmult newValues newMask) by (unfold size in *; lia).
    simpl. rewrite binop_same_length
      by (rewrite !length_zip_with; unfold size in *; lia).
    simpl.
    set (blend := zip_with Qplus _ _).
    assert (Hb : size blend = size newValues).
    { unfold blend, size. rewrite !length_zip_with. unfold size in *. lia. }
    unfold setSliceFrom.
    replace (size vals) with (start + size blend) by lia.
    rewrite setSlice_inside by lia. simpl. intros [= <-]. simpl.
    split; [reflexivity |].
    unfold size in *. rewrite !length_app, length_take, length_drop. lia.
Qed.

(** C4, the failing case: new values that start exactly at the end of
    the stored ones are appended after the storage was already enlarged,
    so the stored length is the old length plus twice the number of new
    values, not the end of the written range; the new values are read
    back as zeros.  Profile [1, 1] anchored at minute 0, transition at
    minute 2 to [5, 5]. *)
Theorem transition_at_end_doubles_extension (hc : nat -> nat -> Q) :
  let p := new (Some 0) (Some [1; 1]%Q) in
  transition hc p 2 [5; 5]%Q = Some (mkProfile (Some 0) [1; 1; 0; 0; 5; 5]%Q)
  /\ Z.max (size (values p)) (2 - 0 + size [5; 5]%Q) = 4
  /\ (forall p', transition hc p 2 [5; 5]%Q = Some p' ->
        size (values p') = 6 /\ get p' 2 4 = Some [0; 0]%Q).
Proof.
  split; [reflexivity |]. split; [reflexivity |].
  intros p' [= <-]. split; reflexivity.
Qed.

(** C3, the failing case: a window that starts before the anchor is not
    zero-padded.  With [1, 2, 3] stored from minute 0, the read of
    minutes -1..3 returns the last stored value in every cell, the read of
    minutes -2..3 and the read of minute -1 alone raise, so the window
    -1..3 is not the concatenation of -1..0 and 0..3 either.  A window
    that starts more than its own length after the stored end raises as
    well: the read of minutes 4..6 fails, although 0..6 is read and
    padded. *)
Theorem get_before_anchor_not_zero_padded :
  let p := new (Some 0) (Some [1; 2; 3]%Q) in
  get p (-1) 3 = Some [3; 3; 3; 3]%Q
  /\ get p (-2) 3 = None
  /\ get p (-1) 0 = None
  /\ get p 0 3 = Some [1; 2; 3]%Q
  /\ get p 4 6 = None
  /\ get p 0 4 = Some [1; 2; 3; 0]%Q
  /\ get p 0 6 = Some [1; 2; 3; 0; 0; 0]%Q.
Proof. repeat split. Qed.

End ProfileFacts.

(** ** Accumulator: the uncontrolled simulation *)

Section UncontrolledFacts.
Import numpy utils profile accumulator py.

Lemma Qlt_bool_true (a b : Q) : Qlt_bool a b = true -> (a < b)%Q.
Proof.
  unfold Qlt_bool. intros H. apply negb_true_iff in H.
  destruct (Qlt_le_dec a b) as [L | L]; [exact L |].
  apply Qle_bool_iff in L. congruence.
Qed.

Lemma Qlt_bool_false (a b : Q) : Qlt_bool a b = false -> (b <= a)%Q.
Proof.
  unfold Qlt_bool. intros H. apply negb_false_iff in H.
  apply Qle_bool_iff. exact H.
Qed.

(** One simulated minute keeps the charge at or below the upper limit. *)
Lemma uncontrolledStep_bounded (power upperLimit charge d : Q) :
  (charge <= upperLimit)%Q -> (0 <= d)%Q ->
  (fst (uncontrolledStep power upperLimit charge d) <= upperLimit)%Q.
Proof.
  intros Hc Hd. unfold uncontrolledStep.
  destruct (Qlt_bool _ _) eqn:E; simpl.
  - apply Qlt_le_weak, Qlt_bool_true, E.
  - apply Qle_trans with charge; [| exact Hc].
    rewrite <- (Qplus_0_r charge) at 2. unfold Qminus.
    apply Qplus_le_r. apply (Qopp_le_compat 0 d) in Hd. exact Hd.
Qed.

Lemma uncontrolledLoop_bounded (power upperLimit : Q) (rates : list Q) :
  forall charge,
  (charge <= upperLimit)%Q -> Forall (fun d => 0 <= d)%Q rates ->
  let '(final, powers, trace) := uncontrolledLoop power upperLimit charge rates in
  (final <= upperLimit)%Q
  /\ Forall (fun c => c <= upperLimit)%Q trace
  /\ length trace = length rates
  /\ default charge (last trace) = final.
Proof.
  induction rates as [| d rest IH]; intros charge Hc Hd; simpl.
  - repeat split; auto.
  - inversion Hd as [| ? ? Hd0 Hrest]; subst.
    pose proof (uncontrolledStep_bounded power upperLimit charge d Hc Hd0) as Hs.
    destruct (uncontrolledStep power upperLimit charge d) as [charge' pw]. simpl in Hs.
    specialize (IH charge' Hs Hrest).
    destruct (uncontrolledLoop power upperLimit charge' rest) as [[final powers] trace].
    destruct IH as (Hf & Ht & Hl & Hlast).
    repeat split; auto.
    + simpl. congruence.
    + rewrite last_cons. destruct (last trace); simpl in *; exact Hlast.
Qed.

(** At construction the uncontrolled charge is the capacity. *)
Lemma init_uncontrolled_charge (power cap scale : Q) (average : Profile)
    (u1 : Q) (flag : bool) (u2 : Q) :
  let a := init power cap scale average u1 flag u2 in
  (uncontrolledCharge a <= capacity a)%Q.
Proof. simpl. apply Qle_refl. Qed.

(** C9: in [calculateUncontrolledDemand], when the stored charge is at
    most the capacity before the call and the discharging rates of the
    interval are non-negative, the charge after every simulated minute is
    at most the capacity, and so is the charge stored by the call. *)
Theorem uncontrolled_charge_at_most_capacity (a : Accumulator) (fromDT toDT : Z)
    (dischargingKW : list Q) :
  get (dischargingProfile a) fromDT toDT = Some dischargingKW ->
  Forall (fun d => 0 <= d)%Q (map (fun x => x / 60)%Q dischargingKW) ->
  (uncontrolledCharge a <= capacity a)%Q ->
  let '(final, _, trace) :=
    uncontrolledLoop (chargingPower a) (capacity a) (uncontrolledCharge a)
                     (map (fun x => x / 60)%Q dischargingKW) in
  Forall (fun c => c <= capacity a)%Q trace
  /\ size trace = minutesBetween fromDT toDT
  /\ default (uncontrolledCharge a) (last trace) = final
  /\ uncontrolledCharge (state (calculateUncontrolledDemand fromDT toDT) a) = final
  /\ (final <= capacity a)%Q
  /\ capacity (state (calculateUncontrolledDemand fromDT toDT) a) = capacity a.
Proof.
  intros Hget Hrates Hc.
  pose proof (uncontrolledLoop_bounded (chargingPower a) (capacity a) _
                (uncontrolledCharge a) Hc Hrates) as H.
  unfold state, calculateUncontrolledDemand, bind, gets, modify. rewrite Hget. simpl.
  destruct (uncontrolledLoop _ _ _ _) as [[final powers] trace].
  destruct H as (Hf & Ht & Hl & Hlast).
  split; [exact Ht |]. split.
  { apply get_length in Hget. unfold size in *. rewrite Hl, length_map. exact Hget. }
  split; [exact Hlast |].
  simpl. destruct (set _ _ _); simpl; auto.
Qed.

End UncontrolledFacts.

Section UncontrolledExample.
Import numpy utils profile accumulator py examples.

Lemma uncontrolled_charge_at_most_capacity_witness :
  get (dischargingProfile heater) 0 3 = Some [120; 0; 30]%Q
  /\ Forall (fun d => 0 <= d)%Q (map (fun x => x / 60)%Q [120; 0; 30]%Q)
  /\ (uncontrolledCharge heater <= capacity heater)%Q
  /\ let '(final, _, trace) :=
       uncontrolledLoop (chargingPower heater) (capacity heater) (uncontrolledCharge heater)
                        (map (fun x => x / 60)%Q [120; 0; 30]%Q) in
     Forall (fun c => c <= capacity heater)%Q trace
     /\ size trace = minutesBetween 0 3
     /\ default (uncontrolledCharge heater) (last trace) = final
     /\ uncontrolledCharge (state (calculateUncontrolledDemand 0 3) heater) = final
     /\ (final <= capacity heater)%Q
     /\ capacity (state (calculateUncontrolledDemand 0 3) heater) = capacity heater.
Proof.
  assert (H1 : get (dischargingProfile heater) 0 3 = Some [120; 0; 30]%Q) by reflexivity.
  assert (H2 : Forall (fun d => 0 <= d)%Q (map (fun x => x / 60)%Q [120; 0; 30]%Q))
    by (repeat constructor; vm_compute; discriminate).
  assert (H3 : (uncontrolledCharge heater <= capacity heater)%Q)
    by (vm_compute; discriminate).
  split; [exact H1 |]. split; [exact H2 |]. split; [exact H3 |].
  exact (uncontrolled_charge_at_most_capacity heater 0 3 _ H1 H2 H3).
Defined.

End UncontrolledExample.

(** ** Machine *)

Section MachineFacts.
Import numpy utils profile machine.

Lemma in_range (a b s : Z) : In s (range a b) <-> a <= s < b.
Proof.
  unfold range. rewrite in_map_iff. split.
  - intros (i & <- & Hi). apply in_seq in Hi. lia.
  - intros H. exists (Z.to_nat (s - a)). split; [lia |]. apply in_seq. lia.
Qed.

Lemma slice_inside_length {A} (a : list A) (i j : Z) :
  0 <= i <= j -> j <= size a -> size (slice a i j) = j - i.
Proof.
  intros Hi Hj. unfold slice. rewrite !sliceBound_inside by lia.
  unfold size in *. rewrite length_take, length_drop. lia.
Qed.

Lemma dot_inside (usage prices : list Q) (s : Z) :
  0 <= s -> s + size usage <= size prices ->
  dot usage (slice prices s (s + size usage)) = Some (runCost usage prices s).
Proof.
  intros Hs Hle. unfold dot, runCost.
  pose proof (size_nonneg usage).
  pose proof (slice_inside_length prices s (s + size usage)) as Hl.
  destruct (decide _) as [_ | Hne]; [reflexivity |].
  exfalso. apply Hne. unfold size in *. lia.
Qed.

(** The search returns a start that costs no more than any start it
    tried, nor than the best one it was given. *)
Lemma searchCheapest_minimal (usage prices : list Q) (slots : list Z) :
  (forall s, In s slots -> 0 <= s /\ s + size usage <= size prices) ->
  forall cur best,
  (best = None \/ best = Some (runCost usage prices cur)) ->
  exists r, searchCheapest usage prices (size usage) slots cur best = Some r
    /\ (r = cur \/ In r slots)
    /\ (best <> None -> (runCost usage prices r <= runCost usage prices cur)%Q)
    /\ (forall s, In s slots -> (runCost usage prices r <= runCost usage prices s)%Q).
Proof.
  induction slots as [| s rest IH]; intros Hin cur best Hbest; simpl.
  - exists cur. repeat split; auto.
    + intros _. apply Qle_refl.
    + intros s [].
  - destruct (Hin s (or_introl eq_refl)) as [Hs0 Hs1].
    rewrite dot_inside by assumption. simpl.
    assert (Hrest : forall s', In s' rest -> 0 <= s' /\ s' + size usage <= size prices)
      by (intros s' H'; apply Hin; right; exact H').
    destruct Hbest as [-> | ->].
    + destruct (IH Hrest s (Some (runCost usage prices s)) (or_intror eq_refl))
        as (r & Hr & Hmem & Hcur & Hall).
      exists r. split; [exact Hr |]. split; [| split].
      * right. destruct Hmem as [-> | Hm]; [left; reflexivity | right; exact Hm].
      * intros H; contradiction.
      * intros s' [<- | H']; [apply Hcur; discriminate | apply Hall, H'].
    + destruct (Qlt_bool _ _) eqn:E.
      * apply Qlt_bool_true in E.
        destruct (IH Hrest s (Some (runCost usage prices s)) (or_intror eq_refl))
          as (r & Hr & Hmem & Hcur & Hall).
        assert (Hrs : (runCost usage prices r <= runCost usage prices s)%Q)
          by (apply Hcur; discriminate).
        exists r. split; [exact Hr |]. split; [| split].
        -- right. destruct Hmem as [-> | Hm]; [left; reflexivity | right; exact Hm].
        -- intros _. apply Qle_trans with (runCost usage prices s);
             [exact Hrs | apply Qlt_le_weak, E].
        -- intros s' [<- | H']; [exact Hrs | apply Hall, H'].
      * apply Qlt_bool_false in E.
        destruct (IH Hrest cur (Some (runCost usage prices cur)) (or_intror eq_refl))
          as (r & Hr & Hmem & Hcur & Hall).
        assert (Hrc : (runCost usage prices r <= runCost usage prices cur)%Q)
          by (apply Hcur; discriminate).
        exists r. split; [exact Hr |]. split; [| split].
        -- destruct Hmem as [-> | Hm]; [left; reflexivity | right; right; exact Hm].
        -- intros _. exact Hrc.
        -- intros s' [<- | H']; [| apply Hall, H'].
           apply Qle_trans with (runCost usage prices cur); assumption.
Qed.

(** C5: for a machine day with a usage, the run that the smart policy
    schedules costs, at the day's prices, no more than the run of the
    uncontrolled policy, which starts at [startAfterSlot]. *)
Theorem machine_smart_cost_le_uncontrolled (prices : Profile) (midnight : Z)
    (startAfter finishBy : Time) (powerUsageProfile priceProfile : list Q) :
  validTime startAfter -> validTime finishBy ->
  get prices midnight (midnight + 2 * oneDay) = Some priceProfile ->
  exists cheapestSlot,
    smartStartSlot startAfter finishBy powerUsageProfile priceProfile = Some cheapestSlot
    /\ (runCost powerUsageProfile priceProfile cheapestSlot
        <= runCost powerUsageProfile priceProfile (uncontrolledStartSlot startAfter))%Q
    /\ smartDayProfile (Some ((startAfter, finishBy), powerUsageProfile)) prices midnight
       = pasteRun powerUsageProfile cheapestSlot
    /\ uncontrolledDayProfile (Some ((startAfter, finishBy), powerUsageProfile))
       = pasteRun powerUsageProfile (uncontrolledStartSlot startAfter).
Proof.
  intros [Hh Hm] [Hh' Hm'] Hget.
  pose proof (get_length _ _ _ _ Hget) as Hlen.
  unfold minutesBetween, minutesIn, oneDay in Hlen.
  assert (Hsize : size priceProfile = 2880) by lia.
  unfold smartDayProfile. rewrite Hget. simpl.
  unfold smartStartSlot, uncontrolledStartSlot, machine.slotOf, minutesIn, oneDay.
  set (a := hour startAfter * 60 + minute startAfter).
  set (f := hour finishBy * 60 + minute finishBy + 1440).
  destruct (Z.ltb_spec (size powerUsageProfile) (f - a)) as [Hroom | Hnoroom].
  - destruct (searchCheapest_minimal powerUsageProfile priceProfile
                (range a (f - size powerUsageProfile))) with (cur := a) (best := @None Q)
      as (r & Hr & _ & _ & Hall).
    + intros s Hs. apply in_range in Hs. subst a f. lia.
    + left; reflexivity.
    + exists r. rewrite Hr. split; [reflexivity |]. split; [| split; reflexivity].
      apply Hall. apply in_range. lia.
  - exists a. split; [reflexivity |]. split; [apply Qle_refl | split; reflexivity].
Qed.

End MachineFacts.

Section MachineExample.
Import numpy utils profile machine examples.

Lemma machine_smart_cost_le_uncontrolled_witness :
  validTime (mkTime 21 0) /\ validTime (mkTime 5 0)
  /\ get twoDayPriceProfile 0 (0 + 2 * oneDay) = Some twoDayPrices
  /\ exists cheapestSlot,
       smartStartSlot (mkTime 21 0) (mkTime 5 0) washCycle twoDayPrices = Some cheapestSlot
       /\ (runCost washCycle twoDayPrices cheapestSlot
           <= runCost washCycle twoDayPrices (uncontrolledStartSlot (mkTime 21 0)))%Q
       /\ smartDayProfile (Some ((mkTime 21 0, mkTime 5 0), washCycle)) twoDayPriceProfile 0
          = pasteRun washCycle cheapestSlot
       /\ uncontrolledDayProfile (Some ((mkTime 21 0, mkTime 5 0), washCycle))
          = pasteRun washCycle (uncontrolledStartSlot (mkTime 21 0)).
Proof.
  assert (H1 : validTime (mkTime 21 0)) by (unfold validTime; simpl; lia).
  assert (H2 : validTime (mkTime 5 0)) by (unfold validTime; simpl; lia).
  assert (H3 : get twoDayPriceProfile 0 (0 + 2 * oneDay) = Some twoDayPrices)
    by (vm_compute; reflexivity).
  split; [exact H1 |]. split; [exact H2 |]. split; [exact H3 |].
  exact (machine_smart_cost_le_uncontrolled twoDayPriceProfile 0 (mkTime 21 0) (mkTime 5 0)
           washCycle twoDayPrices H1 H2 H3).
Defined.

(** The smart machine of the example waits for the cheap minutes. *)
Example machine_smart_start_example :
  smartStartSlot (mkTime 21 0) (mkTime 5 0) washCycle twoDayPrices = Some 1300
  /\ uncontrolledStartSlot (mkTime 21 0) = 1260.
Proof. split; vm_compute; reflexivity. Qed.

End MachineExample.

(** ** Sums of arrays *)

Section SumFacts.
Import numpy.

Lemma sum_app (a b : list Q) : (sum (a ++ b) == sum a + sum b)%Q.
Proof.
  induction a as [| x a IH]; simpl.
  - ring.
  - fold (sum (a ++ b)). fold (sum a). rewrite IH. ring.
Qed.

Lemma sum_replicate (n : nat) (x : Q) :
  (sum (replicate n x) == inject_Z (Z.of_nat n) * x)%Q.
Proof.
  induction n as [| n IH].
  - simpl. ring.
  - change (sum (replicate (S n) x)) with (x + sum (replicate n x))%Q.
    rewrite IH, Nat2Z.inj_succ. unfold Z.succ. rewrite inject_Z_plus. ring.
Qed.

Lemma sum_insert (a : list Q) (i : nat) (x y : Q) :
  a !! i = Some y -> (sum (<[i := x]> a) == sum a - y + x)%Q.
Proof.
  revert i. induction a as [| z a IH]; intros [| i] H; simpl in *; try discriminate.
  - injection H as ->. fold (sum a). ring.
  - fold (sum (<[i := x]> a)). fold (sum a). rewrite (IH i H). ring.
Qed.

End SumFacts.

(** ** Sorting of slots *)

Section SortingFacts.
Import numpy sorting.

Lemma insertBy_perm (key : nat -> Q) (i : nat) (l : list nat) :
  insertBy key i l ≡ₚ i :: l.
Proof.
  induction l as [| j l IH]; simpl; [reflexivity |].
  destruct (Qle_bool _ _); [reflexivity |].
  rewrite IH. apply Permutation_swap.
Qed.

(** [argsort] returns every index once. *)
Lemma argsort_perm (a : list Q) : argsort a ≡ₚ seq 0 (length a).
Proof.
  unfold argsort. generalize (seq 0 (length a)) as l.
  intros l. induction l as [| i l IH]; simpl; [reflexivity |].
  rewrite insertBy_perm, IH. reflexivity.
Qed.

Lemma argsort_length (a : list Q) : length (argsort a) = length a.
Proof. rewrite (Permutation_length (argsort_perm a)). apply length_seq. Qed.

Lemma argsort_NoDup (a : list Q) : NoDup (argsort a).
Proof. rewrite argsort_perm. apply NoDup_seq. Qed.

Lemma argsort_bound (a : list Q) (i : nat) : i ∈ argsort a -> (i < length a)%nat.
Proof. rewrite argsort_perm, elem_of_seq. lia. Qed.

End SortingFacts.

(** ** Battery *)

Section BatteryFacts.
Import numpy utils profile battery sorting.

Lemma setItem_inside (a : list Q) (i : Z) (x : Q) :
  0 <= i < size a -> setItem a i x = Some (<[Z.to_nat i := x]> a).
Proof.
  intros H. unfold setItem.
  destruct (Z.ltb_spec i 0); [lia |].
  destruct (Z.leb_spec 0 i); [| lia].
  destruct (Z.ltb_spec i (size a)); [reflexivity | lia].
Qed.

(** Writing one value into distinct cells that hold zero adds the value
    once per cell to the sum and leaves the other cells alone. *)
Lemma setItems_zero_cells (idxs : list Z) (x : Q) :
  forall a : list Q,
  NoDup idxs ->
  (forall i, i ∈ idxs -> 0 <= i < size a /\ a !! Z.to_nat i = Some 0%Q) ->
  exists a', setItems a idxs x = Some a'
    /\ length a' = length a
    /\ (sum a' == sum a + inject_Z (size idxs) * x)%Q
    /\ (forall j, 0 <= j -> j ∉ idxs -> a' !! Z.to_nat j = a !! Z.to_nat j).
Proof.
  induction idxs as [| i rest IH]; intros a Hnd Hin; simpl.
  - exists a. repeat split; auto. unfold size; simpl. ring.
  - apply NoDup_cons in Hnd as [Hi Hnd].
    destruct (Hin i) as [Hrange Hzero]; [left |].
    rewrite setItem_inside by exact Hrange. simpl.
    destruct (IH (<[Z.to_nat i := x]> a) Hnd) as (a' & Ha' & Hlen & Hsum & Hother).
    { intros i' Hi'. destruct (Hin i') as [Hr' Hz']; [right; exact Hi' |].
      split.
      - unfold size in *. rewrite length_insert. exact Hr'.
      - rewrite list_lookup_insert_ne; [exact Hz' |].
        intros E. apply Hi. replace i with i' by lia. exact Hi'. }
    exists a'. split; [exact Ha' |]. split; [| split].
    + rewrite Hlen. apply length_insert.
    + rewrite Hsum, (sum_insert a _ x 0 Hzero).
      unfold size. simpl length. rewrite Nat2Z.inj_succ. unfold Z.succ.
      rewrite inject_Z_plus. ring.
    + intros j Hj Hnot. rewrite Hother; [| exact Hj |].
      * apply list_lookup_insert_ne. intros E. apply Hnot.
        replace j with i by lia. left.
      * intros Hin'. apply Hnot. right. exact Hin'.
Qed.

(** The smart battery writes full power into all chosen slots but the
    last, and the remainder into the last. *)
Lemma chargeSlots_sum (slots : list Z) (P y : Q) (N : nat) :
  slots <> [] -> NoDup slots ->
  (forall i, i ∈ slots -> 0 <= i < Z.of_nat N) ->
  exists p1 lastSlot p2,
    setItems (replicate N 0%Q) (slice slots 0 (-1)) P = Some p1
    /\ item slots (-1) = Some lastSlot
    /\ setItem p1 lastSlot y = Some p2
    /\ (sum p2 == inject_Z (size slots - 1) * P + y)%Q.
Proof.
  intros Hne Hnd Hin.
  destruct (exists_last Hne) as (front & lastSlot & ->).
  assert (Hslice : slice (front ++ [lastSlot]) 0 (-1) = front).
  { unfold slice, sliceBound, size. rewrite length_app. simpl.
    replace (Z.to_nat (Z.max 0 (-1 + Z.of_nat (length front + 1)) - Z.min 0 (Z.of_nat (length front + 1))))
      with (length front) by lia.
    replace (Z.to_nat (Z.min 0 (Z.of_nat (length front + 1)))) with 0%nat by lia.
    rewrite drop_0. apply take_app_length. }
  assert (Hitem : item (front ++ [lastSlot]) (-1) = Some lastSlot).
  { unfold item, size. rewrite length_app. simpl.
    destruct (Z.leb_spec 0 (-1 + Z.of_nat (length front + 1))); [| lia].
    replace (Z.to_nat (-1 + Z.of_nat (length front + 1))) with (length front) by lia.
    rewrite lookup_app_r by lia. rewrite Nat.sub_diag. reflexivity. }
  apply NoDup_app in Hnd as (Hfront & Hdisj & _).
  destruct (setItems_zero_cells front P (replicate N 0%Q) Hfront) as (p1 & Hp1 & Hlen & Hsum & Hother).
  { intros i Hi. assert (Hr : 0 <= i < Z.of_nat N) by (apply Hin, elem_of_app; left; exact Hi).
    split.
    - unfold size. rewrite length_replicate. exact Hr.
    - apply lookup_replicate_2. lia. }
  assert (Hl : 0 <= lastSlot < Z.of_nat N)
    by (apply Hin, elem_of_app; right; apply list_elem_of_singleton; reflexivity).
  assert (Hnotin : lastSlot ∉ front).
  { intros Hf. apply (Hdisj lastSlot Hf). apply list_elem_of_singleton. reflexivity. }
  exists p1, lastSlot, (<[Z.to_nat lastSlot := y]> p1).
  rewrite Hslice. split; [exact Hp1 |]. split; [exact Hitem |]. split.
  - apply setItem_inside. unfold size. rewrite Hlen, length_replicate. exact Hl.
  - rewrite (sum_insert p1 _ y 0).
    + rewrite Hsum, sum_replicate. unfold size. rewrite length_app. simpl.
      replace (Z.of_nat (length front + 1) - 1) with (Z.of_nat (length front)) by lia.
      ring.
    + rewrite Hother by (lia || exact Hnotin). apply lookup_replicate_2. lia.
Qed.

End BatteryFacts.

Section BatteryDay.
Import numpy utils profile battery sorting.

Lemma zeros_nonneg (n : Z) : 0 <= n -> zeros n = Some (replicate (Z.to_nat n) 0%Q).
Proof. intros H. unfold zeros. destruct (Z.ltb_spec n 0); [lia | reflexivity]. Qed.

Lemma slotOf_range (t : Time) : validTime t -> 0 <= slotOf t < 1440.
Proof. unfold validTime, slotOf. lia. Qed.

Lemma fillSlice_sum_zeros (N : nat) (i j : Z) (x : Q) :
  0 <= i <= j -> j <= Z.of_nat N ->
  (sum (fillSlice (replicate N 0%Q) i j x) == inject_Z (j - i) * x)%Q
  /\ length (fillSlice (replicate N 0%Q) i j x) = N
  /\ forall k, j <= k < Z.of_nat N ->
       fillSlice (replicate N 0%Q) i j x !! Z.to_nat k = Some 0%Q.
Proof.
  intros Hi Hj. unfold fillSlice, size. rewrite length_replicate.
  rewrite !sliceBound_inside by lia.
  replace (Z.to_nat i + (Z.to_nat j - Z.to_nat i))%nat with (Z.to_nat j) by lia.
  rewrite take_replicate, drop_replicate.
  split; [| split].
  - rewrite !sum_app, !sum_replicate.
    replace (Z.of_nat (Z.to_nat j - Z.to_nat i)) with (j - i) by lia. ring.
  - rewrite !length_app, !length_replicate. lia.
  - intros k Hk.
    rewrite lookup_app_r by (rewrite length_replicate; lia).
    rewrite lookup_app_r by (rewrite !length_replicate; lia).
    apply lookup_replicate_2. rewrite !length_replicate. lia.
Qed.


End BatteryDay.

Section BatteryExample.
Import numpy utils profile battery examples.


(** The battery of 7.2 kW that needs 14.4 kWh, connected at 18:00: the
    smart profile charges in the 120 cheap minutes 1080..1199; the
    uncontrolled one charges in 1080..1198, leaves minute 1199 out and
    puts the remainder into minute 1200. *)
Example battery_evening_example :
  (forall smart,
     smartDayProfile (36 # 5) (mkTime 18 0) (mkTime 23 59) (72 # 5)
                     eveningPriceProfile 0 = Some smart ->
     forallb (fun x => Qeq_bool x (36 # 5)) (slice smart 1080 1200) = true
     /\ forallb (fun x => Qeq_bool x 0) (slice smart 0 1080 ++ slice smart 1200 2880) = true)
  /\ (forall uncontrolled,
        uncontrolledDayProfile (36 # 5) (mkTime 18 0) (mkTime 23 59) (72 # 5)
          = Some uncontrolled ->
        forallb (fun x => Qeq_bool x (36 # 5))
                (slice uncontrolled 1080 1199 ++ slice uncontrolled 1200 1201) = true
        /\ forallb (fun x => Qeq_bool x 0) (slice uncontrolled 1199 1200) = true).
Proof.
  split.
  - intros smart H. vm_compute in H. injection H as <-. split; vm_compute; reflexivity.
  - intros u H. vm_compute in H. injection H as <-. split; vm_compute; reflexivity.
Qed.

End BatteryExample.

(** ** Connection: the cheap-minute mask *)

Section ConnectionFacts.
Import numpy utils profile connection.

Lemma binary_sum_onesCount (mask : list Q) :
  binary mask -> (sum mask == inject_Z (onesCount mask))%Q.
Proof.
  unfold binary, onesCount, size. induction 1 as [| x mask Hx _ IH]; simpl.
  - reflexivity.
  - fold (sum mask). rewrite IH.
    destruct Hx as [-> | ->].
    + rewrite filter_cons_False by discriminate. ring.
    + rewrite filter_cons_True by reflexivity.
      simpl length. rewrite Nat2Z.inj_succ. unfold Z.succ. rewrite inject_Z_plus. ring.
Qed.

Lemma binary_replicate (n : nat) (x : Q) : x = 0%Q \/ x = 1%Q -> binary (replicate n x).
Proof. intros H. apply Forall_replicate. exact H. Qed.

Lemma binary_fillOnes (mask : list Q) (i j : Z) : binary mask -> binary (fillOnes mask i j).
Proof.
  intros H. unfold fillOnes, binary. rewrite !Forall_app. repeat split.
  - apply Forall_take, H.
  - apply Forall_replicate. right; reflexivity.
  - apply Forall_drop, H.
Qed.

(** Setting distinct zero cells of a mask to 1. *)
Lemma setOnes_zero_cells (idxs : list Z) :
  forall a : list Q,
  binary a -> NoDup idxs ->
  (forall i, i ∈ idxs -> 0 <= i < size a /\ a !! Z.to_nat i = Some 0%Q) ->
  exists a', setOnes a idxs = Some a'
    /\ binary a'
    /\ (sum a' == sum a + inject_Z (size idxs))%Q.
Proof.
  induction idxs as [| i rest IH]; intros a Hbin Hnd Hin; simpl.
  - exists a. repeat split; auto. unfold size; simpl. ring.
  - apply NoDup_cons in Hnd as [Hi Hnd].
    destruct (Hin i) as [Hrange Hzero]; [left |].
    destruct (Z.ltb_spec i 0); [lia |].
    destruct (Z.leb_spec 0 i); [| lia].
    destruct (Z.ltb_spec i (size a)); [| lia]. simpl.
    destruct (IH (<[Z.to_nat i := 1%Q]> a)) as (a' & Ha' & Hb' & Hsum).
    + apply Forall_insert; [exact Hbin | right; reflexivity].
    + exact Hnd.
    + intros i' Hi'. destruct (Hin i') as [Hr' Hz']; [right; exact Hi' |].
      split.
      * unfold size in *. rewrite length_insert. exact Hr'.
      * rewrite list_lookup_insert_ne; [exact Hz' |].
        intros E. apply Hi. replace i with i' by lia. exact Hi'.
    + exists a'. split; [exact Ha' |]. split; [exact Hb' |].
      rewrite Hsum, (sum_insert a _ 1 0 Hzero).
      unfold size. simpl length. rewrite Nat2Z.inj_succ. unfold Z.succ.
      rewrite inject_Z_plus. ring.
Qed.

(** The loop ends only when the mask holds enough cheap minutes. *)
Lemma cheapIntervalLoop_enough (L Q0 : Z) (draws : list Z) :
  forall mask out,
  binary mask ->
  cheapIntervalLoop L Q0 mask draws = Some out ->
  binary out /\ (inject_Z Q0 <= sum out)%Q.
Proof.
  induction draws as [| c draws IH]; intros mask out Hbin; simpl.
  - destruct (Qlt_bool _ _) eqn:E; [discriminate |].
    intros [= <-]. split; [exact Hbin | apply Qlt_bool_false, E].
  - destruct (Qlt_bool _ _) eqn:E.
    + apply IH. apply binary_fillOnes, Hbin.
    + intros [= <-]. split; [exact Hbin | apply Qlt_bool_false, E].
Qed.

Lemma sum_zeros (n : nat) : (sum (replicate n 0%Q) == 0)%Q.
Proof. rewrite sum_replicate. ring. Qed.


End ConnectionFacts.

Section ConnectionExample.
Import numpy utils profile connection examples.


(** In the example with hourly intervals the repeated draw adds nothing:
    four draws are needed for three hours, and the mask then holds 180
    cheap minutes. *)
Example cheap_hours_example :
  cheaperIntervalsOfDay hourlyConfig evenRatios 0 (take 3 hourlyDraws) = None
  /\ onesCount (default [] (cheaperIntervalsOfDay hourlyConfig evenRatios 0 hourlyDraws)) = 180.
Proof. split; vm_compute; reflexivity. Qed.

End ConnectionExample.

(** ** The command line *)

Section CommandLine.
Import run.
Local Open Scope string_scope.





End CommandLine.

(** ** Statements that keep a relation *)

Section Preservation.
Import py world.
Context {S : Type} (R : S -> S -> Prop) `{!PreOrder R}.

Lemma preserves_bind {A B} (m : M S A) (k : A -> M S B) :
  preserves R m -> (forall a, preserves R (k a)) -> preserves R (bind m k).
Proof.
  intros Hm Hk s. unfold bind. specialize (Hm s).
  destruct (m s) as [[a |] s']; simpl in *.
  - transitivity s'; [exact Hm | apply Hk].
  - exact Hm.
Qed.

Lemma preserves_forEach {X} (l : list X) (body : X -> M S unit) :
  (forall x, preserves R (body x)) -> preserves R (forEach l body).
Proof.
  intros Hb. induction l as [| x l IH]; simpl.
  - intros s. simpl. reflexivity.
  - apply preserves_bind; [apply Hb | intros _; exact IH].
Qed.

Lemma preserves_reader {A} (m : M S A) :
  (forall s, snd (m s) = s) -> preserves R m.
Proof. intros H s. rewrite H. reflexivity. Qed.

Lemma preserves_modify (f : S -> S) :
  (forall s, R s (f s)) -> preserves R (modify f).
Proof. intros H s. apply H. Qed.

End Preservation.

Lemma preserves_onSelf {Rm : RandomModule} {Obj A : Type} (R : Obj -> Obj -> Prop)
    (R' : world.World Rm Obj -> world.World Rm Obj -> Prop) (m : py.M Obj A) :
  (forall w w', R (world.self w) (world.self w') -> R' w w') ->
  py.preserves R m -> py.preserves R' (world.onSelf m).
Proof.
  intros Hw Hm w. apply Hw. unfold world.onSelf, py.zoom.
  specialize (Hm (world.self w)). destruct (m (world.self w)) as [r o]. exact Hm.
Qed.

Ltac preserve_step :=
  lazymatch goal with
  | |- py.preserves _ (py.bind _ _) =>
      apply preserves_bind; [typeclasses eauto | | intros ?]
  | |- py.preserves _ (py.forEach _ _) =>
      apply preserves_forEach; [typeclasses eauto | intros ?]
  | |- py.preserves _ (py.modify _) => apply preserves_modify; intros ?
  | |- py.preserves _ (match ?x with _ => _ end) => destruct x
  | |- py.preserves _ _ =>
      apply preserves_reader; [typeclasses eauto | intros ?; reflexivity]
  end.

Section SameSelf.
Import py world.
Context {Rm : RandomModule} {Obj : Type}.

#[global] Instance sameSelf_preorder : PreOrder (@sameSelf Rm Obj).
Proof. split; unfold sameSelf; [intros w; reflexivity | intros a b c H1 H2; congruence]. Qed.

Lemma random_random_sameSelf : preserves (@sameSelf Rm Obj) random_random.
Proof. intros w. unfold random_random, sameSelf. destruct (randomFloat _ _). reflexivity. Qed.

Lemma random_gauss_sameSelf (mu sigma : Q) :
  preserves (@sameSelf Rm Obj) (random_gauss mu sigma).
Proof. intros w. unfold random_gauss, sameSelf. destruct (randomGauss _ _ _ _). reflexivity. Qed.

Lemma random_choice_sameSelf {A} (l : list A) :
  preserves (@sameSelf Rm Obj) (random_choice l).
Proof.
  intros w. unfold random_choice, sameSelf. destruct l; [reflexivity |].
  destruct (randomIndex _ _ _). reflexivity.
Qed.

(** A relation that only looks at the object survives a prefix of random
    draws. *)
Lemma bind_after_draws {A B} (R : World Rm Obj -> World Rm Obj -> Prop)
    (m : M (World Rm Obj) A) (k : A -> M (World Rm Obj) B) (w : World Rm Obj) :
  preserves sameSelf m ->
  (forall w', self w' = self w -> R w w') ->
  (forall a w', self w' = self w -> R w (snd (k a w'))) ->
  R w (snd (bind m k w)).
Proof.
  intros Hm Hsame Hk. unfold bind. specialize (Hm w). unfold sameSelf in Hm.
  destruct (m w) as [[a |] w']; simpl in *; auto.
Qed.

End SameSelf.

(** ** Usages are write-once *)

Section BatteryUsages.
Import numpy utils profile py world battery.
Context {Rm : RandomModule}.

#[local] Instance sameUsages_preorder : PreOrder sameUsages.
Proof. split; unfold sameUsages; [intros b; reflexivity | intros a b c H1 H2; congruence]. Qed.

#[local] Instance keepsUsages_preorder : PreOrder (@keepsUsages Rm).
Proof.
  split; unfold keepsUsages.
  - intros w. reflexivity.
  - intros a b c H1 H2. etransitivity; eassumption.
Qed.

Lemma battery_readUsages_same (date : Z) : preserves sameUsages (readUsages date).
Proof. unfold readUsages. repeat preserve_step. Qed.

Lemma battery_smart_same (f t : Z) : preserves sameUsages (calculateSmartDemand f t).
Proof.
  unfold calculateSmartDemand. repeat preserve_step; try apply battery_readUsages_same.
  reflexivity.
Qed.

Lemma battery_uncontrolled_same (f t : Z) :
  preserves sameUsages (calculateUncontrolledDemand f t).
Proof.
  unfold calculateUncontrolledDemand.
  repeat preserve_step; try apply battery_readUsages_same. reflexivity.
Qed.

Lemma battery_spreadOut_same (f t : Z) :
  preserves sameUsages (calculateSpreadOutDemand f t).
Proof.
  unfold calculateSpreadOutDemand.
  repeat preserve_step; try apply battery_readUsages_same. reflexivity.
Qed.

Lemma battery_calculateDemand_same (f t : Z) : preserves sameUsages (calculateDemand f t).
Proof.
  unfold calculateDemand. repeat preserve_step;
    auto using battery_smart_same, battery_uncontrolled_same, battery_spreadOut_same.
Qed.

Lemma battery_setPriceProfile_same (dt : Z) (prices : list Q) :
  preserves sameUsages (setPriceProfile dt prices).
Proof. unfold setPriceProfile. repeat preserve_step. reflexivity. Qed.

Lemma battery_randomNeededCharge_sameSelf (date : Z) :
  preserves (@sameSelf Rm Battery) (randomNeededCharge date).
Proof.
  unfold randomNeededCharge.
  repeat preserve_step; auto using random_random_sameSelf, random_choice_sameSelf.
Qed.

Lemma battery_randomUsageInterval_sameSelf (date : Z) :
  preserves (@sameSelf Rm Battery) (randomUsageInterval date).
Proof.
  unfold randomUsageInterval.
  repeat preserve_step; auto using random_choice_sameSelf.
Qed.

Lemma battery_onSelf_keeps {A} (m : M Battery A) :
  preserves sameUsages m -> preserves (@keepsUsages Rm) (onSelf m).
Proof.
  apply preserves_onSelf. intros w w' H. unfold keepsUsages. rewrite H. reflexivity.
Qed.

(** [generateUsage] only adds dates that were missing. *)
Lemma battery_generateUsage_keeps (f t : Z) :
  preserves (@keepsUsages Rm) (generateUsage f t).
Proof.
  unfold generateUsage. apply preserves_forEach; [typeclasses eauto |].
  intros midnight w. unfold bind at 1. unfold gets. cbn [fst snd].
  destruct (usages (self w) !! dateOf midnight) eqn:Eknown.
  - reflexivity.
  - assert (Hsame : forall w', self w' = self w -> keepsUsages w w')
      by (intros w' E; unfold keepsUsages; rewrite E; reflexivity).
    apply bind_after_draws;
      [apply battery_randomUsageInterval_sameSelf | exact Hsame |].
    intros interval w1 E1.
    apply bind_after_draws;
      [apply battery_randomNeededCharge_sameSelf
      | intros w' E; apply Hsame; congruence |].
    intros chargeNeeded w2 E2.
    unfold keepsUsages, onSelf, zoom, modify. simpl.
    rewrite E2, E1. apply insert_subseteq. exact Eknown.
Qed.

Lemma battery_setUp_keeps (dt : Z) : preserves (@keepsUsages Rm) (setUp dt).
Proof.
  unfold setUp. repeat preserve_step; [| apply battery_generateUsage_keeps].
  apply battery_onSelf_keeps. apply preserves_modify. intros b. reflexivity.
Qed.

Lemma battery_tick_keeps : preserves (@keepsUsages Rm) tick.
Proof.
  unfold tick. repeat preserve_step;
    try apply battery_generateUsage_keeps;
    apply battery_onSelf_keeps;
    try (apply preserves_modify; intros b; reflexivity).
  apply battery_calculateDemand_same.
Qed.

Lemma battery_call_keeps (c : Call) : preserves (@keepsUsages Rm) (call c).
Proof.
  destruct c; simpl;
    auto using battery_setUp_keeps, battery_tick_keeps, battery_generateUsage_keeps,
      battery_onSelf_keeps, battery_calculateDemand_same, battery_smart_same,
      battery_uncontrolled_same, battery_spreadOut_same, battery_setPriceProfile_same.
Qed.

Lemma battery_calls_keep (cs : list Call) : preserves (@keepsUsages Rm) (calls cs).
Proof. apply preserves_forEach; [typeclasses eauto | apply battery_call_keeps]. Qed.

End BatteryUsages.

Section MachineUsages.
Import numpy utils profile py world machine.
Context {Rm : RandomModule}.

#[local] Instance machine_sameUsages_preorder : PreOrder sameUsages.
Proof. split; unfold sameUsages; [intros b; reflexivity | intros a b c H1 H2; congruence]. Qed.

#[local] Instance machine_keepsUsages_preorder : PreOrder (@keepsUsages Rm).
Proof.
  split; unfold keepsUsages.
  - intros w. reflexivity.
  - intros a b c H1 H2. etransitivity; eassumption.
Qed.

Lemma machine_smart_same (f t : Z) : preserves sameUsages (calculateSmartDemand f t).
Proof. unfold calculateSmartDemand. repeat preserve_step. reflexivity. Qed.

Lemma machine_uncontrolled_same (f t : Z) :
  preserves sameUsages (calculateUncontrolledDemand f t).
Proof. unfold calculateUncontrolledDemand. repeat preserve_step. reflexivity. Qed.

Lemma machine_spreadOut_same (f t : Z) :
  preserves sameUsages (calculateSpreadOutDemand f t).
Proof. unfold calculateSpreadOutDemand. repeat preserve_step. reflexivity. Qed.

Lemma machine_calculateDemand_same (f t : Z) : preserves sameUsages (calculateDemand f t).
Proof.
  unfold calculateDemand. repeat preserve_step;
    auto using machine_smart_same, machine_uncontrolled_same, machine_spreadOut_same.
Qed.

Lemma machine_setPriceProfile_same (dt : Z) (prices : list Q) :
  preserves sameUsages (setPriceProfile dt prices).
Proof. unfold setPriceProfile. repeat preserve_step. reflexivity. Qed.

Lemma randomMinuteOfDay_sameSelf (params : Q * Q) :
  preserves (@sameSelf Rm Machine) (randomMinuteOfDay params).
Proof.
  unfold randomMinuteOfDay. repeat preserve_step; auto using random_gauss_sameSelf.
Qed.

Lemma randomStartAfter_sameSelf : preserves (@sameSelf Rm Machine) randomStartAfter.
Proof.
  unfold randomStartAfter. repeat preserve_step; auto using randomMinuteOfDay_sameSelf.
Qed.

Lemma randomFinishBy_sameSelf : preserves (@sameSelf Rm Machine) randomFinishBy.
Proof.
  unfold randomFinishBy. repeat preserve_step; auto using randomMinuteOfDay_sameSelf.
Qed.

Lemma randomUsageProfile_sameSelf : preserves (@sameSelf Rm Machine) randomUsageProfile.
Proof.
  unfold randomUsageProfile. repeat preserve_step; auto using random_choice_sameSelf.
Qed.

Lemma machine_onSelf_keeps {A} (m : M Machine A) :
  preserves sameUsages m -> preserves (@keepsUsages Rm) (onSelf m).
Proof.
  apply preserves_onSelf. intros w w' H. unfold keepsUsages. rewrite H. reflexivity.
Qed.

(** [generateUsage] only adds dates that were missing. *)
Lemma machine_generateUsage_keeps (f t : Z) :
  preserves (@keepsUsages Rm) (generateUsage f t).
Proof.
  unfold generateUsage. apply preserves_forEach; [typeclasses eauto |].
  intros midnight w. unfold bind at 1. unfold gets. cbn [fst snd].
  destruct (usages (self w) !! dateOf midnight) eqn:Eknown.
  - reflexivity.
  - assert (Hsame : forall w', self w' = self w -> keepsUsages w w')
      by (intros w' E; unfold keepsUsages; rewrite E; reflexivity).
    apply bind_after_draws; [apply random_random_sameSelf | exact Hsame |].
    intros u w1 E1.
    apply bind_after_draws;
      [apply preserves_reader; [typeclasses eauto | intros ?; reflexivity]
      | intros w' E; apply Hsame; congruence |].
    intros p w2 E2.
    destruct (Qlt_bool u p).
    + apply bind_after_draws;
        [apply randomStartAfter_sameSelf | intros w' E; apply Hsame; congruence |].
      intros startAfter w3 E3.
      apply bind_after_draws;
        [apply randomFinishBy_sameSelf | intros w' E; apply Hsame; congruence |].
      intros finishBy w4 E4.
      apply bind_after_draws;
        [apply randomUsageProfile_sameSelf | intros w' E; apply Hsame; congruence |].
      intros powerUsageProfile w5 E5.
      unfold keepsUsages, onSelf, zoom, modify. simpl.
      rewrite E5, E4, E3, E2, E1. apply insert_subseteq. exact Eknown.
    + unfold keepsUsages, onSelf, zoom, modify. simpl.
      rewrite E2, E1. apply insert_subseteq. exact Eknown.
Qed.

Lemma machine_setUp_keeps (dt : Z) : preserves (@keepsUsages Rm) (setUp dt).
Proof.
  unfold setUp. repeat preserve_step; [| apply machine_generateUsage_keeps].
  apply machine_onSelf_keeps. apply preserves_modify. intros b. reflexivity.
Qed.

Lemma machine_tick_keeps : preserves (@keepsUsages Rm) tick.
Proof.
  unfold tick. repeat preserve_step;
    try apply machine_generateUsage_keeps;
    apply machine_onSelf_keeps;
    try (apply preserves_modify; intros b; reflexivity).
  apply machine_calculateDemand_same.
Qed.

Lemma machine_call_keeps (c : Call) : preserves (@keepsUsages Rm) (call c).
Proof.
  destruct c; simpl;
    auto using machine_setUp_keeps, machine_tick_keeps, machine_generateUsage_keeps,
      machine_onSelf_keeps, machine_calculateDemand_same, machine_smart_same,
      machine_uncontrolled_same, machine_spreadOut_same, machine_setPriceProfile_same.
Qed.

Lemma machine_calls_keep (cs : list Call) : preserves (@keepsUsages Rm) (calls cs).
Proof. apply preserves_forEach; [typeclasses eauto | apply machine_call_keeps]. Qed.

End MachineUsages.

(** C10: the usages of a battery and of a machine are write-once.  After
    any sequence of calls of the appliance's methods ([generateUsage] over
    any intervals, [setUp], [tick], the demand calculations,
    [setPriceProfile]), whether the last one returns or raises, every
    usage that was stored before is still stored, unchanged; and each of
    the three demand calculations leaves all usages as they are, so that
    the three policies read the same sampled usage of a day. *)
Theorem usages_are_write_once (Rm : RandomModule) :
  (forall (cs : list battery.Call) (w : world.World Rm battery.Battery),
     battery.usages (world.self w)
     ⊆ battery.usages (world.self (py.state (battery.calls cs) w)))
  /\ (forall (f t : Z) (b : battery.Battery),
        battery.usages (py.state (battery.calculateSmartDemand f t) b) = battery.usages b
        /\ battery.usages (py.state (battery.calculateUncontrolledDemand f t) b)
           = battery.usages b
        /\ battery.usages (py.state (battery.calculateSpreadOutDemand f t) b)
           = battery.usages b)
  /\ (forall (cs : list machine.Call) (w : world.World Rm machine.Machine),
        machine.usages (world.self w)
        ⊆ machine.usages (world.self (py.state (machine.calls cs) w)))
  /\ (forall (f t : Z) (m : machine.Machine),
        machine.usages (py.state (machine.calculateSmartDemand f t) m) = machine.usages m
        /\ machine.usages (py.state (machine.calculateUncontrolledDemand f t) m)
           = machine.usages m
        /\ machine.usages (py.state (machine.calculateSpreadOutDemand f t) m)
           = machine.usages m).
Proof.
  split; [| split; [| split]].
  - intros cs w. apply (battery_calls_keep cs w).
  - intros f t b. split; [apply (battery_smart_same f t b) |].
    split; [apply (battery_uncontrolled_same f t b) | apply (battery_spreadOut_same f t b)].
  - intros cs w. apply (machine_calls_keep cs w).
  - intros f t m. split; [apply (machine_smart_same f t m) |].
    split; [apply (machine_uncontrolled_same f t m) | apply (machine_spreadOut_same f t m)].
Qed.

Section UsagesExample.
Import utils py world battery examples.

(** A car whose usage of days 0 and 1 was generated keeps these two
    entries when the usage of days 0 to 2 is generated afterwards with a
    generator in another state; only day 2 is sampled then. *)
Example generateUsage_twice_example :
  let carWorld' (seed : nat) b := @mkWorld countingRandom Battery seed b in
  let w1 := state (generateUsage 0 1440) (carWorld 1) in
  let w2 := state (generateUsage 0 2880) (carWorld' 7%nat (self w1)) in
  usages (self w1) !! 0 = Some ((mkTime 8 0, mkTime 17 0), 10%Q)
  /\ usages (self w1) !! 1 = Some ((mkTime 9 0, mkTime 19 0), 6%Q)
  /\ usages (self w1) !! 2 = None
  /\ usages (self w2) !! 0 = usages (self w1) !! 0
  /\ usages (self w2) !! 1 = usages (self w1) !! 1
  /\ usages (self w2) !! 2 = Some ((mkTime 23 59, mkTime 0 0), 14%Q).
Proof. vm_compute. repeat split. Qed.

End UsagesExample.

(** ** Grid: the target demand *)

Section TargetFacts.
Import numpy utils profile grid.

Lemma sum_map_scale (c : Q) (l : list Q) :
  (sum (map (fun x => x * c) l) == sum l * c)%Q.
Proof.
  induction l as [| x l IH]; simpl; [ring |].
  fold (sum (map (fun x => x * c)%Q l)). fold (sum l). rewrite IH. ring.
Qed.

Lemma sum_map_shift (c : Q) (l : list Q) :
  (sum (map (fun x => x + c) l) == sum l + inject_Z (size l) * c)%Q.
Proof.
  unfold size. induction l as [| x l IH]; [simpl; ring |].
  change (sum (map (fun x => x + c)%Q (x :: l)))
    with (x + c + sum (map (fun x => x + c)%Q l))%Q.
  change (sum (x :: l)) with (x + sum l)%Q.
  rewrite IH. simpl length. rewrite Nat2Z.inj_succ. unfold Z.succ.
  rewrite inject_Z_plus. ring.
Qed.

Lemma clampAtZero_ge (x : Q) : (x <= clampAtZero x)%Q /\ (0 <= clampAtZero x)%Q.
Proof.
  unfold clampAtZero. destruct (Qle_bool x 0) eqn:E.
  - apply Qle_bool_iff in E. split; [exact E | apply Qle_refl].
  - split; [apply Qle_refl |].
    destruct (Qlt_le_dec 0 x) as [H | H]; [apply Qlt_le_weak, H |].
    apply Qle_bool_iff in H. congruence.
Qed.

Lemma sum_map_clamp (l : list Q) : (sum l <= sum (map clampAtZero l))%Q.
Proof.
  induction l as [| x l IH]; simpl; [apply Qle_refl |].
  apply Qplus_le_compat; [apply clampAtZero_ge | exact IH].
Qed.

Lemma sum_nonneg (l : list Q) : Forall (fun x => 0 <= x)%Q l -> (0 <= sum l)%Q.
Proof.
  induction 1 as [| x l Hx _ IH]; simpl; [apply Qle_refl |].
  replace 0%Q with (0 + 0)%Q by reflexivity. apply Qplus_le_compat; assumption.
Qed.

Lemma map_clamp_nonneg (l : list Q) : Forall (fun x => 0 <= x)%Q (map clampAtZero l).
Proof. induction l; simpl; constructor; [apply clampAtZero_ge | assumption]. Qed.

Lemma binop_length (f : Q -> Q -> Q) (a b out : list Q) :
  binop f a b = Some out -> length b <> 1%nat -> length out = length b.
Proof.
  unfold binop. destruct (decide _) as [E | Hne].
  - intros [= <-] _. rewrite length_zip_with. lia.
  - destruct a as [| x [| x' a]]; destruct b as [| y [| y' b]];
      try discriminate; intros [= <-] Hb; simpl in *;
      rewrite ?length_map; congruence.
Qed.

Lemma Qeq_bool_false_neq (x y : Q) : Qeq_bool x y = false -> ~ (x == y)%Q.
Proof. intros H E. apply Qeq_bool_iff in E. congruence. Qed.

Section NewTarget.
Variable peakEnvelope : list Q -> option (list Q).
Variable stats : ApplianceStatistics.

(** The freshly computed target demand covers the expected consumption
    of the window and is nowhere negative. *)
Lemma newTargetDemand_covers (noise : Q) (g : Grid) (fromDT toDT : Z)
    (total : Q) (target : list Q) :
  fromDT <= toDT ->
  newTargetDemand peakEnvelope stats noise g fromDT toDT = Some (total, target) ->
  size target = minutesBetween fromDT toDT + 720
  /\ fromDT < toDT
  /\ (total <= integral (slice target 0 (minutesBetween fromDT toDT)))%Q
  /\ Forall (fun x => 0 <= x)%Q target
  /\ (forall expected,
        expectedConsumption stats (size (connections g)) fromDT toDT = Some expected ->
        (total == expected * ((9 # 10) + noise * (2 # 10)))%Q).
Proof.
  intros Hle. unfold newTargetDemand.
  destruct (expectedConsumption _ _ _ _) as [expected |]; cbn [mbind option_bind];
    [| discriminate].
  destruct (get _ _ _) as [baseDemand |] eqn:Hget; cbn [mbind option_bind]; [| discriminate].
  destruct (peakEnvelope baseDemand) as [smoothDemand |]; cbn [mbind option_bind];
    [| discriminate].
  destruct (binop Qminus smoothDemand baseDemand) as [difference |] eqn:Hdiff;
    cbn [mbind option_bind]; [| discriminate].
  apply get_length in Hget. unfold minutesBetween, minutesIn, oneDay in *.
  change (1440 / 2) with 720 in *.
  apply binop_length in Hdiff; [| unfold size in Hget; lia].
  set (n := toDT - fromDT) in *.
  set (targetDemand := sliceFrom difference 1440).
  assert (Htlen : size targetDemand = n + 720).
  { unfold targetDemand, sliceFrom, size in *.
    rewrite sliceBound_inside by lia. rewrite length_drop. lia. }
  set (W := slice targetDemand 0 n).
  assert (HW : W = take (Z.to_nat n) targetDemand).
  { unfold W, slice. rewrite !sliceBound_inside by lia. rewrite Z.sub_0_r. reflexivity. }
  assert (HWlen : size W = n).
  { rewrite HW. unfold size in *. rewrite length_take. lia. }
  set (E := (expected * ((9 # 10) + noise * (2 # 10)))%Q).
  set (I := (sum W / 60)%Q).
  assert (Hwin : forall adj, slice (map clampAtZero (map adj targetDemand)) 0 n
                             = map clampAtZero (map adj W)).
  { intros adj. unfold slice. unfold size in *. rewrite !length_map.
    rewrite !sliceBound_inside by lia. rewrite Z.sub_0_r, drop_0.
    rewrite HW. change (take ?k ?l) with (firstn k l). rewrite !firstn_map. reflexivity. }
  destruct (Qle_bool E I) eqn:Hcmp.
  - destruct (Qeq_bool I 0) eqn:HI0; cbn [mbind option_bind]; [discriminate |].
    apply Qeq_bool_false_neq in HI0.
    intros [= <- <-]. split; [| split; [| split; [| split]]].
    + unfold size in *. rewrite !length_map. exact Htlen.
    + destruct (Z.eq_dec n 0) as [E0 | ]; [| lia]. exfalso. apply HI0.
      unfold I. rewrite HW, E0. simpl. reflexivity.
    + rewrite Hwin. unfold integral.
      apply Qle_trans with (sum (map (fun x => x * (E / I))%Q W) / 60)%Q.
      * rewrite sum_map_scale. unfold I in *. apply Qle_lteq. right. field.
        intros H0. apply HI0. rewrite H0. reflexivity.
      * apply Qmult_le_compat_r; [apply sum_map_clamp | discriminate].
    + apply map_clamp_nonneg.
    + intros ? [= <-]. reflexivity.
  - destruct (Z.eqb_spec n 0) as [E0 | Hn]; cbn [mbind option_bind]; [discriminate |].
    intros [= <- <-]. split; [| split; [| split; [| split]]].
    + unfold size in *. rewrite !length_map. exact Htlen.
    + lia.
    + rewrite Hwin. unfold integral.
      apply Qle_trans with (sum (map (fun x => x + (E - I) / (inject_Z n / 60))%Q W) / 60)%Q.
      * rewrite sum_map_shift, HWlen. unfold I. apply Qle_lteq. right. field.
        intros H0. apply Hn. apply inject_Z_injective. rewrite H0. reflexivity.
      * apply Qmult_le_compat_r; [apply sum_map_clamp | discriminate].
    + apply map_clamp_nonneg.
    + intros ? [= <-]. reflexivity.
Qed.

End NewTarget.

End TargetFacts.

Section StoredTarget.
Import numpy utils profile grid py.

Lemma get_fresh (fromDT toDT : Z) (vals : list Q) :
  0 <= toDT - fromDT <= size vals ->
  get (mkProfile (Some fromDT) vals) fromDT toDT
  = Some (slice vals 0 (minutesBetween fromDT toDT)).
Proof.
  intros Hn. unfold get, minutesBetween, minutesIn. simpl.
  set (n := toDT - fromDT) in *.
  rewrite zeros_nonneg by lia. cbn [mbind option_bind].
  replace (fromDT - fromDT) with 0 by lia.
  replace (Z.min (size vals) n - 0) with n by lia.
  replace (Z.min (size vals) n) with n by lia.
  assert (Hsl : length (slice vals 0 n) = Z.to_nat n).
  { pose proof (slice_inside_length vals 0 n) as H. unfold size in *. lia. }
  assert (Hres : size (replicate (Z.to_nat n) 0%Q) = n)
    by (unfold size; rewrite length_replicate; lia).
  unfold setSlice. rewrite !Hres.
  rewrite !sliceBound_inside by lia.
  replace (Z.to_nat n - Z.to_nat 0)%nat with (length (slice vals 0 n)) by lia.
  rewrite broadcastTo_same. cbn [mbind option_bind].
  rewrite take_0, drop_replicate.
  replace (Z.to_nat n - (Z.to_nat 0 + length (slice vals 0 n)))%nat with 0%nat by lia.
  simpl. rewrite app_nil_r. reflexivity.
Qed.

Lemma nonNegative_resizeTo (vals : list Q) (n : Z) :
  nonNegative vals -> nonNegative (resizeTo vals n).
Proof.
  intros H. unfold resizeTo, resize. destruct (_ <? _); [| exact H].
  apply Forall_app. split; [exact H |]. apply Forall_replicate. apply Qle_refl.
Qed.

Lemma nonNegative_setSlice (a src out : list Q) (i j : Z) :
  nonNegative a -> nonNegative src -> setSlice a i j src = Some out -> nonNegative out.
Proof.
  intros Ha Hs. unfold setSlice.
  destruct (broadcastTo _ src) as [src' |] eqn:E; cbn [mbind option_bind]; [| discriminate].
  intros [= <-].
  assert (Hs' : nonNegative src').
  { unfold broadcastTo in E. destruct (decide _).
    - injection E as <-. exact Hs.
    - destruct src as [| x [| y src]]; try discriminate. injection E as <-.
      apply Forall_replicate. inversion Hs; assumption. }
  unfold nonNegative. rewrite !Forall_app. repeat split.
  - apply Forall_take, Ha.
  - exact Hs'.
  - apply Forall_drop, Ha.
Qed.

Lemma nonNegative_zip_with (f : Q -> Q -> Q) (a b : list Q) :
  (forall x y, 0 <= x -> 0 <= y -> 0 <= f x y)%Q ->
  nonNegative a -> nonNegative b -> nonNegative (zip_with f a b).
Proof.
  intros Hf Ha. revert b. induction Ha as [| x a Hx _ IH]; intros b Hb; simpl.
  - constructor.
  - destruct Hb as [| y b Hy Hb]; constructor; [apply Hf; assumption | apply IH, Hb].
Qed.

Lemma nonNegative_map (g : Q -> Q) (l : list Q) :
  (forall z, 0 <= z -> 0 <= g z)%Q -> nonNegative l -> nonNegative (map g l).
Proof.
  intros Hg Hl. unfold nonNegative in *. apply List.Forall_map.
  eapply Forall_impl; [exact Hl | exact Hg].
Qed.

Lemma nonNegative_binop (f : Q -> Q -> Q) (a b out : list Q) :
  (forall x y, 0 <= x -> 0 <= y -> 0 <= f x y)%Q ->
  nonNegative a -> nonNegative b -> binop f a b = Some out -> nonNegative out.
Proof.
  intros Hf Ha Hb. unfold binop. destruct (decide _).
  - intros [= <-]. apply nonNegative_zip_with; assumption.
  - destruct a as [| x [| x' a]].
    + destruct b as [| y [| y' b]]; try discriminate. intros [= <-]. constructor.
    + intros [= <-]. apply (nonNegative_map (f x) b); [| exact Hb].
      intros z Hz. apply Hf; [| exact Hz]. inversion Ha; assumption.
    + destruct b as [| y [| y' b]]; try discriminate. intros [= <-].
      apply (nonNegative_map (fun z => f z y) (x :: x' :: a)); [| exact Ha].
      intros z Hz. apply Hf; [exact Hz |]. inversion Hb; assumption.
Qed.

Lemma Qmult_nonneg (x y : Q) : (0 <= x -> 0 <= y -> 0 <= x * y)%Q.
Proof. intros. apply Qmult_le_0_compat; assumption. Qed.

Lemma Qplus_nonneg (x y : Q) : (0 <= x -> 0 <= y -> 0 <= x + y)%Q.
Proof.
  intros. replace 0%Q with (0 + 0)%Q by reflexivity. apply Qplus_le_compat; assumption.
Qed.

Lemma nonNegative_padRight (a out : list Q) (k : Z) (c : Q) :
  nonNegative a -> (0 <= c)%Q -> padRight a k c = Some out -> nonNegative out.
Proof.
  intros Ha Hc. unfold padRight. destruct (k <? 0); [discriminate |].
  intros [= <-]. apply Forall_app. split; [exact Ha | apply Forall_replicate, Hc].
Qed.

(** A cross-fade with ratios between 0 and 1 keeps a profile
    non-negative. *)
Lemma nonNegative_transition (hc : nat -> nat -> Q) (p p' : Profile) (fromDT : Z)
    (newValues : list Q) :
  (forall n k, 0 <= hc n k <= 1)%Q ->
  nonNegative (values p) -> nonNegative newValues ->
  transition hc p fromDT newValues = Some p' ->
  nonNegative (values p').
Proof.
  intros Hhc Hp Hn. unfold transition.
  destruct (startingDT p) as [t0 |] eqn:Est.
  - set (start := minutesBetween t0 fromDT).
    set (vals := resizeTo (values p) (start + size newValues)).
    assert (Hv : nonNegative vals) by apply nonNegative_resizeTo, Hp.
    destruct (_ =? 0).
    { intros [= <-]. simpl. apply Forall_app. split; assumption. }
    destruct (_ <? 0).
    { destruct (setSliceFrom vals start newValues) as [v |] eqn:E;
        cbn [mbind option_bind]; [| discriminate].
      intros [= <-]. simpl. eapply nonNegative_setSlice; [exact Hv | exact Hn | exact E]. }
    set (ratio := ratioVector hc (size (values p) - start)).
    assert (Hr0 : nonNegative ratio).
    { unfold ratio, ratioVector. apply List.Forall_map. apply Forall_forall.
      intros k _. apply Hhc. }
    assert (Hr1 : nonNegative (map (fun x => 1 - x)%Q ratio)).
    { unfold ratio, ratioVector. rewrite map_map. apply List.Forall_map. apply Forall_forall.
      intros k _. destruct (Hhc (Z.to_nat (size (values p) - start)) k) as [_ H1].
      unfold Qminus. rewrite <- Qle_minus_iff. exact H1. }
    destruct (padRight ratio _ 0%Q) as [oldMask |] eqn:Eo; cbn [mbind option_bind];
      [| discriminate].
    destruct (padRight (map _ ratio) _ 1%Q) as [newMask |] eqn:En; cbn [mbind option_bind];
      [| discriminate].
    assert (Hom : nonNegative oldMask)
      by (eapply nonNegative_padRight; [exact Hr0 | | exact Eo]; apply Qle_refl).
    assert (Hnm : nonNegative newMask)
      by (eapply nonNegative_padRight; [exact Hr1 | | exact En]; vm_compute; discriminate).
    destruct (binop Qmult (sliceFrom vals start) oldMask) as [old' |] eqn:E1;
      cbn [mbind option_bind]; [| discriminate].
    destruct (binop Qmult newValues newMask) as [new' |] eqn:E2;
      cbn [mbind option_bind]; [| discriminate].
    destruct (binop Qplus old' new') as [blend |] eqn:E3;
      cbn [mbind option_bind]; [| discriminate].
    destruct (setSliceFrom vals start blend) as [v |] eqn:E4;
      cbn [mbind option_bind]; [| discriminate].
    intros [= <-]. simpl.
    eapply nonNegative_setSlice; [exact Hv | | exact E4].
    eapply nonNegative_binop; [apply Qplus_nonneg | | | exact E3].
    + eapply nonNegative_binop; [apply Qmult_nonneg | | exact Hom | exact E1].
      apply Forall_drop, Hv.
    + eapply nonNegative_binop; [apply Qmult_nonneg | exact Hn | exact Hnm | exact E2].
  - unfold set. rewrite Est. intros [= <-]. exact Hn.
Qed.

End StoredTarget.

Section TargetTheorem.
Import numpy utils profile grid py.

Lemma calculateTargetDemand_state (peakEnvelope : list Q -> option (list Q))
    (hc : nat -> nat -> Q) (stats : ApplianceStatistics) (noise : Q) (g : Grid)
    (fromDT toDT : Z) (total : Q) (target : list Q) :
  newTargetDemand peakEnvelope stats noise g fromDT toDT = Some (total, target) ->
  state (calculateTargetDemand peakEnvelope hc stats noise fromDT toDT) g
  = match transition hc (targetDemand g) fromDT target with
    | Some stored => setTargetDemand stored g
    | None => g
    end.
Proof.
  intros H. unfold state, calculateTargetDemand, bind, modify. rewrite H. simpl.
  destruct (transition _ _ _ _); reflexivity.
Qed.


End TargetTheorem.

Section TargetExample.
Import numpy utils profile grid py examples.

Lemma halfCosineSmall_bounded (n k : nat) : (0 <= halfCosineSmall n k <= 1)%Q.
Proof.
  destruct n as [| [| [| [| n]]]]; destruct k as [| [| [| k]]]; simpl;
    split; vm_compute; discriminate.
Qed.



End TargetExample.

(** ** Accumulator: the smart schedule *)

Section SmartAccumulator.
Import numpy utils profile accumulator py examples.

(** C1, the failing cases.

    Above the capacity.  For the boiler the planning window admits a
    schedule that keeps the charge within [0, capacity] (charging in
    minute 1 only), but the backward pass raises the upper limit of
    minute 0 from 0 to 1, and the greedy loop switches the boiler on in
    minute 0, the cheapest one: the simulated charge after minute 0 is
    9.5 + 1 - 0 = 10.5 kWh, above the capacity of 10 kWh.  The call for
    the day stores a demand of 60 kW for minute 0.

    Below zero.  The drained boiler must charge in minute 0 to stay at or
    above zero (lower limit 1 after minute 0), and charging in every other
    minute keeps it within bounds; the prefix cap lowers that limit to 0,
    the greedy loop leaves the expensive minute 0 out, and the simulated
    charge after minute 0 is 0.2 - 0.5 = -0.3 kWh. *)
Theorem smart_accumulator_leaves_bounds :
  (get (priceProfile boiler) 0 2880 = Some risingPrices
   /\ get (dischargingProfile boiler) 0 2880 = Some boilerDischarging
   /\ upperLimitRaw 10 (19 # 2) 1 (cumsum (map (fun x => x / 60)%Q (take 3 boilerDischarging)))
      = [0; 2; 11]
   /\ take 4 (upperLimits 10 (19 # 2) 1 (cumsum (map (fun x => x / 60)%Q boilerDischarging))
                          2880)
      = [0; 1; 2; 3]
   /\ smartChargingProfile 60 10 (19 # 2) risingPrices boilerDischarging 2880
      = Some (1%Q :: replicate 2879 0%Q)
   /\ (exists charge,
         simulatedCharges 60 (19 # 2) (1%Q :: replicate 2879 0%Q) boilerDischarging !! 0%nat
         = Some charge
         /\ (charge == 21 # 2)%Q /\ (capacity boiler < charge)%Q)
   /\ withinBounds 10 (simulatedCharges 60 (19 # 2) (0%Q :: 1%Q :: replicate 2878 0%Q)
                                        boilerDischarging) = true
   /\ result (calculateSmartDemand 0 1440) boiler = Some tt
   /\ get (smartDemand (state (calculateSmartDemand 0 1440) boiler)) 0 2
      = Some [1 * 60; 0 * 60]%Q)
  /\ (get (priceProfile drainedBoiler) 0 2880 = Some expensiveStartPrices
      /\ get (dischargingProfile drainedBoiler) 0 2880 = Some steadyDischarging
      /\ take 3 (lowerLimitRaw (1 # 5) 1 (cumsum (map (fun x => x / 60)%Q steadyDischarging)))
         = [1; 1; 2]
      /\ take 4 (lowerLimits (1 # 5) 1 (cumsum (map (fun x => x / 60)%Q steadyDischarging)))
         = [0; 0; 1; 2]
      /\ (exists schedule charge,
            smartChargingProfile 60 10 (1 # 5) expensiveStartPrices steadyDischarging 2880
            = Some schedule
            /\ take 3 schedule = [0; 1; 1]%Q
            /\ simulatedCharges 60 (1 # 5) schedule steadyDischarging !! 0%nat = Some charge
            /\ (charge == - (3 # 10))%Q /\ (charge < 0)%Q)
      /\ withinBounds 10 (simulatedCharges 60 (1 # 5) alternatingSchedule steadyDischarging)
         = true
      /\ result (calculateSmartDemand 0 1440) drainedBoiler = Some tt
      /\ get (smartDemand (state (calculateSmartDemand 0 1440) drainedBoiler)) 0 2
         = Some [0 * 60; 1 * 60]%Q).
Proof.
  split.
  - split; [vm_compute; reflexivity |]. split; [vm_compute; reflexivity |].
    split; [vm_compute; reflexivity |]. split; [vm_compute; reflexivity |].
    split; [vm_compute; reflexivity |]. split.
    { eexists. split; [vm_compute; reflexivity |]. split; vm_compute; reflexivity. }
    split; [vm_compute; reflexivity |]. split; vm_compute; reflexivity.
  - split; [vm_compute; reflexivity |]. split; [vm_compute; reflexivity |].
    split; [vm_compute; reflexivity |]. split; [vm_compute; reflexivity |].
    split.
    { eexists. eexists. split; [vm_compute; reflexivity |].
      split; [vm_compute; reflexivity |]. split; [vm_compute; reflexivity |].
      split; vm_compute; reflexivity. }
    split; [vm_compute; reflexivity |]. split; vm_compute; reflexivity.
Qed.

End SmartAccumulator.

(** ** Connection: the loop of cheap intervals can end *)

Section CheapIntervalProgress.
Import numpy utils profile connection.

Lemma sum_blockMask (a b c : nat) : (sum (blockMask a b c) == inject_Z (Z.of_nat b))%Q.
Proof. unfold blockMask. rewrite !sum_app, !sum_replicate. ring. Qed.

Lemma fillOnes_blockMask (a b c L : nat) :
  (L <= c)%nat ->
  fillOnes (blockMask a b c) (Z.of_nat (a + b)) (Z.of_nat (a + b) + Z.of_nat L)
  = blockMask a (b + L) (c - L).
Proof.
  intros HL. unfold fillOnes.
  assert (Hsize : size (blockMask a b c) = Z.of_nat (a + b + c)).
  { unfold size, blockMask. rewrite !length_app, !length_replicate. lia. }
  rewrite Hsize. rewrite !sliceBound_inside by lia.
  replace (Z.to_nat (Z.of_nat (a + b) + Z.of_nat L) - Z.to_nat (Z.of_nat (a + b)))%nat
    with L by lia.
  replace (Z.to_nat (Z.of_nat (a + b))) with (a + b)%nat by lia.
  unfold blockMask.
  rewrite (app_assoc (replicate a 0%Q)).
  rewrite take_app_length' by (rewrite length_app, !length_replicate; reflexivity).
  rewrite drop_app_ge by (rewrite length_app, !length_replicate; lia).
  rewrite length_app, !length_replicate.
  replace (a + b + L - (a + b))%nat with L by lia.
  rewrite drop_replicate, replicate_add, <- !app_assoc. reflexivity.
Qed.

(** From a mask with [j] adjacent intervals, [k] more adjacent draws end
    the loop when the first [j + k - 1] intervals are too few and
    [j + k] are enough. *)
Lemma cheapIntervalLoop_adjacent (L Q0 : Z) (T : nat) (k : nat) :
  0 < L ->
  forall j : nat,
  (Z.to_nat (L - L / 2) + (j + k) * Z.to_nat L <= T)%nat ->
  (forall i : nat, (i < k)%nat -> Z.of_nat (j + i) * L < Q0) ->
  Q0 <= Z.of_nat (j + k) * L ->
  cheapIntervalLoop L Q0
    (blockMask (Z.to_nat (L - L / 2)) (j * Z.to_nat L)
               (T - Z.to_nat (L - L / 2) - j * Z.to_nat L))
    (adjacentDraws L j k)
  = Some (blockMask (Z.to_nat (L - L / 2)) ((j + k) * Z.to_nat L)
                    (T - Z.to_nat (L - L / 2) - (j + k) * Z.to_nat L)).
Proof.
  intros HL. set (a := Z.to_nat (L - L / 2)). set (Ln := Z.to_nat L).
  assert (Ha : Z.of_nat a = L - L / 2).
  { unfold a. pose proof (Z.div_lt_upper_bound L 2 L). lia. }
  induction k as [| k IH]; intros j HT Hrun Hend.
  - replace (j + 0)%nat with j in * by lia.
    assert (Hs : Qlt_bool (sum (blockMask a (j * Ln) (T - a - j * Ln))) (inject_Z Q0) = false).
    { unfold Qlt_bool. apply negb_false_iff, Qle_bool_iff.
      rewrite sum_blockMask, <- Zle_Qle. unfold Ln. lia. }
    simpl. rewrite Hs. reflexivity.
  - assert (Hs : Qlt_bool (sum (blockMask a (j * Ln) (T - a - j * Ln))) (inject_Z Q0) = true).
    { unfold Qlt_bool. apply negb_true_iff.
      destruct (Qle_bool _ _) eqn:E; [| reflexivity].
      apply Qle_bool_iff in E. rewrite sum_blockMask, <- Zle_Qle in E.
      specialize (Hrun 0%nat ltac:(lia)). unfold Ln in E. lia. }
    simpl. rewrite Hs. unfold minutesIn.
    replace (L + Z.of_nat j * L - L / 2) with (Z.of_nat (a + j * Ln)) by (unfold Ln; lia).
    replace (Z.of_nat (a + j * Ln) + L) with (Z.of_nat (a + j * Ln) + Z.of_nat Ln)
      by (unfold Ln; lia).
    rewrite fillOnes_blockMask by (unfold Ln in *; lia).
    replace (j * Ln + Ln)%nat with (S j * Ln)%nat by lia.
    replace (T - a - j * Ln - Ln)%nat with (T - a - S j * Ln)%nat by lia.
    rewrite (IH (S j)).
    + replace (S j + k)%nat with (j + S k)%nat by lia. reflexivity.
    + fold a Ln in HT |- *. lia.
    + intros i Hi. specialize (Hrun (S i) ltac:(lia)).
      replace (S j + i)%nat with (j + S i)%nat by lia. exact Hrun.
    + replace (S j + k)%nat with (j + S k)%nat by lia. exact Hend.
Qed.

End CheapIntervalProgress.

Section CheapIntervalDay.
Import numpy utils profile connection.

Lemma Qlt_bool_intro (a b : Q) : (a < b)%Q -> Qlt_bool a b = true.
Proof.
  intros H. unfold Qlt_bool. apply negb_true_iff.
  destruct (Qle_bool b a) eqn:E; [| reflexivity].
  apply Qle_bool_iff in E. exfalso. apply (Qlt_not_le _ _ H E).
Qed.

Lemma sum_positive (l : list Q) :
  l <> [] -> Forall (fun p => 0 < p)%Q l -> (0 < sum l)%Q.
Proof.
  intros Hne H. destruct H as [| x l Hx Hl]; [contradiction |]. simpl.
  apply Qlt_le_trans with (x + 0)%Q; [rewrite Qplus_0_r; exact Hx |].
  apply Qplus_le_r. apply sum_nonneg.
  eapply Forall_impl; [exact Hl | intros p Hp; apply Qlt_le_weak, Hp].
Qed.

Lemma positive_usableWeights (probs : list Q) :
  probs <> [] -> Forall (fun p => 0 < p)%Q probs -> usableWeights probs = true.
Proof.
  intros Hne H. unfold usableWeights. apply andb_true_iff. split.
  - apply forallb_forall. intros p Hp. apply Qle_bool_iff, Qlt_le_weak.
    rewrite List.Forall_forall in H. apply H, Hp.
  - apply Qlt_bool_intro, sum_positive; assumption.
Qed.

Lemma adjacentDraws_elements (L : Z) (k : nat) :
  forall j c, c ∈ adjacentDraws L j k ->
  exists i : nat, (j <= i < j + k)%nat /\ c = Z.of_nat i * L.
Proof.
  induction k as [| k IH]; intros j c Hc; simpl in Hc.
  - inversion Hc.
  - apply elem_of_cons in Hc as [-> | Hc].
    + exists j. split; [lia | reflexivity].
    + destruct (IH _ _ Hc) as (i & Hi & ->). exists i. split; [lia | reflexivity].
Qed.

(** X30.  With an interval longer than one minute, a positive count of at
    most a day and non-zero weights in every minute of the window, there
    are draws for which a mask is generated: intervals that follow each
    other without a gap. *)
Lemma cheap_intervals_can_be_generated (config : PriceConfig) (ratios : Profile)
    (midnight : Z) (probs : list Q) :
  1 < cheapIntervalLength config ->
  0 < cheapMinutesCount config <= 1440 ->
  get ratios (midnight + cheapIntervalLength config)
             (midnight + cheapIntervalLength config + oneDay) = Some probs ->
  Forall (fun p => 0 < p)%Q probs ->
  let draws :=
    adjacentDraws (cheapIntervalLength config) 0
      (Z.to_nat ((cheapMinutesCount config + cheapIntervalLength config - 1)
                 / cheapIntervalLength config)) in
  Forall (possibleDraw probs) draws
  /\ exists mask, cheaperIntervalsOfDay config ratios midnight draws = Some mask.
Proof.
  intros HL HQ Hget Hpos.
  set (L := cheapIntervalLength config) in *.
  set (Q0 := cheapMinutesCount config) in *.
  pose proof (get_length _ _ _ _ Hget) as Hplen.
  unfold minutesBetween, minutesIn, oneDay in Hplen.
  assert (Hsize : size probs = 1440) by lia. clear Hplen.
  set (kz := (Q0 + L - 1) / L).
  assert (Hk : L * kz <= Q0 + L - 1 < L * kz + L).
  { pose proof (Z.div_mod (Q0 + L - 1) L ltac:(lia)) as Hdm.
    pose proof (Z.mod_pos_bound (Q0 + L - 1) L ltac:(lia)) as Hmod.
    fold kz in Hdm. lia. }
  assert (Hkpos : 0 <= kz) by (apply Z.div_pos; lia).
  intros draws. split.
  - apply Forall_forall. intros c Hc.
    apply adjacentDraws_elements in Hc as (i & Hi & ->).
    assert (Hrange : 0 <= Z.of_nat i * L < 1440) by nia.
    split; [rewrite Hsize; exact Hrange |].
    destruct (probs !! Z.to_nat (Z.of_nat i * L)) as [p |] eqn:Ep.
    + simpl. apply Qlt_bool_intro.
      rewrite List.Forall_forall in Hpos. apply Hpos.
      apply list_elem_of_In. eapply list_elem_of_lookup_2, Ep.
    + apply lookup_ge_None in Ep. unfold size in Hsize. lia.
  - unfold cheaperIntervalsOfDay. fold L Q0. unfold minutesIn, oneDay.
    rewrite (zeros_nonneg (1440 + 2 * L)) by lia. cbn [mbind option_bind].
    unfold oneDay in Hget. rewrite Hget. cbn [mbind option_bind].
    destruct (Z.eqb_spec L 1) as [E | _]; [lia |].
    rewrite positive_usableWeights; [| | exact Hpos].
    2:{ intros E. rewrite E in Hsize. discriminate Hsize. }
    rewrite andb_false_r.
    set (T := Z.to_nat (1440 + 2 * L)).
    set (a := Z.to_nat (L - L / 2)).
    assert (Ha : (a <= T)%nat).
    { unfold a, T. pose proof (Z.div_pos L 2). lia. }
    assert (Hz : replicate T 0%Q = blockMask a (0 * Z.to_nat L) (T - a - 0 * Z.to_nat L)).
    { unfold blockMask. simpl. rewrite <- replicate_add. f_equal. lia. }
    rewrite Hz. eexists.
    apply (cheapIntervalLoop_adjacent L Q0 T (Z.to_nat kz)); [lia | | |].
    + fold a. unfold T. pose proof (Z.div_pos L 2).
      assert (Z.of_nat a <= L) by (unfold a; lia).
      assert (Z.of_nat (Z.to_nat kz * Z.to_nat L) = kz * L) by nia. lia.
    + intros i Hi. simpl. nia.
    + simpl. nia.
Qed.

End CheapIntervalDay.

(** ** Profile: reads that start inside the stored range *)

Section ProfileReads.
Import numpy utils profile.

(** A window that starts inside the stored range (or at its end) is
    read as the stored values followed by zeros. *)
Lemma get_inside (p : Profile) (t0 fromDT toDT : Z) :
  startingDT p = Some t0 ->
  t0 <= fromDT <= toDT ->
  fromDT - t0 <= size (values p) ->
  get p fromDT toDT
  = Some (take (Z.to_nat (toDT - fromDT)) (drop (Z.to_nat (fromDT - t0)) (values p))
          ++ replicate (Z.to_nat (toDT - fromDT)
                        - (length (values p) - Z.to_nat (fromDT - t0)))%nat 0%Q).
Proof.
  intros Ht Hord Hin. unfold get. rewrite Ht. unfold minutesBetween, minutesIn.
  set (v := values p) in *. set (s := fromDT - t0) in *. set (n := toDT - fromDT).
  replace (toDT - t0) with (s + n) by (unfold s, n; lia).
  assert (Hn : 0 <= n) by (unfold n; lia).
  assert (Hs : 0 <= s) by (unfold s; lia).
  rewrite zeros_nonneg by lia. cbn [mbind option_bind].
  set (stop := Z.min (size v) (s + n)).
  assert (Hstop : s <= stop <= size v /\ stop - s <= n) by (unfold stop; lia).
  assert (Hres : size (replicate (Z.to_nat n) 0%Q) = n)
    by (unfold size; rewrite length_replicate; lia).
  assert (Hsrc : slice v s stop = take (Z.to_nat (stop - s)) (drop (Z.to_nat s) v)).
  { unfold slice. rewrite !sliceBound_inside by lia. reflexivity. }
  assert (Hlen : length (slice v s stop) = Z.to_nat (stop - s)).
  { pose proof (slice_inside_length v s stop ltac:(lia) ltac:(lia)) as H.
    unfold size in H. lia. }
  unfold setSlice. rewrite Hres. rewrite !sliceBound_inside by lia.
  replace (Z.to_nat (stop - s) - Z.to_nat 0)%nat with (length (slice v s stop)) by lia.
  rewrite broadcastTo_same. cbn [mbind option_bind].
  rewrite take_0, drop_replicate. simpl. f_equal. rewrite Hsrc.
  unfold size in *.
  destruct (Z.le_gt_cases (s + n) (Z.of_nat (length v))) as [Hcase | Hcase].
  - replace stop with (s + n) in * by (unfold stop; lia).
    replace (s + n - s) with n by lia.
    f_equal. f_equal. rewrite length_take, length_drop. lia.
  - replace stop with (Z.of_nat (length v)) in * by (unfold stop; lia).
    rewrite !take_ge by (rewrite length_drop; lia).
    f_equal. f_equal. rewrite length_drop. lia.
Qed.

(** Reads that start inside the stored range concatenate, as long as
    the second window starts inside it as well. *)
Lemma get_concat_inside (p : Profile) (t0 t1 t2 t3 : Z) :
  startingDT p = Some t0 ->
  t0 <= t1 -> t1 <= t2 -> t2 <= t3 ->
  t2 - t0 <= size (values p) ->
  exists a b,
    get p t1 t2 = Some a /\ get p t2 t3 = Some b /\ get p t1 t3 = Some (a ++ b).
Proof.
  intros Ht H01 H12 H23 Hin.
  rewrite (get_inside p t0 t1 t2), (get_inside p t0 t2 t3), (get_inside p t0 t1 t3)
    by (assumption || lia).
  eexists. eexists. split; [reflexivity |]. split; [reflexivity |]. f_equal.
  set (v := values p) in *. unfold size in Hin.
  replace (Z.to_nat (t2 - t1) - (length v - Z.to_nat (t1 - t0)))%nat with 0%nat by lia.
  simpl. rewrite app_nil_r, app_assoc. f_equal.
  - replace (Z.to_nat (t3 - t1)) with (Z.to_nat (t2 - t1) + Z.to_nat (t3 - t2))%nat by lia.
    rewrite <- take_take_drop, drop_drop. f_equal. f_equal. f_equal. lia.
  - f_equal. lia.
Qed.

End ProfileReads.
(** ** More on profiles *)

Section ProfileCells.
Import numpy utils profile.

Lemma padded_window (v : list Q) (s n : nat) :
  (s <= length v)%nat ->
  take n (drop s v) ++ replicate (n - (length v - s)) 0%Q
  = map (fun j => default 0%Q (v !! j)) (seq s n).
Proof.
  intros Hs. apply list_eq. intros i.
  rewrite list_lookup_fmap.
  destruct (decide (i < n)%nat) as [Hi | Hi].
  - rewrite lookup_seq_lt by lia. simpl.
    destruct (decide (s + i < length v)%nat) as [Hin | Hout].
    + rewrite lookup_app_l by (rewrite length_take, length_drop; lia).
      rewrite lookup_take_lt, lookup_drop by lia.
      destruct (lookup_lt_is_Some_2 v (s + i)%nat Hin) as [x ->]. reflexivity.
    + rewrite lookup_app_r by (rewrite length_take, length_drop; lia).
      rewrite length_take, length_drop.
      rewrite lookup_replicate_2 by lia.
      rewrite (lookup_ge_None_2 v (s + i)%nat) by lia. reflexivity.
  - rewrite lookup_seq_ge by lia. simpl.
    apply lookup_ge_None_2.
    rewrite length_app, length_take, length_drop, length_replicate. lia.
Qed.

(** X1.  A window that starts at or after the anchor and not past the end
    of the stored values is read as the stored values of its minutes,
    with zero for every minute past the end. *)
Theorem window_read_is_zero_padded (p : Profile) (t0 fromDT toDT : Z) :
  startingDT p = Some t0 ->
  t0 <= fromDT <= toDT ->
  fromDT - t0 <= size (values p) ->
  get p fromDT toDT
  = Some (map (cell p) (seq (Z.to_nat (fromDT - t0)) (Z.to_nat (toDT - fromDT)))).
Proof.
  intros Ht Hord Hin. rewrite (get_inside p t0) by assumption.
  f_equal. apply padded_window. unfold size in Hin. lia.
Qed.

Lemma window_read_is_zero_padded_witness :
  get (mkProfile (Some 100) [1; 2; 3]%Q) 101 105 = Some [2; 3; 0; 0]%Q.
Proof.
  assert (H1 : startingDT (mkProfile (Some 100) [1; 2; 3]%Q) = Some 100) by reflexivity.
  assert (H2 : 100 <= 101 <= 105) by lia.
  assert (H3 : 101 - 100 <= size (values (mkProfile (Some 100) [1; 2; 3]%Q)))
    by (vm_compute; discriminate).
  exact (window_read_is_zero_padded _ 100 101 105 H1 H2 H3).
Defined.

(** The array that [set] leaves, at or after the anchor. *)
Lemma set_values_inside (p : Profile) (t0 fromDT : Z) (newValues : list Q) :
  startingDT p = Some t0 -> t0 <= fromDT ->
  let s := Z.to_nat (fromDT - t0) in
  let vals := resizeTo (values p) (fromDT - t0 + size newValues) in
  set p fromDT newValues
  = Some (mkProfile (Some t0)
            (take s vals ++ newValues ++ drop (s + length newValues) vals))
  /\ (s + length newValues <= length vals)%nat.
Proof.
  intros Ht Hle s vals. unfold set. rewrite Ht.
  unfold minutesBetween, minutesIn. fold vals.
  assert (Hsz : size vals = Z.max (size (values p)) (fromDT - t0 + size newValues))
    by apply resizeTo_size.
  rewrite setSlice_inside by lia. simpl. split; [reflexivity |].
  unfold size in Hsz. unfold s. lia.
Qed.

Lemma resizeTo_lookup (vals : list Q) (n : Z) (j : nat) :
  default 0%Q (resizeTo vals n !! j) = default 0%Q (vals !! j).
Proof.
  unfold resizeTo. destruct (Z.ltb_spec (size vals) n); [| reflexivity].
  unfold resize. destruct (decide (j < length vals)%nat).
  - rewrite lookup_app_l by lia. reflexivity.
  - rewrite lookup_app_r by lia.
    rewrite (lookup_ge_None_2 vals j) by lia. simpl.
    destruct (replicate _ _ !! _) eqn:E; [| reflexivity].
    apply lookup_replicate in E as [-> _]. reflexivity.
Qed.

(** X2.  [set] at or after the anchor overwrites the minutes of the new
    values and nothing else: every other minute keeps its value (zero
    where nothing was stored). *)
Theorem set_overwrites_only_its_range (p : Profile) (t0 fromDT : Z) (newValues : list Q) :
  startingDT p = Some t0 -> t0 <= fromDT ->
  exists p', set p fromDT newValues = Some p'
    /\ startingDT p' = Some t0
    /\ forall j : nat,
         cell p' j
         = if decide (fromDT - t0 <= Z.of_nat j < fromDT - t0 + size newValues)
           then default 0%Q (newValues !! (j - Z.to_nat (fromDT - t0))%nat)
           else cell p j.
Proof.
  intros Ht Hle.
  destruct (set_values_inside p t0 fromDT newValues Ht Hle) as [Hset Hlen].
  eexists. split; [exact Hset |]. split; [reflexivity |].
  intros j. unfold cell. cbn [values].
  set (s := Z.to_nat (fromDT - t0)) in *.
  set (vals := resizeTo (values p) (fromDT - t0 + size newValues)) in *.
  unfold size. destruct (decide _) as [Hin | Hout].
  - rewrite lookup_app_r by (rewrite length_take; lia).
    rewrite length_take.
    replace (s `min` length vals)%nat with s by lia.
    rewrite lookup_app_l by lia. reflexivity.
  - destruct (decide (j < s)%nat) as [Hlt | Hge].
    + rewrite lookup_app_l by (rewrite length_take; lia).
      rewrite lookup_take_lt by lia. apply resizeTo_lookup.
    + rewrite lookup_app_r by (rewrite length_take; lia).
      rewrite length_take.
      replace (s `min` length vals)%nat with s by lia.
      rewrite lookup_app_r by lia.
      rewrite lookup_drop.
      replace (s + length newValues + (j - s - length newValues))%nat with j by lia.
      apply resizeTo_lookup.
Qed.

Lemma set_overwrites_only_its_range_witness :
  exists p', set (mkProfile (Some 0) [1; 2; 3]%Q) 1 [7; 8; 9]%Q = Some p'
    /\ cell p' 0 = 1%Q /\ cell p' 3 = 9%Q /\ cell p' 4 = 0%Q.
Proof.
  assert (H1 : startingDT (mkProfile (Some 0) [1; 2; 3]%Q) = Some 0) by reflexivity.
  assert (H2 : 0 <= 1) by lia.
  destruct (set_overwrites_only_its_range _ 0 1 [7; 8; 9]%Q H1 H2) as (p' & Hset & _ & Hcell).
  exists p'. split; [exact Hset |].
  split; [exact (Hcell 0%nat) |]. split; [exact (Hcell 3%nat) | exact (Hcell 4%nat)].
Defined.

(** What [set] has written is read back over the same minutes. *)
Lemma set_get_written (p p' : Profile) (fromDT toDT : Z) (newValues : list Q) :
  (forall t0, startingDT p = Some t0 -> t0 <= fromDT) ->
  toDT = fromDT + size newValues ->
  set p fromDT newValues = Some p' ->
  get p' fromDT toDT = Some newValues.
Proof.
  intros Hle -> Hset. pose proof (size_nonneg newValues) as Hn.
  destruct (startingDT p) as [t0 |] eqn:Ht.
  - specialize (Hle t0 eq_refl).
    destruct (set_values_inside p t0 fromDT newValues Ht Hle) as [Hset' Hlen].
    rewrite Hset in Hset'. injection Hset' as ->.
    set (s := Z.to_nat (fromDT - t0)) in *.
    set (vals := resizeTo (values p) (fromDT - t0 + size newValues)) in *.
    rewrite (get_inside _ t0); cbn [startingDT values]; [| reflexivity | lia |].
    + f_equal. fold s.
      replace (Z.to_nat (fromDT + size newValues - fromDT)) with (length newValues)
        by (unfold size; lia).
      rewrite drop_app_length' by (rewrite length_take; lia).
      rewrite take_app_length.
      rewrite !length_app, length_take, length_drop.
      replace (length newValues - _)%nat with 0%nat by lia.
      apply app_nil_r.
    + unfold size. rewrite !length_app, length_take, length_drop. lia.
  - unfold set in Hset. rewrite Ht in Hset. injection Hset as <-.
    rewrite (get_inside _ fromDT); cbn [startingDT values]; [| reflexivity | lia | lia].
    f_equal. rewrite Z.sub_diag. simpl.
    replace (Z.to_nat (fromDT + size newValues - fromDT)) with (length newValues)
      by (unfold size; lia).
    rewrite firstn_all. replace (_ - _)%nat with 0%nat by lia. apply app_nil_r.
Qed.

Lemma set_returns (p : Profile) (fromDT : Z) (newValues : list Q) :
  (forall t0, startingDT p = Some t0 -> t0 <= fromDT) ->
  is_Some (set p fromDT newValues).
Proof.
  intros Hle. destruct (startingDT p) as [t0 |] eqn:Ht.
  - destruct (set_values_inside p t0 fromDT newValues Ht (Hle t0 eq_refl)) as [-> _].
    eexists. reflexivity.
  - unfold set. rewrite Ht. eexists. reflexivity.
Qed.

(** X3.  What [set] writes is what [get] reads back over the same
    minutes, on a profile without an anchor as well as at or after the
    anchor of a profile that has one. *)
Theorem set_then_get (p : Profile) (fromDT : Z) (newValues : list Q) :
  (forall t0, startingDT p = Some t0 -> t0 <= fromDT) ->
  exists p', set p fromDT newValues = Some p'
    /\ get p' fromDT (fromDT + size newValues) = Some newValues.
Proof.
  intros Hle. destruct (set_returns p fromDT newValues Hle) as [p' Hset].
  exists p'. split; [exact Hset |].
  exact (set_get_written p p' fromDT _ newValues Hle eq_refl Hset).
Qed.

Lemma set_then_get_witness :
  exists p', set (mkProfile (Some 0) [1; 2; 3]%Q) 5 [7; 8]%Q = Some p'
    /\ get p' 5 (5 + size [7; 8]%Q) = Some [7; 8]%Q.
Proof.
  assert (H : forall t0, startingDT (mkProfile (Some 0) [1; 2; 3]%Q) = Some t0 -> t0 <= 5)
    by (intros t0 [= <-]; lia).
  exact (set_then_get _ 5 [7; 8]%Q H).
Defined.

End ProfileCells.
Section ProfileUpdates.
Import numpy utils profile.

(** The array that [add] leaves, at or after the anchor. *)
Lemma add_values_inside (p : Profile) (t0 fromDT : Z) (valuesToAdd : list Q) :
  startingDT p = Some t0 -> t0 <= fromDT ->
  let s := Z.to_nat (fromDT - t0) in
  let m := length valuesToAdd in
  let vals := resizeTo (values p) (fromDT - t0 + size valuesToAdd) in
  add p fromDT valuesToAdd
  = Some (mkProfile (Some t0)
            (take s vals ++ zip_with Qplus (take m (drop s vals)) valuesToAdd
             ++ drop (s + m) vals))
  /\ (s + m <= length vals)%nat.
Proof.
  intros Ht Hle s m vals. unfold add. rewrite Ht.
  unfold minutesBetween, minutesIn. fold vals.
  assert (Hsz : size vals = Z.max (size (values p)) (fromDT - t0 + size valuesToAdd))
    by apply resizeTo_size.
  pose proof (size_nonneg valuesToAdd) as Hn.
  unfold addSlice. rewrite !sliceBound_inside by lia.
  replace (Z.to_nat (fromDT - t0 + size valuesToAdd) - Z.to_nat (fromDT - t0))%nat
    with (length valuesToAdd) by (unfold size; lia).
  rewrite broadcastTo_same. simpl. split; [reflexivity |].
  unfold size in Hsz. unfold s, m. lia.
Qed.

(** X4.  [add] at or after the anchor adds each new value to the value
    stored for its minute (zero where nothing was stored) and leaves
    every other minute as it was. *)
Theorem add_changes_only_its_range (p : Profile) (t0 fromDT : Z) (valuesToAdd : list Q) :
  startingDT p = Some t0 -> t0 <= fromDT ->
  exists p', add p fromDT valuesToAdd = Some p'
    /\ startingDT p' = Some t0
    /\ forall j : nat,
         cell p' j
         = if decide (fromDT - t0 <= Z.of_nat j < fromDT - t0 + size valuesToAdd)
           then (cell p j
                 + default 0 (valuesToAdd !! (j - Z.to_nat (fromDT - t0))%nat))%Q
           else cell p j.
Proof.
  intros Ht Hle.
  destruct (add_values_inside p t0 fromDT valuesToAdd Ht Hle) as [Hadd Hlen].
  eexists. split; [exact Hadd |]. split; [reflexivity |].
  intros j. unfold cell. cbn [values].
  set (s := Z.to_nat (fromDT - t0)) in *.
  set (m := length valuesToAdd) in *.
  set (vals := resizeTo (values p) (fromDT - t0 + size valuesToAdd)) in *.
  assert (Hz : length (zip_with Qplus (take m (drop s vals)) valuesToAdd) = m).
  { rewrite length_zip_with, length_take, length_drop. fold m. lia. }
  unfold size. fold m. destruct (decide _) as [Hin | Hout].
  - rewrite lookup_app_r by (rewrite length_take; lia).
    rewrite length_take.
    replace (s `min` length vals)%nat with s by lia.
    rewrite lookup_app_l by lia.
    rewrite lookup_zip_with, lookup_take_lt, lookup_drop by lia.
    replace (s + (j - s))%nat with j by lia.
    rewrite <- (resizeTo_lookup (values p) (fromDT - t0 + size valuesToAdd) j). fold vals.
    destruct (lookup_lt_is_Some_2 vals j ltac:(lia)) as [x ->].
    destruct (lookup_lt_is_Some_2 valuesToAdd (j - s)%nat ltac:(fold m; lia)) as [y ->].
    reflexivity.
  - destruct (decide (j < s)%nat) as [Hlt | Hge].
    + rewrite lookup_app_l by (rewrite length_take; lia).
      rewrite lookup_take_lt by lia. apply resizeTo_lookup.
    + rewrite lookup_app_r by (rewrite length_take; lia).
      rewrite length_take.
      replace (s `min` length vals)%nat with s by lia.
      rewrite lookup_app_r by lia.
      rewrite lookup_drop, Hz.
      replace (s + m + (j - s - m))%nat with j by lia.
      apply resizeTo_lookup.
Qed.

Lemma add_changes_only_its_range_witness :
  exists p', add (mkProfile (Some 0) [1; 2; 3]%Q) 2 [10; 20]%Q = Some p'
    /\ cell p' 1 = 2%Q /\ cell p' 2 = (3 + 10)%Q /\ cell p' 3 = (0 + 20)%Q.
Proof.
  assert (H1 : startingDT (mkProfile (Some 0) [1; 2; 3]%Q) = Some 0) by reflexivity.
  assert (H2 : 0 <= 2) by lia.
  destruct (add_changes_only_its_range _ 0 2 [10; 20]%Q H1 H2) as (p' & Hadd & _ & Hcell).
  exists p'. split; [exact Hadd |].
  split; [exact (Hcell 1%nat) |]. split; [exact (Hcell 2%nat) | exact (Hcell 3%nat)].
Defined.

(** X5.  Pruning up to a minute inside the stored range moves the anchor
    there and does not change what is read from that minute on. *)
Theorem prune_keeps_later_reads (p : Profile) (t0 toDT fromDT endDT : Z) :
  startingDT p = Some t0 ->
  t0 < toDT -> toDT <= fromDT <= endDT ->
  fromDT - t0 <= size (values p) ->
  startingDT (prune p toDT) = Some toDT
  /\ get (prune p toDT) fromDT endDT = get p fromDT endDT.
Proof.
  intros Ht Hlt Hord Hin. unfold prune. rewrite Ht.
  destruct (Z.leb_spec toDT t0); [lia |]. split; [reflexivity |].
  unfold minutesBetween, minutesIn, sliceFrom.
  rewrite sliceBound_inside by lia.
  unfold size in Hin.
  rewrite (get_inside _ toDT), (get_inside p t0); cbn [startingDT values];
    try assumption; try reflexivity; try lia.
  - f_equal. rewrite drop_drop, length_drop.
    replace (Z.to_nat (toDT - t0) + Z.to_nat (fromDT - toDT))%nat
      with (Z.to_nat (fromDT - t0)) by lia.
    f_equal. f_equal. lia.
  - unfold size. rewrite length_drop. lia.
Qed.

Lemma prune_keeps_later_reads_witness :
  get (prune (mkProfile (Some 0) [1; 2; 3; 4]%Q) 2) 3 6
  = get (mkProfile (Some 0) [1; 2; 3; 4]%Q) 3 6.
Proof.
  assert (H1 : startingDT (mkProfile (Some 0) [1; 2; 3; 4]%Q) = Some 0) by reflexivity.
  assert (H2 : 0 < 2) by lia.
  assert (H3 : 2 <= 3 <= 6) by lia.
  assert (H4 : 3 - 0 <= size (values (mkProfile (Some 0) [1; 2; 3; 4]%Q)))
    by (vm_compute; discriminate).
  exact (proj2 (prune_keeps_later_reads _ 0 2 3 6 H1 H2 H3 H4)).
Defined.

(** X6.  The single-value read of an anchored profile never raises: it is
    zero before the anchor and past the stored end, and inside the range
    it agrees with the one-minute window read. *)
Theorem single_read_is_total (p : Profile) (t0 dt : Z) :
  startingDT p = Some t0 ->
  exists x, getAt p dt = Some x
    /\ (dt < t0 \/ size (values p) <= dt - t0 -> x = 0%Q)
    /\ (t0 <= dt -> dt - t0 <= size (values p) -> get p dt (dt + 1) = Some [x]).
Proof.
  intros Ht. unfold getAt. rewrite Ht. unfold minutesBetween, minutesIn.
  destruct (Z.ltb_spec (dt - t0) 0) as [Hneg | Hpos]; simpl.
  - exists 0%Q. split; [reflexivity |]. split; [reflexivity | lia].
  - destruct (Z.leb_spec (size (values p)) (dt - t0)) as [Hout | Hin].
    + exists 0%Q. split; [reflexivity |]. split; [reflexivity |].
      intros _ Hle. rewrite (get_inside p t0) by (assumption || lia).
      rewrite padded_window by (unfold size in *; lia).
      replace (Z.to_nat (dt + 1 - dt)) with 1%nat by lia. simpl.
      rewrite lookup_ge_None_2 by (unfold size in *; lia). reflexivity.
    + destruct (lookup_lt_is_Some_2 (values p) (Z.to_nat (dt - t0))
                  ltac:(unfold size in *; lia)) as [x Hx].
      exists x. split; [exact Hx |]. split; [lia |].
      intros _ Hle. rewrite (get_inside p t0) by (assumption || lia).
      rewrite padded_window by (unfold size in *; lia).
      replace (Z.to_nat (dt + 1 - dt)) with 1%nat by lia. simpl.
      rewrite Hx. reflexivity.
Qed.

Lemma single_read_is_total_witness :
  exists x, getAt (mkProfile (Some 10) [4; 5]%Q) 11 = Some x
    /\ get (mkProfile (Some 10) [4; 5]%Q) 11 12 = Some [x].
Proof.
  assert (H1 : startingDT (mkProfile (Some 10) [4; 5]%Q) = Some 10) by reflexivity.
  destruct (single_read_is_total _ 10 11 H1) as (x & Hx & _ & Hget).
  exists x. split; [exact Hx |]. apply Hget; [lia | vm_compute; discriminate].
Defined.

End ProfileUpdates.
Section ProfileTransition.
Import numpy utils profile.
Variable hc : nat -> nat -> Q.

(** The array that [transition] leaves when the new values start inside
    the stored range and reach its end. *)
Lemma transition_values_overlap (p : Profile) (t0 fromDT : Z) (newValues : list Q) :
  startingDT p = Some t0 -> t0 <= fromDT ->
  0 < size (values p) - (fromDT - t0) <= size newValues ->
  let s := Z.to_nat (fromDT - t0) in
  let k := (length (values p) - s)%nat in
  let vals := resizeTo (values p) (fromDT - t0 + size newValues) in
  let oldMask := ratioVector hc (Z.of_nat k) ++ replicate (length newValues - k) 0%Q in
  let newMask := map (fun x => 1 - x)%Q (ratioVector hc (Z.of_nat k))
                 ++ replicate (length newValues - k) 1%Q in
  transition hc p fromDT newValues
  = Some (mkProfile (Some t0)
            (take s vals
             ++ zip_with Qplus (zip_with Qmult (drop s vals) oldMask)
                               (zip_with Qmult newValues newMask)
             ++ drop (s + length newValues) vals))
  /\ length vals = (s + length newValues)%nat.
Proof.
  intros Ht Hle Hk s k vals oldMask newMask. unfold transition. rewrite Ht.
  unfold minutesBetween, minutesIn. fold vals.
  assert (Hsz : size vals = Z.max (size (values p)) (fromDT - t0 + size newValues))
    by apply resizeTo_size.
  destruct (Z.eqb_spec (size (values p) - (fromDT - t0)) 0) as [E | _]; [lia |].
  destruct (Z.ltb_spec (size (values p) - (fromDT - t0)) 0) as [E | _]; [lia |].
  replace (size (values p) - (fromDT - t0)) with (Z.of_nat k)
    by (unfold k, s, size in *; lia).
  unfold padRight.
  destruct (Z.ltb_spec (size newValues - Z.of_nat k) 0) as [E | _];
    [unfold k, s, size in *; lia |].
  cbn [mbind option_bind].
  replace (Z.to_nat (size newValues - Z.of_nat k)) with (length newValues - k)%nat
    by (unfold size; lia).
  fold oldMask newMask.
  assert (Hom : length oldMask = length newValues).
  { unfold oldMask. rewrite length_app, ratioVector_length, length_replicate.
    unfold k, s, size in *. lia. }
  assert (Hnm : length newMask = length newValues).
  { unfold newMask. rewrite length_app, length_map, ratioVector_length, length_replicate.
    unfold k, s, size in *. lia. }
  assert (Hold : sliceFrom vals (fromDT - t0) = drop s vals).
  { unfold sliceFrom. rewrite sliceBound_inside by lia. reflexivity. }
  assert (Hdl : length (drop s vals) = length newValues).
  { rewrite length_drop. unfold s, size in *. lia. }
  rewrite Hold.
  rewrite (binop_same_length Qmult (drop s vals) oldMask) by lia.
  cbn [mbind option_bind].
  rewrite (binop_same_length Qmult newValues newMask) by lia.
  cbn [mbind option_bind].
  rewrite binop_same_length by (rewrite !length_zip_with; lia).
  cbn [mbind option_bind].
  set (blend := zip_with Qplus _ _).
  assert (Hb : size blend = size newValues).
  { unfold blend, size. rewrite !length_zip_with. lia. }
  unfold setSliceFrom.
  replace (size vals) with (fromDT - t0 + size blend) by lia.
  rewrite setSlice_inside by lia. cbn [mbind option_bind].
  split; [| unfold s, size in *; lia].
  do 4 f_equal. fold s. f_equal. unfold size in Hb. lia.
Qed.

(** X7.  At or after the anchor, [transition] completes exactly when the
    new values reach the end of the stored ones; new values that stop
    short of it raise. *)
Theorem transition_completes_iff_reaches_end (p : Profile) (t0 fromDT : Z)
    (newValues : list Q) :
  startingDT p = Some t0 -> t0 <= fromDT ->
  (is_Some (transition hc p fromDT newValues)
   <-> size (values p) <= fromDT - t0 + size newValues).
Proof.
  intros Ht Hle. pose proof (size_nonneg newValues) as Hn. split.
  - intros [p' Hp']. revert Hp'. unfold transition. rewrite Ht.
    unfold minutesBetween, minutesIn.
    destruct (Z.eqb_spec (size (values p) - (fromDT - t0)) 0) as [E | _]; [lia |].
    destruct (Z.ltb_spec (size (values p) - (fromDT - t0)) 0) as [E | _]; [lia |].
    unfold padRight.
    destruct (Z.ltb_spec (size newValues - (size (values p) - (fromDT - t0))) 0) as [E | E];
      [cbn; intros H; discriminate | intros _; lia].
  - intros Hreach.
    destruct (Z.lt_trichotomy (size (values p) - (fromDT - t0)) 0) as [Hgap | [Hend | Hov]].
    + unfold transition. rewrite Ht. unfold minutesBetween, minutesIn.
      destruct (Z.eqb_spec (size (values p) - (fromDT - t0)) 0) as [E | _]; [lia |].
      destruct (Z.ltb_spec (size (values p) - (fromDT - t0)) 0) as [_ | E]; [| lia].
      set (vals := resizeTo (values p) (fromDT - t0 + size newValues)).
      assert (Hsz : size vals = Z.max (size (values p)) (fromDT - t0 + size newValues))
        by apply resizeTo_size.
      unfold setSliceFrom.
      replace (size vals) with (fromDT - t0 + size newValues) by lia.
      rewrite setSlice_inside by lia. eexists. reflexivity.
    + unfold transition. rewrite Ht. unfold minutesBetween, minutesIn.
      destruct (Z.eqb_spec (size (values p) - (fromDT - t0)) 0) as [_ | E]; [| lia].
      eexists. reflexivity.
    + destruct (transition_values_overlap p t0 fromDT newValues Ht Hle ltac:(lia)) as [-> _].
      eexists. reflexivity.
Qed.

(** X8.  The cross-fade itself: when the new values start inside the
    stored range and reach its end, the minutes before them are kept,
    every overlapping minute becomes the old value weighted by the
    ratio plus the new value weighted by its complement, and every
    later minute takes the new value. *)
Theorem transition_blends_the_overlap (p : Profile) (t0 fromDT : Z) (newValues : list Q) :
  startingDT p = Some t0 -> t0 <= fromDT ->
  0 < size (values p) - (fromDT - t0) <= size newValues ->
  let s := Z.to_nat (fromDT - t0) in
  let k := (length (values p) - s)%nat in
  exists p', transition hc p fromDT newValues = Some p'
    /\ startingDT p' = Some t0
    /\ size (values p') = fromDT - t0 + size newValues
    /\ (forall j, (j < s)%nat -> cell p' j = cell p j)
    /\ (forall i x, newValues !! i = Some x ->
          (cell p' (s + i)
           == if decide (i < k)%nat
              then cell p (s + i) * hc k i + x * (1 - hc k i)
              else x)%Q).
Proof.
  intros Ht Hle Hk s k.
  destruct (transition_values_overlap p t0 fromDT newValues Ht Hle Hk) as [Htr Hlen].
  fold s k in Htr.
  set (vals := resizeTo (values p) (fromDT - t0 + size newValues)) in *.
  eexists. split; [exact Htr |]. split; [reflexivity |].
  assert (Hk' : (0 < k <= length newValues)%nat) by (unfold k, s, size in *; lia).
  cbn [values]. set (blend := zip_with Qplus _ _).
  assert (Hb : length blend = length newValues).
  { unfold blend. rewrite !length_zip_with, !length_app, length_drop, length_map,
      ratioVector_length, !length_replicate. lia. }
  split; [| split].
  - unfold size. rewrite !length_app, length_take, length_drop, Hb. unfold s. lia.
  - intros j Hj. unfold cell. cbn [values].
    rewrite lookup_app_l by (rewrite length_take; lia).
    rewrite lookup_take_lt by lia. apply resizeTo_lookup.
  - intros i x Hx. pose proof (lookup_lt_Some _ _ _ Hx) as Hi.
    unfold cell at 1. cbn [values].
    rewrite lookup_app_r by (rewrite length_take; lia).
    rewrite length_take. replace (s `min` length vals)%nat with s by lia.
    replace (s + i - s)%nat with i by lia.
    rewrite lookup_app_l by lia.
    unfold blend. rewrite !lookup_zip_with, lookup_drop, Hx.
    pose proof (resizeTo_lookup (values p) (fromDT - t0 + size newValues) (s + i)) as Hres.
    fold vals in Hres.
    destruct (lookup_lt_is_Some_2 vals (s + i)%nat ltac:(lia)) as [old Hold].
    rewrite Hold in Hres |- *. simpl in Hres. fold (cell p (s + i)) in Hres.
    unfold ratioVector. rewrite Nat2Z.id.
    destruct (decide (i < k)%nat) as [Hlt | Hge].
    + rewrite !lookup_app_l by (rewrite ?length_map, length_seq; lia).
      rewrite !list_lookup_fmap, lookup_seq_lt by lia. simpl. rewrite Hres. reflexivity.
    + rewrite !lookup_app_r by (rewrite ?length_map, length_seq; lia).
      rewrite !length_map, length_seq.
      rewrite !lookup_replicate_2 by lia. simpl.
      assert (Hzero : old = 0%Q).
      { rewrite Hres. unfold cell. rewrite lookup_ge_None_2 by (unfold k in *; lia).
        reflexivity. }
      rewrite Hzero. ring.
Qed.

End ProfileTransition.

Section ProfileTransitionExample.
Import numpy utils profile.

Lemma transition_completes_iff_reaches_end_witness :
  is_Some (transition halfCosineSmall (mkProfile (Some 0) [4; 4; 4]%Q) 1 [8; 8; 8]%Q)
  <-> size (values (mkProfile (Some 0) [4; 4; 4]%Q)) <= 1 - 0 + size [8; 8; 8]%Q.
Proof.
  assert (H1 : startingDT (mkProfile (Some 0) [4; 4; 4]%Q) = Some 0) by reflexivity.
  assert (H2 : 0 <= 1) by lia.
  exact (transition_completes_iff_reaches_end halfCosineSmall _ 0 1 [8; 8; 8]%Q H1 H2).
Defined.

Lemma transition_blends_the_overlap_witness :
  exists p', transition halfCosineSmall (mkProfile (Some 0) [4; 4; 4]%Q) 1 [8; 8; 8]%Q
             = Some p'
    /\ (cell p' 2 == 4 * (1 # 2) + 8 * (1 - (1 # 2)))%Q
    /\ (cell p' 3 == 8)%Q.
Proof.
  assert (H1 : startingDT (mkProfile (Some 0) [4; 4; 4]%Q) = Some 0) by reflexivity.
  assert (H2 : 0 <= 1) by lia.
  assert (H3 : 0 < size (values (mkProfile (Some 0) [4; 4; 4]%Q)) - (1 - 0)
               <= size [8; 8; 8]%Q) by (vm_compute; split; [reflexivity | discriminate]).
  destruct (transition_blends_the_overlap halfCosineSmall _ 0 1 [8; 8; 8]%Q H1 H2 H3)
    as (p' & Htr & _ & _ & _ & Hcell).
  exists p'. split; [exact Htr |].
  split; [exact (Hcell 1%nat 8%Q eq_refl) | exact (Hcell 2%nat 8%Q eq_refl)].
Defined.

End ProfileTransitionExample.
(** ** Calendar helpers *)

Section Midnights.
Import numpy utils grid.

Lemma midnightsFrom_elements (n : nat) (c m : Z) :
  m ∈ midnightsFrom n c <-> exists i, 0 <= i < Z.of_nat n /\ m = c + i * oneDay.
Proof.
  revert c. induction n as [| n IH]; intros c; simpl.
  - split; [intros H; inversion H | intros (i & Hi & _); lia].
  - rewrite elem_of_cons, IH. split.
    + intros [-> | (i & Hi & ->)].
      * exists 0. lia.
      * exists (i + 1). lia.
    + intros (i & Hi & ->). destruct (decide (i = 0)) as [-> | Hne].
      * left. lia.
      * right. exists (i - 1). lia.
Qed.

(** The members of [midnightsBetween]. *)
Lemma midnightsBetween_spec (startDT endDT m : Z) :
  m ∈ midnightsBetween startDT endDT
  <-> m mod oneDay = 0 /\ (m = startDT \/ startDT < m < endDT).
Proof.
  unfold midnightsBetween, dateOf, oneDay.
  rewrite elem_of_app, midnightsFrom_elements. unfold oneDay.
  pose proof (Z.div_mod startDT 1440 ltac:(lia)) as Hs.
  pose proof (Z.mod_pos_bound startDT 1440 ltac:(lia)) as Hsb.
  set (q := startDT / 1440) in *. set (r := startDT mod 1440) in *.
  set (c := q * 1440 + 1440).
  pose proof (Z.div_mod (endDT - c + 1440 - 1) 1440 ltac:(lia)) as He.
  pose proof (Z.mod_pos_bound (endDT - c + 1440 - 1) 1440 ltac:(lia)) as Heb.
  set (n := (endDT - c + 1440 - 1) / 1440) in *.
  set (e := (endDT - c + 1440 - 1) mod 1440) in *.
  split.
  - intros [Hfirst | (i & Hi & ->)].
    + destruct (Z.eqb_spec r 0) as [Hr | Hr].
      * apply list_elem_of_singleton in Hfirst as ->. fold r. split; [exact Hr | left; reflexivity].
      * inversion Hfirst.
    + split.
      * unfold c. replace (q * 1440 + 1440 + i * 1440) with ((q + 1 + i) * 1440) by lia.
        apply Z.mod_mul. lia.
      * right. unfold c. nia.
  - intros [Hm [-> | Hbetween]].
    + left. fold r in Hm. fold r. destruct (Z.eqb_spec r 0); [| contradiction].
      apply list_elem_of_singleton. reflexivity.
    + right.
      pose proof (Z.div_mod m 1440 ltac:(lia)) as Hmd. rewrite Hm in Hmd.
      exists (m / 1440 - q - 1). unfold c. split; [nia | lia].
Qed.

Lemma midnightsFrom_sorted (n : nat) (c : Z) : StronglySorted Z.lt (midnightsFrom n c).
Proof.
  revert c. induction n as [| n IH]; intros c; simpl; constructor.
  - apply IH.
  - apply Forall_forall. intros m Hm.
    apply midnightsFrom_elements in Hm as (i & Hi & ->). unfold oneDay. lia.
Qed.

(** X9.  [midnightsBetween] lists, in increasing order and without
    repetition, exactly the midnights strictly between the two ends, and
    before them the start itself when it is a midnight (also when the end
    is not after it). *)
Theorem midnightsBetween_lists_the_midnights (startDT endDT : Z) :
  StronglySorted Z.lt (midnightsBetween startDT endDT)
  /\ forall m, m ∈ midnightsBetween startDT endDT
       <-> m mod oneDay = 0 /\ (m = startDT \/ startDT < m < endDT).
Proof.
  split; [| apply midnightsBetween_spec].
  unfold midnightsBetween.
  set (c := dateOf startDT * oneDay + oneDay).
  assert (Hc : startDT < c).
  { unfold c, dateOf, oneDay.
    pose proof (Z.div_mod startDT 1440 ltac:(lia)).
    pose proof (Z.mod_pos_bound startDT 1440 ltac:(lia)). lia. }
  destruct (startDT mod oneDay =? 0); simpl.
  - constructor; [apply midnightsFrom_sorted |].
    apply Forall_forall. intros m Hm.
    apply midnightsFrom_elements in Hm as (i & Hi & ->). unfold oneDay. lia.
  - apply midnightsFrom_sorted.
Qed.

Lemma portion_add (a b : Z) :
  (inject_Z a / 1440 + inject_Z b / 1440 == inject_Z (a + b) / 1440)%Q.
Proof. rewrite inject_Z_plus. field. Qed.

Lemma dayPortionsFrom_sum (count : nat) (currentDT nextMidnight endDT : Z) :
  currentDT <= endDT ->
  endDT - nextMidnight < Z.of_nat count * oneDay ->
  (sum (map fst (dayPortionsFrom count currentDT nextMidnight endDT))
   == inject_Z (endDT - currentDT) / 1440)%Q.
Proof.
  revert currentDT nextMidnight. unfold oneDay.
  induction count as [| count IH]; intros cur nm Hle Hfuel; cbn [dayPortionsFrom].
  - destruct (Z.ltb_spec cur endDT).
    + simpl. ring.
    + replace (endDT - cur) with 0 by lia. reflexivity.
  - destruct (Z.leb_spec nm endDT).
    + cbn [map fst sum fold_right]. fold (sum (map fst (dayPortionsFrom count nm (nm + oneDay) endDT))).
      rewrite IH by (unfold oneDay; lia).
      rewrite portion_add. replace (nm - cur + (endDT - nm)) with (endDT - cur) by lia.
      reflexivity.
    + destruct (Z.ltb_spec cur endDT).
      * simpl. ring.
      * replace (endDT - cur) with 0 by lia. reflexivity.
Qed.

(** X10.  The day portions of an interval add up to its length in days. *)
Theorem dayPortions_add_up (startDT endDT : Z) :
  startDT <= endDT ->
  (sum (map fst (dayPortionsBetween startDT endDT))
   == inject_Z (endDT - startDT) / 1440)%Q.
Proof.
  intros Hle. unfold dayPortionsBetween.
  destruct (Z.leb_spec endDT startDT).
  - replace (endDT - startDT) with 0 by lia. reflexivity.
  - destruct (Z.eqb_spec (dateOf startDT) (dateOf endDT)).
    + simpl. ring.
    + apply dayPortionsFrom_sum; [lia |].
      unfold dateOf, oneDay in *.
      set (nm := startDT / 1440 * 1440 + 1440).
      pose proof (Z.div_mod (endDT - nm) 1440 ltac:(lia)) as Hd.
      pose proof (Z.mod_pos_bound (endDT - nm) 1440 ltac:(lia)) as Hb.
      assert (Hnm : nm <= endDT).
      { unfold nm.
        pose proof (Z.div_le_mono startDT endDT 1440 ltac:(lia) ltac:(lia)).
        pose proof (Z.div_mod endDT 1440 ltac:(lia)).
        pose proof (Z.mod_pos_bound endDT 1440 ltac:(lia)). lia. }
      assert (0 <= (endDT - nm) / 1440) by (apply Z.div_pos; lia).
      lia.
Qed.

Lemma dayPortions_add_up_witness :
  (sum (map fst (dayPortionsBetween 1000 4000)) == inject_Z (4000 - 1000) / 1440)%Q.
Proof.
  assert (H : 1000 <= 4000) by lia.
  exact (dayPortions_add_up 1000 4000 H).
Defined.

End Midnights.
(** ** More on the battery day profiles *)

Section BatteryDayShapes.
Import numpy utils profile battery sorting.

Lemma fillSlice_zeros_shape (N : nat) (i j : Z) (x : Q) :
  0 <= i <= j -> j <= Z.of_nat N ->
  fillSlice (replicate N 0%Q) i j x
  = replicate (Z.to_nat i) 0%Q ++ replicate (Z.to_nat (j - i)) x
    ++ replicate (N - Z.to_nat j) 0%Q.
Proof.
  intros Hi Hj. unfold fillSlice, size. rewrite length_replicate.
  rewrite !sliceBound_inside by lia.
  replace (Z.to_nat i + (Z.to_nat j - Z.to_nat i))%nat with (Z.to_nat j) by lia.
  rewrite take_replicate, drop_replicate.
  f_equal; [f_equal; lia |]. f_equal. f_equal. lia.
Qed.

Lemma slotsToCharge_ceiling (chargeNeeded chargePerSlot : Q) (s : Z) :
  slotsToCharge chargeNeeded chargePerSlot = Some s ->
  ~ (chargePerSlot == 0)%Q /\ s = Qceiling (chargeNeeded / chargePerSlot).
Proof.
  unfold slotsToCharge. destruct (Qeq_bool chargePerSlot 0) eqn:E; [discriminate |].
  intros [= <-]. split; [| reflexivity].
  apply Qeq_bool_neq. exact E.
Qed.

Lemma Qdiv_le_mult (a b c : Q) : (0 < b -> a / b <= c -> a <= c * b)%Q.
Proof.
  intros Hb H.
  assert (E : (a == a / b * b)%Q)
    by (field; intros E; rewrite E in Hb; discriminate).
  rewrite E. apply Qmult_le_compat_r; [exact H | apply Qlt_le_weak, Hb].
Qed.

Lemma Qdiv_lt_mult (a b c : Q) : (0 < b -> c < a / b -> c * b < a)%Q.
Proof.
  intros Hb H.
  assert (E : (a == a / b * b)%Q)
    by (field; intros E; rewrite E in Hb; discriminate).
  rewrite E. apply Qmult_lt_compat_r; assumption.
Qed.

(** X11.  On a battery day whose connected interval is at least as long
    as the needed number of charging slots, the spread-out profile draws
    one constant power over the whole connected interval and nothing
    outside it, delivers exactly the needed charge, and never draws more
    than the charging power. *)
Theorem battery_spread_out_delivers_needed_charge
    (chargingPower chargeNeeded : Q) (connectionTime disconnectionTime : Time)
    (slotsNeeded : Z) :
  validTime connectionTime -> validTime disconnectionTime ->
  (0 < chargingPower)%Q ->
  slotsToCharge chargeNeeded (chargingPower / 60) = Some slotsNeeded ->
  0 < slotsNeeded <= minutesIn oneDay + slotOf disconnectionTime - slotOf connectionTime ->
  let c := slotOf connectionTime in
  let d := minutesIn oneDay + slotOf disconnectionTime in
  let power := (chargeNeeded / (inject_Z (d - c) / 60))%Q in
  spreadOutDayProfile chargingPower connectionTime disconnectionTime chargeNeeded
  = Some (replicate (Z.to_nat c) 0%Q ++ replicate (Z.to_nat (d - c)) power
          ++ replicate (2880 - Z.to_nat d) 0%Q)
  /\ (sum (replicate (Z.to_nat c) 0%Q ++ replicate (Z.to_nat (d - c)) power
           ++ replicate (2880 - Z.to_nat d) 0%Q) / 60 == chargeNeeded)%Q
  /\ (power <= chargingPower)%Q.
Proof.
  intros Hc Hd HP Hslots Hroom c d power.
  apply slotOf_range in Hc, Hd. fold c in Hc.
  unfold minutesIn, oneDay in *. fold c in Hroom. fold d in Hroom.
  assert (Hdr : 1440 <= d < 2880) by (unfold d, minutesIn, oneDay; lia).
  assert (Hlen : (0 < inject_Z (d - c))%Q).
  { rewrite <- (Zlt_Qlt 0). lia. }
  split; [| split].
  - unfold spreadOutDayProfile, minutesIn, oneDay.
    rewrite (zeros_nonneg (2 * 1440)) by lia. cbn [mbind option_bind].
    rewrite Hslots. cbn [mbind option_bind].
    destruct (Z.ltb_spec 0 slotsNeeded); [| lia].
    fold c. change (1440 + slotOf disconnectionTime) with d.
    destruct (Z.ltb_spec (d - c) slotsNeeded); [lia |].
    change (Z.to_nat (2 * 1440)) with 2880%nat.
    rewrite fillSlice_zeros_shape by lia. reflexivity.
  - rewrite !sum_app, !sum_replicate.
    replace (Z.of_nat (Z.to_nat (d - c))) with (d - c) by lia.
    unfold power. field. intros E. rewrite E in Hlen. discriminate.
  - apply slotsToCharge_ceiling in Hslots as [Hne ->].
    pose proof (Qle_ceiling (chargeNeeded / (chargingPower / 60))) as Hceil.
    assert (Hle : (chargeNeeded / (chargingPower / 60) <= inject_Z (d - c))%Q).
    { eapply Qle_trans; [exact Hceil |]. rewrite <- Zle_Qle. lia. }
    unfold power.
    apply Qle_shift_div_r; [apply Qlt_shift_div_l; [reflexivity | exact Hlen] |].
    apply Qdiv_le_mult in Hle;
      [| apply Qlt_shift_div_l; [reflexivity | rewrite Qmult_0_l; exact HP]].
    assert (E : (chargingPower * (inject_Z (d - c) / 60)
                 == inject_Z (d - c) * (chargingPower / 60))%Q) by field.
    rewrite E. exact Hle.
Qed.



(** X14.  A battery that needs no charge draws no power under any of the
    three strategies, whatever its connection times and prices. *)
Theorem battery_without_need_draws_nothing
    (chargingPower chargeNeeded : Q) (connectionTime disconnectionTime : Time)
    (prices : Profile) (midnight : Z) :
  (0 < chargingPower)%Q -> (chargeNeeded <= 0)%Q ->
  smartDayProfile chargingPower connectionTime disconnectionTime chargeNeeded prices midnight
  = Some (replicate 2880 0%Q)
  /\ uncontrolledDayProfile chargingPower connectionTime disconnectionTime chargeNeeded
     = Some (replicate 2880 0%Q)
  /\ spreadOutDayProfile chargingPower connectionTime disconnectionTime chargeNeeded
     = Some (replicate 2880 0%Q).
Proof.
  intros HP Hneed.
  assert (Hslot : (0 < chargingPower / 60)%Q).
  { apply Qlt_shift_div_l; [reflexivity |]. rewrite Qmult_0_l. exact HP. }
  assert (Hslots : exists s, slotsToCharge chargeNeeded (chargingPower / 60) = Some s /\ s <= 0).
  { unfold slotsToCharge.
    destruct (Qeq_bool (chargingPower / 60) 0) eqn:E.
    - apply Qeq_bool_eq in E. rewrite E in Hslot. discriminate.
    - eexists. split; [reflexivity |].
      assert (Hq : (chargeNeeded / (chargingPower / 60) <= 0)%Q).
      { apply Qle_shift_div_r; [exact Hslot |]. rewrite Qmult_0_l. exact Hneed. }
      apply Qceiling_resp_le in Hq. exact Hq. }
  destruct Hslots as (s & Hs & Hle).
  unfold smartDayProfile, uncontrolledDayProfile, spreadOutDayProfile, minutesIn, oneDay.
  rewrite (zeros_nonneg (2 * 1440)) by lia. cbn [mbind option_bind].
  rewrite Hs. cbn [mbind option_bind].
  destruct (Z.ltb_spec 0 s); [lia |]. repeat split.
Qed.

End BatteryDayShapes.

Section BatteryDayShapesExample.
Import numpy utils profile battery examples.

Lemma battery_spread_out_delivers_needed_charge_witness :
  exists spread,
    spreadOutDayProfile (36 # 5) (mkTime 18 0) (mkTime 23 59) (72 # 5) = Some spread
    /\ (sum spread / 60 == 72 # 5)%Q.
Proof.
  assert (H1 : validTime (mkTime 18 0)) by (unfold validTime; simpl; lia).
  assert (H2 : validTime (mkTime 23 59)) by (unfold validTime; simpl; lia).
  assert (H3 : (0 < 36 # 5)%Q) by reflexivity.
  assert (H4 : slotsToCharge (72 # 5) ((36 # 5) / 60) = Some 120) by reflexivity.
  assert (H5 : 0 < 120 <= minutesIn oneDay + slotOf (mkTime 23 59) - slotOf (mkTime 18 0))
    by (vm_compute; split; [reflexivity | discriminate]).
  destruct (battery_spread_out_delivers_needed_charge (36 # 5) (72 # 5) (mkTime 18 0)
              (mkTime 23 59) 120 H1 H2 H3 H4 H5) as (Hprofile & Hsum & _).
  eexists. split; [exact Hprofile | exact Hsum].
Defined.



Lemma battery_without_need_draws_nothing_witness :
  smartDayProfile (36 # 5) (mkTime 18 0) (mkTime 7 30) 0 eveningPriceProfile 0
  = Some (replicate 2880 0%Q).
Proof.
  assert (H1 : (0 < 36 # 5)%Q) by reflexivity.
  assert (H2 : (0 <= 0)%Q) by (vm_compute; discriminate).
  exact (proj1 (battery_without_need_draws_nothing (36 # 5) 0 (mkTime 18 0) (mkTime 7 30)
                  eveningPriceProfile 0 H1 H2)).
Defined.

End BatteryDayShapesExample.
(** ** What a loop that returns has established *)

Section LoopResults.
Import py.
Context {S X : Type} (R : S -> S -> Prop) `{!PreOrder R}.

(** When every turn keeps [R], and a turn that returns establishes [P]
    for its element, and [P] survives [R], then a loop that returns has
    established [P] for every element. *)
Lemma forEach_establishes (P : X -> S -> Prop) (body : X -> M S unit) :
  (forall x, preserves R (body x)) ->
  (forall x s, fst (body x s) = Some tt -> P x (snd (body x s))) ->
  (forall x s s', R s s' -> P x s -> P x s') ->
  forall l s, fst (forEach l body s) = Some tt ->
  forall x, x ∈ l -> P x (snd (forEach l body s)).
Proof.
  intros Hkeep Hbody Hmono. induction l as [| y l IH]; intros s Hres x Hx.
  - inversion Hx.
  - simpl in *. unfold bind in *.
    pose proof (Hbody y s) as Hy.
    destruct (body y s) as [[[] |] s1] eqn:Ey; simpl in *; [| discriminate].
    apply elem_of_cons in Hx as [-> | Hx].
    + apply (Hmono y s1); [| apply Hy; reflexivity].
      apply (preserves_forEach R l body Hkeep s1).
    + apply IH; assumption.
Qed.

End LoopResults.

Section BatteryCoverage.
Import numpy utils profile py world battery.
Context {Rm : RandomModule}.

#[local] Instance keepsUsages_preorder' : PreOrder (@keepsUsages Rm).
Proof.
  split; unfold keepsUsages.
  - intros w. reflexivity.
  - intros a b c H1 H2. etransitivity; eassumption.
Qed.

Lemma dateOf_next_day (dt : Z) : dateOf (dt + oneDay) = dateOf dt + 1.
Proof.
  unfold dateOf, oneDay.
  replace (dt + 1440) with (dt + 1 * 1440) by lia.
  apply Z.div_add. lia.
Qed.

(** X15.  A call of the battery's [generateUsage] that returns has stored
    a usage for every date that the demand calculations over the same
    interval read: the date of each midnight of the interval and the
    date after it. *)
Theorem battery_generateUsage_covers_the_interval (fromDT toDT : Z) (w : World Rm Battery) :
  fromDT < toDT ->
  result (generateUsage fromDT toDT) w = Some tt ->
  forall midnight, midnight ∈ midnightsBetween fromDT toDT ->
    is_Some (result (readUsages (dateOf midnight))
                    (self (state (generateUsage fromDT toDT) w))).
Proof.
  intros Hlt Hres midnight Hm.
  assert (Hcover : forall m, m ∈ midnightsBetween fromDT (toDT + oneDay) ->
            is_Some (usages (self (state (generateUsage fromDT toDT) w)) !! dateOf m)).
  { intros m Hin. unfold state, generateUsage.
    apply (forEach_establishes (@keepsUsages Rm)
             (fun m w' => is_Some (usages (self w') !! dateOf m))); try assumption.
    - intros x w0. cbv beta. unfold bind at 1. unfold gets. cbn [fst snd].
      destruct (usages (self w0) !! dateOf x) eqn:Eknown.
      + reflexivity.
      + assert (Hsame : forall w', self w' = self w0 -> keepsUsages w0 w')
          by (intros w' E; unfold keepsUsages; rewrite E; reflexivity).
        apply bind_after_draws;
          [apply battery_randomUsageInterval_sameSelf | exact Hsame |].
        intros interval w1 E1.
        apply bind_after_draws;
          [apply battery_randomNeededCharge_sameSelf
          | intros w' E; apply Hsame; congruence |].
        intros chargeNeeded w2 E2.
        unfold keepsUsages, onSelf, zoom, modify. simpl.
        rewrite E2, E1. apply insert_subseteq. exact Eknown.
    - intros x w0. cbv beta. unfold bind, gets. cbn [fst snd].
      destruct (usages (self w0) !! dateOf x) eqn:Eknown.
      + intros _. simpl. rewrite Eknown. eexists. reflexivity.
      + destruct (randomUsageInterval (dateOf x) w0) as [[interval |] w1]; [| discriminate].
        destruct (randomNeededCharge (dateOf x) w1) as [[chargeNeeded |] w2]; [| discriminate].
        intros _. unfold onSelf, zoom, modify. simpl.
        rewrite lookup_insert_eq. eexists. reflexivity.
    - intros x s s' Hss [u Hu]. exists u.
      unfold keepsUsages in Hss. eapply lookup_weaken; eassumption. }
  apply midnightsBetween_spec in Hm as [Hmid Hrange].
  assert (H1 : midnight ∈ midnightsBetween fromDT (toDT + oneDay)).
  { apply midnightsBetween_spec. split; [exact Hmid |]. unfold oneDay. lia. }
  assert (H2 : midnight + oneDay ∈ midnightsBetween fromDT (toDT + oneDay)).
  { apply midnightsBetween_spec. split.
    - unfold oneDay in *. rewrite <- Zplus_mod_idemp_l, Hmid. reflexivity.
    - right. unfold oneDay. lia. }
  apply Hcover in H1 as [[[d1 c1] n1] E1]. apply Hcover in H2 as [[[d2 c2] n2] E2].
  rewrite dateOf_next_day in E2.
  set (b := self (state (generateUsage fromDT toDT) w)) in *. clearbody b.
  unfold result, readUsages, bind. cbv beta. unfold Usage in *.
  rewrite E1. cbv beta iota. rewrite E2.
  eexists. reflexivity.
Qed.

End BatteryCoverage.

Section BatteryCoverageExample.
Import numpy utils profile py world battery examples.

Lemma battery_generateUsage_covers_the_interval_witness :
  is_Some (result (readUsages (dateOf 0))
                  (self (state (generateUsage 0 1440) (carWorld 0)))).
Proof.
  assert (H1 : 0 < 1440) by lia.
  assert (H2 : result (generateUsage 0 1440) (carWorld 0) = Some tt)
    by (vm_compute; reflexivity).
  assert (H3 : 0 ∈ midnightsBetween 0 1440) by (vm_compute; left).
  exact (battery_generateUsage_covers_the_interval 0 1440 (carWorld 0) H1 H2 0 H3).
Defined.

End BatteryCoverageExample.
(** ** More on the machine *)

Section MachineStart.
Import numpy utils profile machine.

Lemma range_from_sorted (a : Z) (n k : nat) :
  StronglySorted Z.lt (map (fun i => a + Z.of_nat i) (seq k n)).
Proof.
  revert k. induction n as [| n IH]; intros k; simpl; constructor.
  - apply IH.
  - apply List.Forall_forall. intros x Hx. apply in_map_iff in Hx as (i & <- & Hi).
    apply in_seq in Hi. lia.
Qed.

Lemma range_sorted (a b : Z) : StronglySorted Z.lt (range a b).
Proof. apply range_from_sorted. Qed.

(** The search keeps the first of the cheapest starts: every start it
    tried before the one it returns costs strictly more. *)
Lemma searchCheapest_earliest (usage prices : list Q) (slots : list Z) :
  (forall s, In s slots -> 0 <= s /\ s + size usage <= size prices) ->
  StronglySorted Z.lt slots ->
  forall cur best,
  (best = None \/ best = Some (runCost usage prices cur)) ->
  (best <> None -> List.Forall (Z.lt cur) slots) ->
  forall r, searchCheapest usage prices (size usage) slots cur best = Some r ->
    (best <> None -> r <> cur -> (runCost usage prices r < runCost usage prices cur)%Q)
    /\ (forall s, In s slots -> s < r -> (runCost usage prices r < runCost usage prices s)%Q).
Proof.
  induction slots as [| s rest IH]; intros Hin Hsorted cur best Hbest Hcur r Hr; simpl in Hr.
  - injection Hr as <-. split; [intros _ Hne; contradiction | intros s []].
  - destruct (Hin s (or_introl eq_refl)) as [Hs0 Hs1].
    rewrite dot_inside in Hr by assumption. simpl in Hr.
    assert (Hrest : forall s', In s' rest -> 0 <= s' /\ s' + size usage <= size prices)
      by (intros s' H'; apply Hin; right; exact H').
    apply StronglySorted_inv in Hsorted as [Hsr Hall].
    assert (Hnext : forall r',
              searchCheapest usage prices (size usage) rest s
                             (Some (runCost usage prices s)) = Some r' ->
              (runCost usage prices r' <= runCost usage prices s)%Q
              /\ (r' <> s -> (runCost usage prices r' < runCost usage prices s)%Q)
              /\ (forall s', In s' rest -> s' < r' ->
                    (runCost usage prices r' < runCost usage prices s')%Q)).
    { intros r' Hr'.
      destruct (searchCheapest_minimal usage prices rest Hrest s
                  (Some (runCost usage prices s)) (or_intror eq_refl))
        as (r0 & Hr0 & _ & Hle & _).
      rewrite Hr' in Hr0. injection Hr0 as <-.
      destruct (IH Hrest Hsr s (Some (runCost usage prices s)) (or_intror eq_refl)
                   (fun _ => Hall) r' Hr') as [HA HB].
      split; [apply Hle; discriminate |]. split; [apply HA; discriminate | exact HB]. }
    destruct Hbest as [-> | ->].
    + destruct (Hnext r Hr) as (_ & HA & HB).
      split; [intros H; contradiction |].
      intros s' [<- | Hs'] Hlt; [apply HA; lia | apply HB; assumption].
    + specialize (Hcur ltac:(discriminate)).
      apply List.Forall_cons_iff in Hcur as [Hcs Hcrest].
      destruct (Qlt_bool _ _) eqn:E.
      * apply Qlt_bool_true in E. destruct (Hnext r Hr) as (Hle & HA & HB).
        split.
        -- intros _ _. eapply Qle_lt_trans; [exact Hle | exact E].
        -- intros s' [<- | Hs'] Hlt; [apply HA; lia | apply HB; assumption].
      * apply Qlt_bool_false in E.
        destruct (IH Hrest Hsr cur (Some (runCost usage prices cur)) (or_intror eq_refl)
                     (fun _ => Hcrest) r Hr) as [HA HB].
        split; [exact HA |].
        intros s' [<- | Hs'] Hlt; [| apply HB; assumption].
        eapply Qlt_le_trans; [apply HA; [discriminate | lia] | exact E].
Qed.

(** X16.  When the run fits between the two times, the smart machine
    starts inside the window, finishes before the deadline, and starts at
    the first of the cheapest candidate starts: no candidate is cheaper,
    and every earlier candidate costs strictly more. *)
Theorem machine_smart_start_is_first_cheapest
    (startAfter finishBy : Time) (powerUsageProfile priceProfile : list Q) :
  validTime startAfter -> validTime finishBy ->
  size priceProfile = 2 * minutesIn oneDay ->
  size powerUsageProfile < slotOf finishBy + minutesIn oneDay - slotOf startAfter ->
  let a := slotOf startAfter in
  let f := slotOf finishBy + minutesIn oneDay in
  let runtime := size powerUsageProfile in
  exists cheapestSlot,
    smartStartSlot startAfter finishBy powerUsageProfile priceProfile = Some cheapestSlot
    /\ a <= cheapestSlot /\ cheapestSlot + runtime < f
    /\ (forall s, a <= s < f - runtime ->
          (runCost powerUsageProfile priceProfile cheapestSlot
           <= runCost powerUsageProfile priceProfile s)%Q)
    /\ (forall s, a <= s < cheapestSlot ->
          (runCost powerUsageProfile priceProfile cheapestSlot
           < runCost powerUsageProfile priceProfile s)%Q).
Proof.
  intros [Hh Hm] [Hh' Hm'] Hsize Hroom a f runtime.
  unfold minutesIn, oneDay in *. fold a in Hroom. fold runtime in Hroom.
  assert (Ha : 0 <= a < 1440) by (unfold a, slotOf; lia).
  assert (Hf : 1440 <= f < 2880) by (unfold f, slotOf, minutesIn, oneDay; lia).
  pose proof (size_nonneg powerUsageProfile) as Hrun. fold runtime in Hrun.
  assert (Hin : forall s, In s (range a (f - runtime)) ->
                  0 <= s /\ s + size powerUsageProfile <= size priceProfile).
  { intros s Hs. apply in_range in Hs. fold runtime. unfold f, minutesIn, oneDay in *. lia. }
  unfold smartStartSlot, minutesIn, oneDay. fold a runtime.
  change (slotOf finishBy + 1440) with f.
  destruct (Z.ltb_spec runtime (f - a)) as [_ | Hno];
    [| unfold f, minutesIn, oneDay in *; lia].
  destruct (searchCheapest_minimal powerUsageProfile priceProfile
              (range a (f - runtime)) Hin a None (or_introl eq_refl))
    as (r & Hr & Hmem & _ & Hall).
  destruct (searchCheapest_earliest powerUsageProfile priceProfile
              (range a (f - runtime)) Hin (range_sorted _ _) a None (or_introl eq_refl)
              ltac:(intros H; contradiction) r Hr) as [_ Hfirst].
  assert (Hwin : a <= r < f - runtime).
  { destruct Hmem as [-> | Hm0]; [unfold f, minutesIn, oneDay in *; lia |].
    apply in_range in Hm0. exact Hm0. }
  exists r. split; [exact Hr |]. split; [lia |]. split; [lia |]. split.
  - intros s Hs. apply Hall, in_range. exact Hs.
  - intros s Hs. apply Hfirst; [apply in_range |]; lia.
Qed.

End MachineStart.

Section MachineDay.
Import numpy utils profile py world machine.

Lemma pasteRun_inside (powerUsageProfile : list Q) (slot : Z) :
  0 <= slot -> slot + size powerUsageProfile <= 2880 ->
  pasteRun powerUsageProfile slot
  = Some (replicate (Z.to_nat slot) 0%Q ++ powerUsageProfile
          ++ replicate (2880 - Z.to_nat slot - length powerUsageProfile) 0%Q).
Proof.
  intros Hs Hfit. unfold pasteRun, minutesIn, oneDay.
  rewrite (zeros_nonneg (2 * 1440)) by lia. cbn [mbind option_bind].
  change (Z.to_nat (2 * 1440)) with 2880%nat.
  rewrite setSlice_inside by (unfold size in *; rewrite ?length_replicate; lia).
  rewrite take_replicate, drop_replicate. f_equal.
  unfold size in *. f_equal; [f_equal; lia |]. f_equal. f_equal. lia.
Qed.

(** X17.  On a machine day with a usage that fits between the two times,
    each of the three strategies draws the usage profile once, unchanged,
    inside the window between the start-after and the finish-by time, and
    nothing else; so all three profiles carry the energy of the run. *)
Theorem machine_day_profiles_stay_in_window (prices : Profile) (midnight : Z)
    (startAfter finishBy : Time) (powerUsageProfile priceProfile : list Q) :
  validTime startAfter -> validTime finishBy ->
  get prices midnight (midnight + 2 * oneDay) = Some priceProfile ->
  size powerUsageProfile < slotOf finishBy + minutesIn oneDay - slotOf startAfter ->
  let a := slotOf startAfter in
  let f := slotOf finishBy + minutesIn oneDay in
  let usage := Some ((startAfter, finishBy), powerUsageProfile) in
  let pasted := fun slot : Z =>
    replicate (Z.to_nat slot) 0%Q ++ powerUsageProfile
    ++ replicate (2880 - Z.to_nat slot - length powerUsageProfile) 0%Q in
  exists smartSlot uncontrolledSlot spreadOutSlot,
    smartDayProfile usage prices midnight = Some (pasted smartSlot)
    /\ uncontrolledDayProfile usage = Some (pasted uncontrolledSlot)
    /\ spreadOutDayProfile usage = Some (pasted spreadOutSlot)
    /\ Forall (fun slot => a <= slot /\ slot + size powerUsageProfile <= f)
              [smartSlot; uncontrolledSlot; spreadOutSlot]
    /\ Forall (fun slot => sum (pasted slot) == sum powerUsageProfile)%Q
              [smartSlot; uncontrolledSlot; spreadOutSlot].
Proof.
  intros [Hh Hm] [Hh' Hm'] Hget Hroom a f usage pasted.
  pose proof (get_length _ _ _ _ Hget) as Hlen.
  unfold minutesBetween, minutesIn, oneDay in *.
  assert (Hsize : size priceProfile = 2880) by lia. clear Hlen.
  fold a in Hroom.
  assert (Ha : 0 <= a < 1440) by (unfold a, slotOf; lia).
  assert (Hf : 1440 <= f < 2880) by (unfold f, slotOf, minutesIn, oneDay; lia).
  pose proof (size_nonneg powerUsageProfile) as Hrun.
  set (runtime := size powerUsageProfile) in *.
  assert (Hfa : runtime < f - a) by (unfold f, minutesIn, oneDay; lia).
  assert (Hin : forall s, In s (range a (f - runtime)) ->
                  0 <= s /\ s + size powerUsageProfile <= size priceProfile).
  { intros s Hs. apply in_range in Hs. fold runtime. lia. }
  destruct (searchCheapest_minimal powerUsageProfile priceProfile
              (range a (f - runtime)) Hin a None (or_introl eq_refl))
    as (r & Hr & Hmem & _ & _).
  assert (Hwin : a <= r < f - runtime).
  { destruct Hmem as [-> | Hm0]; [lia |]. apply in_range in Hm0. exact Hm0. }
  set (spread := spreadOutStartSlot startAfter finishBy powerUsageProfile).
  assert (Hspread : a <= spread /\ spread + runtime <= f).
  { unfold spread, spreadOutStartSlot, minutesIn, oneDay. fold a runtime.
    change (slotOf finishBy + 1440) with f.
    pose proof (Z.div_mod (f - a - runtime) 2 ltac:(lia)).
    pose proof (Z.mod_pos_bound (f - a - runtime) 2 ltac:(lia)). lia. }
  assert (Hsum : forall slot, (sum (pasted slot) == sum powerUsageProfile)%Q).
  { intros slot. unfold pasted. rewrite !sum_app, !sum_replicate. ring. }
  exists r, a, spread. split; [| split; [| split; [| split]]].
  - unfold usage, smartDayProfile. unfold oneDay. rewrite Hget. cbn [mbind option_bind].
    unfold smartStartSlot, minutesIn, oneDay. fold a runtime.
    change (slotOf finishBy + 1440) with f.
    destruct (Z.ltb_spec runtime (f - a)) as [_ | Hno]; [| lia].
    fold runtime in Hr. rewrite Hr. cbn [mbind option_bind].
    apply pasteRun_inside; fold runtime; lia.
  - unfold usage, uncontrolledDayProfile, uncontrolledStartSlot. fold a.
    apply pasteRun_inside; fold runtime; lia.
  - unfold usage, spreadOutDayProfile. fold spread.
    apply pasteRun_inside; fold runtime; lia.
  - repeat constructor; lia.
  - repeat constructor; apply Hsum.
Qed.

End MachineDay.

Section MachineRandomTimes.
Import numpy utils profile py world machine.
Context {Rm : RandomModule}.

(** X18.  The start-after and finish-by times that the statistics draw
    are valid times of day whatever the Gaussian draw is: the minute is
    clipped to the day. *)
Theorem random_minute_of_day_is_valid (params : Q * Q) (w : World Rm Machine) :
  exists t, result (randomMinuteOfDay params) w = Some t /\ validTime t.
Proof.
  unfold result, randomMinuteOfDay, bind, random_gauss, ret.
  destruct (randomGauss Rm (fst params) (snd params) (rng w)) as [x rng'].
  cbn [fst snd]. eexists. split; [reflexivity |].
  unfold validTime, minutesIn, oneDay. cbn [hour minute].
  set (m := Z.min (Z.max 0 (Qfloor x)) (1440 - 1)).
  assert (Hm : 0 <= m < 1440) by (unfold m; lia).
  pose proof (Z.div_mod m 60 ltac:(lia)).
  pose proof (Z.mod_pos_bound m 60 ltac:(lia)). lia.
Qed.

End MachineRandomTimes.

Section MachineStartExample.
Import numpy utils profile machine examples.

Lemma machine_smart_start_is_first_cheapest_witness :
  exists cheapestSlot,
    smartStartSlot (mkTime 21 0) (mkTime 5 0) washCycle twoDayPrices = Some cheapestSlot
    /\ slotOf (mkTime 21 0) <= cheapestSlot
    /\ cheapestSlot + size washCycle < slotOf (mkTime 5 0) + minutesIn oneDay.
Proof.
  assert (H1 : validTime (mkTime 21 0)) by (unfold validTime; simpl; lia).
  assert (H2 : validTime (mkTime 5 0)) by (unfold validTime; simpl; lia).
  assert (H3 : size twoDayPrices = 2 * minutesIn oneDay) by (vm_compute; reflexivity).
  assert (H4 : size washCycle < slotOf (mkTime 5 0) + minutesIn oneDay - slotOf (mkTime 21 0))
    by (vm_compute; reflexivity).
  destruct (machine_smart_start_is_first_cheapest (mkTime 21 0) (mkTime 5 0) washCycle
              twoDayPrices H1 H2 H3 H4) as (s & Hs & Hlo & Hhi & _).
  exists s. split; [exact Hs |]. split; [exact Hlo | exact Hhi].
Defined.

Lemma machine_day_profiles_stay_in_window_witness :
  exists smartSlot,
    smartDayProfile (Some ((mkTime 21 0, mkTime 5 0), washCycle)) twoDayPriceProfile 0
    = Some (replicate (Z.to_nat smartSlot) 0%Q ++ washCycle
            ++ replicate (2880 - Z.to_nat smartSlot - length washCycle) 0%Q).
Proof.
  assert (H1 : validTime (mkTime 21 0)) by (unfold validTime; simpl; lia).
  assert (H2 : validTime (mkTime 5 0)) by (unfold validTime; simpl; lia).
  assert (H3 : get twoDayPriceProfile 0 (0 + 2 * oneDay) = Some twoDayPrices)
    by (vm_compute; reflexivity).
  assert (H4 : size washCycle < slotOf (mkTime 5 0) + minutesIn oneDay - slotOf (mkTime 21 0))
    by (vm_compute; reflexivity).
  destruct (machine_day_profiles_stay_in_window twoDayPriceProfile 0 (mkTime 21 0)
              (mkTime 5 0) washCycle twoDayPrices H1 H2 H3 H4)
    as (s & _ & _ & Hs & _).
  exists s. exact Hs.
Defined.

End MachineStartExample.
(** ** More on the accumulator *)

Section AccumulatorLoops.
Import numpy utils profile accumulator py.

Lemma sum_cons (x : Q) (l : list Q) : sum (x :: l) = (x + sum l)%Q.
Proof. reflexivity. Qed.

(** The energy balance of the uncontrolled simulation. *)
Lemma uncontrolledLoop_balance (power upperLimit : Q) (rates : list Q) :
  forall charge,
  let '(final, powers, _) := uncontrolledLoop power upperLimit charge rates in
  (final == charge - sum rates + sum powers / 60)%Q
  /\ length powers = length rates
  /\ Forall (fun x => x = 0%Q \/ x = power) powers.
Proof.
  induction rates as [| d rest IH]; intros charge; cbn [uncontrolledLoop].
  - split; [unfold sum; simpl; field | split; [reflexivity | constructor]].
  - unfold uncontrolledStep.
    destruct (Qlt_bool _ _);
      [specialize (IH (charge - d + power / 60)%Q) | specialize (IH (charge - d)%Q)];
      destruct (uncontrolledLoop _ _ _ rest) as [[final powers] trace];
      destruct IH as (Hb & Hl & Hp);
      (split; [rewrite !sum_cons, Hb; field | split; [simpl; congruence |]]);
      constructor; auto.
Qed.

(** The energy balance of the thermostat simulation. *)
Lemma spreadOutLoop_balance (power upperLimit : Q) (rates : list Q) :
  forall charge charging,
  let '(final, _, powers) := spreadOutLoop power upperLimit charge charging rates in
  (final == charge - sum rates + sum powers / 60)%Q
  /\ length powers = length rates
  /\ Forall (fun x => x = 0%Q \/ x = power) powers.
Proof.
  induction rates as [| d rest IH]; intros charge charging; cbn [spreadOutLoop].
  - split; [unfold sum; simpl; field | split; [reflexivity | constructor]].
  - set (charging' := if charging then _ else _).
    destruct charging';
      [specialize (IH (charge - d + power / 60)%Q true)
      | specialize (IH (charge - d)%Q false)];
      destruct (spreadOutLoop _ _ _ _ rest) as [[final flag] powers];
      destruct IH as (Hb & Hl & Hp);
      (split; [rewrite !sum_cons, Hb; field | split; [simpl; congruence |]]);
      constructor; auto.
Qed.

Lemma sum_rates (dischargingKW : list Q) :
  (sum (map (fun x => x / 60) dischargingKW) == sum dischargingKW / 60)%Q.
Proof.
  induction dischargingKW as [| x l IH]; [reflexivity |].
  cbn [map]. rewrite !sum_cons, IH. field.
Qed.

(** X19.  [calculateUncontrolledDemand] accounts for every unit of
    energy: the call returns, the stored demand of the interval holds the
    charging power or zero in each minute, and the new charge is the old
    one minus the discharge of the interval plus the energy of the stored
    demand. *)
Theorem accumulator_uncontrolled_energy_balance (a : Accumulator) (fromDT toDT : Z)
    (dischargingKW : list Q) :
  get (dischargingProfile a) fromDT toDT = Some dischargingKW ->
  (forall t0, startingDT (uncontrolledDemand a) = Some t0 -> t0 <= fromDT) ->
  let a' := state (calculateUncontrolledDemand fromDT toDT) a in
  result (calculateUncontrolledDemand fromDT toDT) a = Some tt
  /\ exists powerProfile,
       get (uncontrolledDemand a') fromDT toDT = Some powerProfile
       /\ Forall (fun x => x = 0%Q \/ x = chargingPower a) powerProfile
       /\ (uncontrolledCharge a'
           == uncontrolledCharge a - sum dischargingKW / 60 + sum powerProfile / 60)%Q.
Proof.
  intros Hget Hanchor.
  pose proof (uncontrolledLoop_balance (chargingPower a) (capacity a)
                (map (fun x => x / 60)%Q dischargingKW) (uncontrolledCharge a)) as H.
  unfold state, result, calculateUncontrolledDemand, bind, gets, modify.
  rewrite Hget. cbn [fst snd].
  destruct (uncontrolledLoop _ _ _ _) as [[final powers] trace].
  destruct H as (Hb & Hl & Hp). cbn [fst snd uncontrolledDemand setUncontrolledCharge].
  destruct (set_returns (uncontrolledDemand a) fromDT powers Hanchor) as [demand Hset].
  rewrite Hset. cbn [fst snd]. split; [reflexivity |].
  exists powers. split; [| split; [exact Hp |]].
  - cbn [uncontrolledDemand setUncontrolledDemand].
    apply (set_get_written (uncontrolledDemand a)); [exact Hanchor | | exact Hset].
    apply get_length in Hget. unfold minutesBetween, minutesIn, size in *.
    rewrite Hl, length_map. lia.
  - cbn [uncontrolledCharge setUncontrolledDemand setUncontrolledCharge].
    rewrite Hb, sum_rates. reflexivity.
Qed.

(** X20.  [calculateSpreadOutDemand] accounts for every unit of energy
    as well: the call returns, the stored demand of the interval holds the
    charging power or zero in each minute, and the new thermostat charge
    is the old one minus the discharge of the interval plus the energy of
    the stored demand. *)
Theorem accumulator_thermostat_energy_balance (a : Accumulator) (fromDT toDT : Z)
    (dischargingKW : list Q) :
  get (dischargingProfile a) fromDT toDT = Some dischargingKW ->
  (forall t0, startingDT (spreadOutDemand a) = Some t0 -> t0 <= fromDT) ->
  let a' := state (calculateSpreadOutDemand fromDT toDT) a in
  result (calculateSpreadOutDemand fromDT toDT) a = Some tt
  /\ exists powerProfile,
       get (spreadOutDemand a') fromDT toDT = Some powerProfile
       /\ Forall (fun x => x = 0%Q \/ x = chargingPower a) powerProfile
       /\ (spreadOutCharge a'
           == spreadOutCharge a - sum dischargingKW / 60 + sum powerProfile / 60)%Q.
Proof.
  intros Hget Hanchor.
  pose proof (spreadOutLoop_balance (chargingPower a) (capacity a)
                (map (fun x => x / 60)%Q dischargingKW) (spreadOutCharge a)
                (spreadOutCharging a)) as H.
  unfold state, result, calculateSpreadOutDemand, bind, gets, modify.
  rewrite Hget. cbn [fst snd].
  destruct (spreadOutLoop _ _ _ _ _) as [[final flag] powers].
  destruct H as (Hb & Hl & Hp). cbn [fst snd spreadOutDemand setSpreadOutState].
  destruct (set_returns (spreadOutDemand a) fromDT powers Hanchor) as [demand Hset].
  rewrite Hset. cbn [fst snd]. split; [reflexivity |].
  exists powers. split; [| split; [exact Hp |]].
  - cbn [spreadOutDemand setSpreadOutDemand].
    apply (set_get_written (spreadOutDemand a)); [exact Hanchor | | exact Hset].
    apply get_length in Hget. unfold minutesBetween, minutesIn, size in *.
    rewrite Hl, length_map. lia.
  - cbn [spreadOutCharge setSpreadOutDemand setSpreadOutState].
    rewrite Hb, sum_rates. reflexivity.
Qed.

(** The thermostat keeps the charge at or below the upper limit, as long
    as one minute of charging cannot overfill an empty appliance. *)
Lemma spreadOutLoop_bounded (power upperLimit : Q) (rates : list Q) :
  (power / 60 <= upperLimit)%Q ->
  Forall (fun d => 0 <= d)%Q rates ->
  forall charge charging,
  (charge <= upperLimit)%Q ->
  (fst (fst (spreadOutLoop power upperLimit charge charging rates)) <= upperLimit)%Q.
Proof.
  intros Hrate Hrates. induction Hrates as [| d rest Hd _ IH]; intros charge charging Hc;
    cbn [spreadOutLoop].
  - exact Hc.
  - set (charging' := if charging then _ else _).
    assert (Hnext : ((if charging' then charge - d + power / 60 else charge - d)
                     <= upperLimit)%Q).
    { assert (Hdown : (charge - d <= upperLimit)%Q).
      { apply Qle_trans with charge; [| exact Hc].
        rewrite <- (Qplus_0_r charge) at 2. unfold Qminus.
        apply Qplus_le_r. apply (Qopp_le_compat 0 d) in Hd. exact Hd. }
      unfold charging'. destruct charging.
      - destruct (Qlt_bool upperLimit (charge - d + power / 60)) eqn:E; simpl.
        + exact Hdown.
        + apply Qlt_bool_false in E. exact E.
      - destruct (Qle_bool (charge - d) 0) eqn:E.
        + apply Qle_bool_iff in E.
          apply Qle_trans with (0 + power / 60)%Q; [| rewrite Qplus_0_l; exact Hrate].
          apply Qplus_le_l. exact E.
        + exact Hdown. }
    specialize (IH _ charging' Hnext).
    destruct (spreadOutLoop _ _ _ _ rest) as [[final flag] powers]. exact IH.
Qed.

(** X21.  In [calculateSpreadOutDemand], when the stored charge is at most
    the capacity, the discharging rates are non-negative and one minute
    of charging adds at most the capacity, the thermostat never lets the
    charge exceed the capacity: not after any minute of the interval, and
    not in the charge it stores. *)
Theorem thermostat_charge_at_most_capacity (a : Accumulator) (fromDT toDT : Z)
    (dischargingKW : list Q) :
  get (dischargingProfile a) fromDT toDT = Some dischargingKW ->
  Forall (fun d => 0 <= d)%Q (map (fun x => x / 60)%Q dischargingKW) ->
  (spreadOutCharge a <= capacity a)%Q ->
  (chargingPower a / 60 <= capacity a)%Q ->
  (forall minutes : nat,
     (fst (fst (spreadOutLoop (chargingPower a) (capacity a) (spreadOutCharge a)
                  (spreadOutCharging a)
                  (take minutes (map (fun x => x / 60)%Q dischargingKW))))
      <= capacity a)%Q)
  /\ (spreadOutCharge (state (calculateSpreadOutDemand fromDT toDT) a) <= capacity a)%Q.
Proof.
  intros Hget Hrates Hc Hrate. split.
  - intros minutes. apply spreadOutLoop_bounded; [exact Hrate | | exact Hc].
    apply Forall_take, Hrates.
  - pose proof (spreadOutLoop_bounded _ _ _ Hrate Hrates _ (spreadOutCharging a) Hc) as H.
    unfold state, calculateSpreadOutDemand, bind, gets, modify.
    rewrite Hget. cbn [fst snd].
    destruct (spreadOutLoop _ _ _ _ _) as [[final flag] powers]. cbn [fst snd] in *.
    destruct (set _ _ _); exact H.
Qed.

End AccumulatorLoops.

Section AccumulatorLoopsExample.
Import numpy utils profile accumulator py examples.

Lemma accumulator_uncontrolled_energy_balance_witness :
  result (calculateUncontrolledDemand 0 3) heater = Some tt.
Proof.
  assert (H1 : get (dischargingProfile heater) 0 3 = Some [120; 0; 30]%Q) by reflexivity.
  assert (H2 : forall t0, startingDT (uncontrolledDemand heater) = Some t0 -> t0 <= 0)
    by (intros t0 H; discriminate H).
  exact (proj1 (accumulator_uncontrolled_energy_balance heater 0 3 _ H1 H2)).
Defined.

Lemma accumulator_thermostat_energy_balance_witness :
  result (calculateSpreadOutDemand 0 3) heater = Some tt.
Proof.
  assert (H1 : get (dischargingProfile heater) 0 3 = Some [120; 0; 30]%Q) by reflexivity.
  assert (H2 : forall t0, startingDT (spreadOutDemand heater) = Some t0 -> t0 <= 0)
    by (intros t0 H; discriminate H).
  exact (proj1 (accumulator_thermostat_energy_balance heater 0 3 _ H1 H2)).
Defined.

Lemma thermostat_charge_at_most_capacity_witness :
  (spreadOutCharge (state (calculateSpreadOutDemand 0 3) heater) <= capacity heater)%Q.
Proof.
  assert (H1 : get (dischargingProfile heater) 0 3 = Some [120; 0; 30]%Q) by reflexivity.
  assert (H2 : Forall (fun d => 0 <= d)%Q (map (fun x => x / 60)%Q [120; 0; 30]%Q))
    by (repeat constructor; vm_compute; discriminate).
  assert (H3 : (spreadOutCharge heater <= capacity heater)%Q) by (vm_compute; discriminate).
  assert (H4 : (chargingPower heater / 60 <= capacity heater)%Q) by (vm_compute; discriminate).
  exact (proj2 (thermostat_charge_at_most_capacity heater 0 3 _ H1 H2 H3 H4)).
Defined.

End AccumulatorLoopsExample.
(** ** The smart accumulator: shape of the charging profile *)

Section SmartProfile.
Import numpy utils profile accumulator py sorting.

Lemma cumsumFrom_length (acc : Q) (a : list Q) : length (cumsumFrom acc a) = length a.
Proof. revert acc. induction a as [| x a IH]; intros acc; simpl; [| rewrite IH]; reflexivity. Qed.

Lemma forwardFrom_length (prev : Z) (lim : list Z) :
  length (forwardFrom prev lim) = length lim.
Proof. revert prev. induction lim as [| x lim IH]; intros prev; simpl; [| rewrite IH]; reflexivity. Qed.

Lemma forwardCut_length (lim : list Z) : length (forwardCut lim) = length lim.
Proof. destruct lim; simpl; [| rewrite forwardFrom_length]; reflexivity. Qed.

Lemma backwardCut_length (lim : list Z) : length (backwardCut lim) = length lim.
Proof.
  induction lim as [| x lim IH]; simpl; [reflexivity |].
  destruct (backwardCut lim) as [| y done] eqn:E; simpl in *; [| rewrite IH; reflexivity].
  rewrite <- IH. reflexivity.
Qed.

Lemma capFrom_length (off i : Z) (lim : list Z) : length (capFrom off i lim) = length lim.
Proof.
  revert i. induction lim as [| x lim IH]; intros i; simpl; [reflexivity |].
  destruct (_ <? _); simpl; [rewrite IH |]; reflexivity.
Qed.

Lemma decreaseFrom_length (k : nat) (lim : list Z) : length (decreaseFrom k lim) = length lim.
Proof. unfold decreaseFrom. rewrite length_app, length_take, length_map, length_drop. lia. Qed.

Lemma lowerLimits_length (c0 r : Q) (dischargingSum : list Q) :
  length (lowerLimits c0 r dischargingSum) = S (length dischargingSum).
Proof.
  unfold lowerLimits, lowerLimitRaw. simpl.
  rewrite capFrom_length, backwardCut_length, forwardCut_length, !length_map. reflexivity.
Qed.

Lemma upperLimits_length (cap c0 r : Q) (dischargingSum : list Q) (totalSlots : Z) :
  length (upperLimits cap c0 r dischargingSum totalSlots) = S (length dischargingSum).
Proof.
  unfold upperLimits, upperLimitRaw. simpl.
  rewrite capFrom_length, backwardCut_length, forwardCut_length, !length_map. reflexivity.
Qed.

Lemma item_last_nonempty {A} (l : list A) :
  l <> [] -> is_Some (item l (-1)).
Proof.
  intros Hne. unfold item, size. simpl.
  destruct l as [| x l]; [contradiction |]. simpl length.
  destruct (Z.leb_spec 0 (-1 + Z.of_nat (S (length l)))); [| lia].
  apply lookup_lt_is_Some_2. simpl. lia.
Qed.

Lemma greedyStep_shape (n : nat) (g : Greedy) (slot : nat) :
  greedyShape n g -> (slot < n)%nat ->
  exists g', greedyStep g slot = Some g' /\ greedyShape n g'.
Proof.
  intros (Hl & Hu & Hp & Hb) Hslot. unfold greedyStep.
  destruct (lookup_lt_is_Some_2 (lowerLimit g) slot ltac:(lia)) as [lowerHere ->].
  destruct (lookup_lt_is_Some_2 (upperLimit g) (S slot) ltac:(lia)) as [upperNext ->].
  destruct (item_last_nonempty (lowerLimit g)) as [lowerLast ->].
  { intros E. rewrite E in Hl. discriminate. }
  cbn [mbind option_bind].
  destruct (_ && _).
  - eexists. split; [reflexivity |]. unfold greedyShape. cbn [lowerLimit upperLimit chargingProfile].
    rewrite !decreaseFrom_length, length_insert. repeat split; try assumption.
    apply Forall_insert; [exact Hb | right; reflexivity].
  - exists g. split; [reflexivity |]. repeat split; assumption.
Qed.

Lemma greedyLoop_shape (n : nat) (order : list nat) :
  Forall (fun slot => slot < n)%nat order ->
  forall g, greedyShape n g ->
  exists g', greedyLoop g order = Some g' /\ greedyShape n g'.
Proof.
  induction 1 as [| slot order Hslot _ IH]; intros g Hg; simpl.
  - exists g. split; [reflexivity | exact Hg].
  - destruct (greedyStep_shape n g slot Hg Hslot) as (g1 & -> & Hg1).
    cbn [mbind option_bind]. apply IH, Hg1.
Qed.

(** X22.  With a non-zero charging power and prices and discharging values
    for every slot of the planning window, the smart algorithm returns
    a charging profile of one entry per slot, each entry 0 or 1. *)
Theorem smart_charging_profile_is_binary
    (chargingPower capacity startingCharge : Q) (priceProfile dischargingKW : list Q)
    (totalSlots : Z) :
  ~ (chargingPower == 0)%Q ->
  size priceProfile = totalSlots -> size dischargingKW = totalSlots ->
  exists chargingProfile,
    smartChargingProfile chargingPower capacity startingCharge priceProfile dischargingKW
                         totalSlots = Some chargingProfile
    /\ size chargingProfile = totalSlots
    /\ Forall (fun x => x = 0%Q \/ x = 1%Q) chargingProfile.
Proof.
  intros HP Hprices Hdis. unfold smartChargingProfile.
  destruct (Qeq_bool (chargingPower / 60) 0) eqn:E.
  { apply Qeq_bool_eq in E. exfalso. apply HP.
    assert (Hq : (chargingPower == chargingPower / 60 * 60)%Q) by field.
    rewrite Hq, E. reflexivity. }
  pose proof (size_nonneg priceProfile) as Hn.
  rewrite zeros_nonneg by lia. cbn [mbind option_bind].
  set (n := Z.to_nat totalSlots).
  destruct (greedyLoop_shape n (argsort priceProfile)) with
    (g := mkGreedy
            (lowerLimits startingCharge (chargingPower / 60)
               (cumsum (map (fun x => x / 60)%Q dischargingKW)))
            (upperLimits capacity startingCharge (chargingPower / 60)
               (cumsum (map (fun x => x / 60)%Q dischargingKW)) totalSlots)
            (replicate n 0%Q))
    as (g' & Hg' & Hshape).
  - apply Forall_forall. intros slot Hslot. apply argsort_bound in Hslot.
    unfold n, size in *. lia.
  - unfold greedyShape. cbn [lowerLimit upperLimit chargingProfile].
    rewrite lowerLimits_length, upperLimits_length. unfold cumsum.
    rewrite cumsumFrom_length, length_map, length_replicate.
    unfold n, size in *. repeat split; try lia.
    apply Forall_replicate. left. reflexivity.
  - rewrite Hg'. cbn [mbind option_bind].
    destruct Hshape as (_ & _ & Hlen & Hbin).
    eexists. split; [reflexivity |]. split; [| exact Hbin].
    unfold size, n in *. lia.
Qed.

Lemma forwardFrom_zeros (n : nat) : forwardFrom 0 (replicate n 0) = replicate n 0.
Proof. induction n as [| n IH]; simpl; [| rewrite IH]; reflexivity. Qed.

Lemma backwardCut_zeros (n : nat) : backwardCut (replicate n 0) = replicate n 0.
Proof.
  induction n as [| n IH]; simpl; [reflexivity |].
  rewrite IH. destruct n; reflexivity.
Qed.

Lemma greedyLoop_nothing_needed (n : nat) (order : list nat) :
  Forall (fun slot => slot < n)%nat order ->
  forall g, greedyShape n g -> lowerLimit g = replicate (S n) 0 ->
  greedyLoop g order = Some g.
Proof.
  induction 1 as [| slot order Hslot _ IH]; intros g Hg Hzero; simpl; [reflexivity |].
  destruct Hg as (Hl & Hu & Hp & Hb).
  assert (Hstep : greedyStep g slot = Some g).
  { unfold greedyStep. rewrite Hzero.
    rewrite lookup_replicate_2 by lia. cbn [mbind option_bind].
    destruct (lookup_lt_is_Some_2 (upperLimit g) (S slot) ltac:(lia)) as [upperNext ->].
    cbn [mbind option_bind].
    assert (Hlast : item (replicate (S n) 0) (-1) = Some 0).
    { unfold item, size. rewrite length_replicate.
      destruct (Z.ltb_spec (-1) 0); [| lia].
      destruct (Z.leb_spec 0 (-1 + Z.of_nat (S n))); [| lia].
      apply lookup_replicate_2. lia. }
    rewrite Hlast. cbn [mbind option_bind].
    rewrite andb_false_r. reflexivity. }
  rewrite Hstep. cbn [mbind option_bind]. apply IH; [repeat split; assumption | exact Hzero].
Qed.

(** X23.  When the stored charge covers the cumulative discharge of every
    slot of the planning window, the smart algorithm does not charge at
    all. *)
Theorem smart_accumulator_idle_when_charged
    (chargingPower capacity startingCharge : Q) (priceProfile dischargingKW : list Q)
    (totalSlots : Z) :
  (0 < chargingPower)%Q ->
  size priceProfile = totalSlots -> size dischargingKW = totalSlots ->
  Forall (fun d => d <= startingCharge)%Q (cumsum (map (fun x => x / 60)%Q dischargingKW)) ->
  smartChargingProfile chargingPower capacity startingCharge priceProfile dischargingKW
                       totalSlots
  = Some (replicate (Z.to_nat totalSlots) 0%Q).
Proof.
  intros HP Hprices Hdis Hcover. unfold smartChargingProfile.
  assert (Hrate : (0 < chargingPower / 60)%Q).
  { apply Qlt_shift_div_l; [reflexivity |]. rewrite Qmult_0_l. exact HP. }
  destruct (Qeq_bool (chargingPower / 60) 0) eqn:E.
  { apply Qeq_bool_eq in E. rewrite E in Hrate. discriminate. }
  pose proof (size_nonneg priceProfile) as Hn.
  rewrite zeros_nonneg by lia. cbn [mbind option_bind].
  set (n := Z.to_nat totalSlots).
  set (dischargingSum := cumsum (map (fun x => x / 60)%Q dischargingKW)) in *.
  assert (Hlen : length dischargingSum = n).
  { unfold dischargingSum, cumsum. rewrite cumsumFrom_length, length_map.
    unfold n, size in *. lia. }
  assert (Hlower : lowerLimits startingCharge (chargingPower / 60) dischargingSum
                   = replicate (S n) 0).
  { unfold lowerLimits, lowerLimitRaw. rewrite map_map.
    assert (Hclamped : map (fun d => Z.max (Qceiling ((0 - startingCharge + d)
                                                       / (chargingPower / 60))) 0)
                           dischargingSum
                       = replicate n 0).
    { rewrite <- Hlen. clear Hlen. induction Hcover as [| d rest Hd _ IH]; [reflexivity |].
      cbn [map length replicate]. rewrite IH. f_equal.
      assert (Hq : ((0 - startingCharge + d) / (chargingPower / 60) <= 0)%Q).
      { apply Qle_shift_div_r; [exact Hrate |]. rewrite Qmult_0_l.
        rewrite Qle_minus_iff in Hd. rewrite Qle_minus_iff.
        assert (Heq : (0 + - (0 - startingCharge + d) == startingCharge + - d)%Q) by ring.
        rewrite Heq. exact Hd. }
      apply Qceiling_resp_le in Hq. change (Qceiling 0) with 0 in Hq. lia. }
    rewrite Hclamped.
    assert (Hforward : forwardCut (replicate n 0) = replicate n 0).
    { destruct n as [| n']; [reflexivity |]. simpl. rewrite forwardFrom_zeros. reflexivity. }
    rewrite Hforward, backwardCut_zeros.
    destruct n as [| n']; reflexivity. }
  rewrite Hlower.
  rewrite (greedyLoop_nothing_needed n).
  - reflexivity.
  - apply Forall_forall. intros slot Hslot. apply argsort_bound in Hslot.
    unfold n, size in *. lia.
  - unfold greedyShape. cbn [lowerLimit upperLimit chargingProfile].
    rewrite upperLimits_length, !length_replicate, Hlen. repeat split.
    apply Forall_replicate. left. reflexivity.
  - reflexivity.
Qed.

End SmartProfile.

Section SmartProfileExample.
Import numpy utils profile accumulator py examples.

Lemma smart_charging_profile_is_binary_witness :
  exists chargingProfile,
    smartChargingProfile 60 10 (19 # 2) risingPrices boilerDischarging 2880
    = Some chargingProfile
    /\ size chargingProfile = 2880.
Proof.
  assert (H1 : ~ (60 == 0)%Q) by (intros H; discriminate H).
  assert (H2 : size risingPrices = 2880) by (vm_compute; reflexivity).
  assert (H3 : size boilerDischarging = 2880) by (vm_compute; reflexivity).
  destruct (smart_charging_profile_is_binary 60 10 (19 # 2) risingPrices boilerDischarging
              2880 H1 H2 H3) as (profile & Hp & Hlen & _).
  exists profile. split; [exact Hp | exact Hlen].
Defined.

Lemma smart_accumulator_idle_when_charged_witness :
  smartChargingProfile 60 10 10 [3; 1; 2]%Q [60; 60; 60]%Q 3
  = Some (replicate (Z.to_nat 3) 0%Q).
Proof.
  assert (H1 : (0 < 60)%Q) by reflexivity.
  assert (H2 : size [3; 1; 2]%Q = 3) by reflexivity.
  assert (H3 : size [60; 60; 60]%Q = 3) by reflexivity.
  assert (H4 : Forall (fun d => d <= 10)%Q (cumsum (map (fun x => x / 60)%Q [60; 60; 60]%Q)))
    by (repeat constructor; vm_compute; discriminate).
  exact (smart_accumulator_idle_when_charged 60 10 10 [3; 1; 2]%Q [60; 60; 60]%Q 3
           H1 H2 H3 H4).
Defined.

End SmartProfileExample.
(** ** The price profile of a connection *)

Section PriceProfile.
Import numpy utils profile connection py.

Lemma atMostOne_zero (x : Q) : Qeq_bool (atMostOne x) 0 = Qeq_bool x 0.
Proof.
  unfold atMostOne. destruct (Qle_bool x 1) eqn:E; [reflexivity |].
  destruct (Qeq_bool x 0) eqn:E0; [| reflexivity].
  apply Qeq_bool_eq in E0.
  assert (H : Qle_bool x 1 = true) by (apply Qle_bool_iff; rewrite E0; discriminate).
  congruence.
Qed.

(** X24.  [generatePriceProfile] stores, for every minute of the interval,
    the lower price where the cheap-minute profile is non-zero and the
    higher price elsewhere, raised by less than one hundredth; so when
    the two prices differ by at least one hundredth, every cheap minute
    costs less than every other minute. *)
Theorem price_profile_follows_cheap_minutes (config : PriceConfig) (jitter : nat -> Q)
    (c : Connection) (fromDT toDT : Z) (cheaperMinutes : list Q) :
  get (cheaperMinutesProfile c) fromDT toDT = Some cheaperMinutes ->
  (forall t0, startingDT (priceProfile c) = Some t0 -> t0 <= fromDT) ->
  (forall i, 0 <= jitter i < 1)%Q ->
  let c' := state (generatePriceProfile config jitter fromDT toDT) c in
  let band := fun (cheap price : Q) =>
    if Qeq_bool cheap 0
    then (higherPrice config <= price < higherPrice config + (1 # 100))%Q
    else (lowerPrice config <= price < lowerPrice config + (1 # 100))%Q in
  result (generatePriceProfile config jitter fromDT toDT) c = Some tt
  /\ exists prices,
       get (priceProfile c') fromDT toDT = Some prices
       /\ Forall2 band cheaperMinutes prices
       /\ ((lowerPrice config + (1 # 100) <= higherPrice config)%Q ->
           forall i j ci cj pi pj,
             cheaperMinutes !! i = Some ci -> cheaperMinutes !! j = Some cj ->
             prices !! i = Some pi -> prices !! j = Some pj ->
             Qeq_bool ci 0 = false -> Qeq_bool cj 0 = true -> (pi < pj)%Q).
Proof.
  intros Hget Hanchor Hjitter c' band.
  unfold c', state, result, generatePriceProfile, bind, modify.
  rewrite Hget. cbn [fst snd].
  set (cheapIntervals := map atMostOne cheaperMinutes).
  set (masked := zip_with _ cheapIntervals _).
  set (prices := zip_with Qplus masked _).
  assert (Hmasked : length masked = length cheaperMinutes).
  { unfold masked, cheapIntervals.
    rewrite length_zip_with, length_replicate, length_map. lia. }
  assert (Hlen : length prices = length cheaperMinutes).
  { unfold prices. rewrite length_zip_with, length_map, length_seq. lia. }
  destruct (set_returns (priceProfile c) fromDT prices Hanchor) as [p Hset].
  rewrite Hset. cbn [fst snd priceProfile setPrices]. split; [reflexivity |].
  assert (Hband : Forall2 band cheaperMinutes prices).
  { apply Forall2_same_length_lookup_2; [lia |].
    intros i ci pi Hci Hpi.
    pose proof (lookup_lt_Some _ _ _ Hci) as Hi.
    assert (Hm : masked !! i
                 = Some (if astypeBool (atMostOne ci) then lowerPrice config
                         else higherPrice config)).
    { unfold masked, cheapIntervals.
      rewrite lookup_zip_with, list_lookup_fmap, Hci.
      cbn [fmap option_fmap option_map mbind option_bind].
      rewrite lookup_replicate_2 by (rewrite length_map; lia).
      reflexivity. }
    unfold prices in Hpi. rewrite lookup_zip_with, Hm in Hpi.
    cbn [mbind option_bind] in Hpi.
    rewrite list_lookup_fmap, lookup_seq_lt in Hpi by lia.
    cbn [fmap option_fmap option_map mbind option_bind] in Hpi.
    injection Hpi as <-.
    destruct (Hjitter i) as [H0 H1].
    assert (Hnoise : (0 <= jitter i * (1 # 100) < 1 # 100)%Q).
    { split.
      - apply Qmult_le_0_compat; [exact H0 | discriminate].
      - apply Qlt_le_trans with (1 * (1 # 100))%Q; [| discriminate].
        apply Qmult_lt_compat_r; [reflexivity | exact H1]. }
    unfold band, astypeBool. rewrite atMostOne_zero.
    destruct Hnoise as [Hn0 Hn1].
    destruct (Qeq_bool ci 0); cbn [negb]; split; lra. }
  exists prices. split; [| split; [exact Hband |]].
  - apply (set_get_written (priceProfile c)); [exact Hanchor | | exact Hset].
    apply get_length in Hget. unfold minutesBetween, minutesIn, size in *. lia.
  - intros Hgap i j ci cj pi pj Hci Hcj Hpi Hpj Hcheap Hdear.
    pose proof (Forall2_lookup_lr _ _ _ _ _ _ Hband Hci Hpi) as Hbi.
    pose proof (Forall2_lookup_lr _ _ _ _ _ _ Hband Hcj Hpj) as Hbj.
    unfold band in Hbi, Hbj. rewrite Hcheap in Hbi. rewrite Hdear in Hbj.
    destruct Hbi as [_ Hbi]. destruct Hbj as [Hbj _].
    eapply Qlt_le_trans; [exact Hbi |]. eapply Qle_trans; [exact Hgap | exact Hbj].
Qed.

End PriceProfile.

Section PriceProfileExample.
Import numpy utils profile connection py examples.

Lemma price_profile_follows_cheap_minutes_witness :
  result (generatePriceProfile hourlyConfig (fun _ => 1 # 2)%Q 0 4) markedConnection
  = Some tt.
Proof.
  assert (H1 : get (cheaperMinutesProfile markedConnection) 0 4 = Some [0; 1; 2; 0]%Q)
    by reflexivity.
  assert (H2 : forall t0, startingDT (priceProfile markedConnection) = Some t0 -> t0 <= 0)
    by (intros t0 H; discriminate H).
  assert (H3 : forall i : nat, (0 <= 1 # 2 < 1)%Q)
    by (intros _; split; [discriminate | reflexivity]).
  exact (proj1 (price_profile_follows_cheap_minutes hourlyConfig (fun _ => 1 # 2)%Q
                  markedConnection 0 4 _ H1 H2 H3)).
Defined.

End PriceProfileExample.
(** ** Collecting the demands *)

Section AddThenRead.
Import numpy utils profile.

Lemma resized_window (v : list Q) (s m : nat) :
  (s <= length v)%nat ->
  take m (drop s (resizeTo v (Z.of_nat s + Z.of_nat m)))
  = take m (drop s v) ++ replicate (m - (length v - s)) 0%Q.
Proof.
  intros Hs. rewrite padded_window by exact Hs.
  set (V := resizeTo v (Z.of_nat s + Z.of_nat m)).
  assert (HV : (s + m <= length V)%nat).
  { pose proof (resizeTo_size v (Z.of_nat s + Z.of_nat m)) as H. fold V in H.
    unfold size in H. lia. }
  rewrite <- (app_nil_r (take m (drop s V))).
  replace (@nil Q) with (replicate (m - (length V - s)) 0%Q)
    by (replace (m - (length V - s))%nat with 0%nat by lia; reflexivity).
  rewrite padded_window by lia.
  apply map_ext. intros j. apply resizeTo_lookup.
Qed.

(** [add] on a profile that is extendable at [fromDT]: the call returns,
    the profile stays extendable there, and the window of the added
    values reads as the old window plus the added values. *)
Lemma add_then_read (p : Profile) (fromDT toDT : Z) (valuesToAdd : list Q) :
  extendableAt p fromDT ->
  toDT = fromDT + size valuesToAdd ->
  exists base p',
    get p fromDT toDT = Some base
    /\ add p fromDT valuesToAdd = Some p'
    /\ extendableAt p' fromDT
    /\ get p' fromDT toDT = Some (zip_with Qplus base valuesToAdd).
Proof.
  intros Hext ->. pose proof (size_nonneg valuesToAdd) as Hn.
  assert (Hanchored : forall q t0,
            startingDT q = Some t0 -> t0 <= fromDT -> fromDT - t0 <= size (values q) ->
            exists base q',
              get q fromDT (fromDT + size valuesToAdd) = Some base
              /\ add q fromDT valuesToAdd = Some q'
              /\ extendableAt q' fromDT
              /\ get q' fromDT (fromDT + size valuesToAdd)
                 = Some (zip_with Qplus base valuesToAdd)).
  { intros q t0 Ht Hle Hin.
    destruct (add_values_inside q t0 fromDT valuesToAdd Ht Hle) as [Hadd Hlen].
    set (s := Z.to_nat (fromDT - t0)) in *.
    set (m := length valuesToAdd) in *.
    set (V := resizeTo (values q) (fromDT - t0 + size valuesToAdd)) in *.
    assert (Hz : length (zip_with Qplus (take m (drop s V)) valuesToAdd) = m).
    { rewrite length_zip_with, length_take, length_drop. fold m. lia. }
    eexists. eexists. split; [apply (get_inside q t0); [exact Ht | lia | exact Hin] |].
    split; [exact Hadd |]. split.
    - unfold extendableAt. cbn [startingDT values]. split; [exact Hle |].
      unfold size. rewrite !length_app, length_take, Hz, length_drop. unfold s. lia.
    - rewrite (get_inside _ t0); cbn [startingDT values]; [| reflexivity | lia |].
      + f_equal. fold s.
        replace (Z.to_nat (fromDT + size valuesToAdd - fromDT)) with m
          by (unfold m, size; lia).
        rewrite drop_app_length' by (rewrite length_take; lia).
        rewrite <- Hz at 1. rewrite take_app_length.
        rewrite !length_app, length_take, Hz, length_drop.
        replace (m - _)%nat with 0%nat by lia. rewrite app_nil_r.
        f_equal. unfold V.
        replace (fromDT - t0 + size valuesToAdd) with (Z.of_nat s + Z.of_nat m)
          by (unfold s, m, size; lia).
        apply resized_window. unfold s, size in *. lia.
      + unfold size. rewrite !length_app, length_take, Hz, length_drop. unfold s. lia. }
  unfold extendableAt in Hext. destruct (startingDT p) as [t0 |] eqn:Ht.
  - destruct Hext as [Hle Hin]. exact (Hanchored p t0 Ht Hle Hin).
  - destruct (Hanchored (mkProfile (Some fromDT) []) fromDT eq_refl ltac:(lia))
      as (base & q' & Hbase & Hadd & Hext' & Hread).
    { cbn [values]. unfold size. simpl. lia. }
    exists base, q'. split; [| split; [| split; [exact Hext' | exact Hread]]].
    + rewrite (get_inside _ fromDT) in Hbase;
        [| reflexivity | lia | cbn [values]; unfold size; simpl; lia].
      injection Hbase as <-. cbn [values].
      unfold get. rewrite Ht. unfold minutesBetween, minutesIn.
      rewrite zeros_nonneg by lia. f_equal.
      rewrite drop_nil, take_nil. simpl. f_equal. lia.
    + rewrite <- Hadd. unfold add. rewrite Ht, Hext. reflexivity.
Qed.

End AddThenRead.

Section HouseCollect.
Import numpy utils profile py house.

Lemma extendable_read (p : Profile) (fromDT toDT : Z) :
  extendableAt p fromDT -> fromDT <= toDT -> is_Some (get p fromDT toDT).
Proof.
  unfold extendableAt. intros Hext Hle. destruct (startingDT p) as [t0 |] eqn:Ht.
  - destruct Hext as [H0 Hin]. rewrite (get_inside p t0) by (assumption || lia).
    eexists. reflexivity.
  - unfold get. rewrite Ht. unfold minutesBetween, minutesIn.
    rewrite zeros_nonneg by lia. eexists. reflexivity.
Qed.

Lemma collectFrom_turn (fromDT toDT : Z) (appliance : Appliance) (h : House)
    (r : list Q * list Q * list Q) :
  readsOf fromDT toDT appliance r -> extendableHouse h fromDT ->
  exists h' bs bu bo,
    collectFrom fromDT toDT appliance h = (Some tt, h')
    /\ extendableHouse h' fromDT
    /\ get (smartDemand h) fromDT toDT = Some bs
    /\ get (uncontrolledDemand h) fromDT toDT = Some bu
    /\ get (spreadOutDemand h) fromDT toDT = Some bo
    /\ get (smartDemand h') fromDT toDT = Some (zip_with Qplus bs r.1.1)
    /\ get (uncontrolledDemand h') fromDT toDT = Some (zip_with Qplus bu r.1.2)
    /\ get (spreadOutDemand h') fromDT toDT = Some (zip_with Qplus bo r.2).
Proof.
  intros (Hs & Hu & Ho) (Es & Eu & Eo).
  assert (Hto : forall l p, get p fromDT toDT = Some l -> toDT = fromDT + size l).
  { intros l p Hl. apply get_length in Hl. unfold minutesBetween, minutesIn in Hl. lia. }
  destruct (add_then_read _ fromDT toDT r.1.1 Es (Hto _ _ Hs))
    as (bs & p1 & Hbs & Hadd1 & Hext1 & Hread1).
  destruct (add_then_read _ fromDT toDT r.1.2 Eu (Hto _ _ Hu))
    as (bu & p2 & Hbu & Hadd2 & Hext2 & Hread2).
  destruct (add_then_read _ fromDT toDT r.2 Eo (Hto _ _ Ho))
    as (bo & p3 & Hbo & Hadd3 & Hext3 & Hread3).
  exists (setSpreadOut p3 (setUncontrolled p2 (setSmart p1 h))), bs, bu, bo.
  split; [| repeat split; assumption].
  unfold collectFrom, bind, eval, modify. rewrite Hs, Hu, Ho.
  cbn [fst snd]. rewrite Hadd1. cbn [fst snd uncontrolledDemand setSmart].
  rewrite Hadd2. cbn [fst snd spreadOutDemand setUncontrolled setSmart].
  rewrite Hadd3. reflexivity.
Qed.

Lemma collect_loop (fromDT toDT : Z) (all : list Appliance)
    (reads : list (list Q * list Q * list Q)) :
  Forall2 (readsOf fromDT toDT) all reads ->
  forall h bs bu bo,
  extendableHouse h fromDT ->
  get (smartDemand h) fromDT toDT = Some bs ->
  get (uncontrolledDemand h) fromDT toDT = Some bu ->
  get (spreadOutDemand h) fromDT toDT = Some bo ->
  exists h',
    forEach all (collectFrom fromDT toDT) h = (Some tt, h')
    /\ get (smartDemand h') fromDT toDT = Some (addAll bs (map (fun r => r.1.1) reads))
    /\ get (uncontrolledDemand h') fromDT toDT
       = Some (addAll bu (map (fun r => r.1.2) reads))
    /\ get (spreadOutDemand h') fromDT toDT = Some (addAll bo (map (fun r => r.2) reads)).
Proof.
  induction 1 as [| appliance r all reads Hr _ IH]; intros h bs bu bo Hext Hbs Hbu Hbo.
  - exists h. repeat split; assumption.
  - destruct (collectFrom_turn fromDT toDT appliance h r Hr Hext)
      as (h1 & bs' & bu' & bo' & Hturn & Hext1 & Hbs' & Hbu' & Hbo' & Hs1 & Hu1 & Ho1).
    rewrite Hbs in Hbs'. injection Hbs' as <-.
    rewrite Hbu in Hbu'. injection Hbu' as <-.
    rewrite Hbo in Hbo'. injection Hbo' as <-.
    destruct (IH h1 _ _ _ Hext1 Hs1 Hu1 Ho1) as (h' & Hloop & Hs' & Hu' & Ho').
    exists h'. split; [| repeat split; assumption].
    cbn [forEach]. unfold bind. rewrite Hturn. exact Hloop.
Qed.

(** X25.  [collectApplianceDemand] adds to each of the three demand
    profiles of the house, minute by minute over the interval, the
    demands that its appliances hold for the interval. *)
Theorem house_collects_the_sum_of_its_appliances (h : House) (fromDT toDT : Z)
    (reads : list (list Q * list Q * list Q)) :
  fromDT <= toDT ->
  Forall2 (readsOf fromDT toDT) (appliances h) reads ->
  extendableHouse h fromDT ->
  let h' := state (collectApplianceDemand fromDT toDT) h in
  result (collectApplianceDemand fromDT toDT) h = Some tt
  /\ exists bs bu bo,
       getSmartDemand h fromDT toDT = Some bs
       /\ getUncontrolledDemand h fromDT toDT = Some bu
       /\ getSpreadOutDemand h fromDT toDT = Some bo
       /\ getSmartDemand h' fromDT toDT = Some (addAll bs (map (fun r => r.1.1) reads))
       /\ getUncontrolledDemand h' fromDT toDT
          = Some (addAll bu (map (fun r => r.1.2) reads))
       /\ getSpreadOutDemand h' fromDT toDT = Some (addAll bo (map (fun r => r.2) reads)).
Proof.
  intros Hle Hreads Hext. pose proof Hext as (Es & Eu & Eo).
  destruct (extendable_read _ fromDT toDT Es Hle) as [bs Hbs].
  destruct (extendable_read _ fromDT toDT Eu Hle) as [bu Hbu].
  destruct (extendable_read _ fromDT toDT Eo Hle) as [bo Hbo].
  destruct (collect_loop fromDT toDT _ reads Hreads h bs bu bo Hext Hbs Hbu Hbo)
    as (h' & Hloop & Hs & Hu & Ho).
  unfold state, result, collectApplianceDemand, bind, gets. cbn [fst snd].
  rewrite Hloop. cbn [fst snd]. split; [reflexivity |].
  exists bs, bu, bo. unfold getSmartDemand, getUncontrolledDemand, getSpreadOutDemand.
  repeat split; assumption.
Qed.

End HouseCollect.

Section GridCollect.
Import numpy utils profile py house.

Lemma inPlaceAdd_same_length (acc x : list Q) :
  length x = length acc -> inPlaceAdd acc x = Some (zip_with Qplus acc x).
Proof.
  intros H. unfold inPlaceAdd. rewrite <- H, broadcastTo_same. reflexivity.
Qed.

Lemma sumDemands_adds (fromDT toDT : Z) (houses : list House)
    (reads : list (list Q * list Q * list Q)) :
  Forall2 (demandsOf fromDT toDT) houses reads ->
  forall smart uncontrolled spreadOut,
  size smart = toDT - fromDT -> size uncontrolled = toDT - fromDT ->
  size spreadOut = toDT - fromDT ->
  sumDemands houses fromDT toDT smart uncontrolled spreadOut
  = Some (addAll smart (map (fun r => r.1.1) reads),
          addAll uncontrolled (map (fun r => r.1.2) reads),
          addAll spreadOut (map (fun r => r.2) reads)).
Proof.
  induction 1 as [| h r houses reads (Hs & Hu & Ho) _ IH];
    intros smart uncontrolled spreadOut Ls Lu Lo; [reflexivity |].
  cbn [sumDemands]. rewrite Hs, Hu, Ho. cbn [mbind option_bind].
  apply get_length in Hs, Hu, Ho. unfold minutesBetween, minutesIn in *.
  rewrite !inPlaceAdd_same_length by (unfold size in *; lia).
  cbn [mbind option_bind].
  rewrite IH by (unfold size in *; rewrite length_zip_with; lia).
  reflexivity.
Qed.

(** X26.  [Grid.collectDemands] records, for the interval, the sum over
    the houses of the demand that each house holds for it, and what it
    records is what a later read of the interval returns. *)
Theorem grid_records_the_sum_of_the_houses (houses : list House) (fromDT toDT : Z)
    (reads : list (list Q * list Q * list Q)) (g : RecordedDemands) :
  fromDT <= toDT ->
  Forall2 (demandsOf fromDT toDT) houses reads ->
  (forall t0, startingDT (gridSmartDemand g) = Some t0 -> t0 <= fromDT) ->
  (forall t0, startingDT (gridUncontrolledDemand g) = Some t0 -> t0 <= fromDT) ->
  (forall t0, startingDT (gridSpreadOutDemand g) = Some t0 -> t0 <= fromDT) ->
  let g' := state (collectDemands houses fromDT toDT) g in
  let nothing := replicate (Z.to_nat (toDT - fromDT)) 0%Q in
  result (collectDemands houses fromDT toDT) g = Some tt
  /\ get (gridSmartDemand g') fromDT toDT
     = Some (addAll nothing (map (fun r => r.1.1) reads))
  /\ get (gridUncontrolledDemand g') fromDT toDT
     = Some (addAll nothing (map (fun r => r.1.2) reads))
  /\ get (gridSpreadOutDemand g') fromDT toDT
     = Some (addAll nothing (map (fun r => r.2) reads)).
Proof.
  intros Hle Hreads As Au Ao g' nothing.
  assert (Hn : size nothing = toDT - fromDT)
    by (unfold nothing, size; rewrite length_replicate; lia).
  pose proof (sumDemands_adds fromDT toDT houses reads Hreads _ _ _ Hn Hn Hn) as Hsum.
  assert (Hlen : forall l : list (list Q),
            Forall (fun x => size x = toDT - fromDT) l ->
            size (addAll nothing l) = toDT - fromDT).
  { intros l Hl. unfold addAll. revert Hn. generalize nothing.
    induction Hl as [| x l Hx _ IH]; intros base Hb; [exact Hb |].
    cbn [foldl]. apply IH. unfold size in *. rewrite length_zip_with. lia. }
  assert (Hsizes : Forall (fun x => size x = toDT - fromDT) (map (fun r => r.1.1) reads)
                   /\ Forall (fun x => size x = toDT - fromDT) (map (fun r => r.1.2) reads)
                   /\ Forall (fun x => size x = toDT - fromDT) (map (fun r => r.2) reads)).
  { clear Hsum. induction Hreads as [| h r houses reads (Hs & Hu & Ho) _ IH].
    - repeat split; constructor.
    - destruct IH as (I1 & I2 & I3).
      apply get_length in Hs, Hu, Ho. unfold minutesBetween, minutesIn in *.
      repeat split; constructor; assumption. }
  destruct Hsizes as (S1 & S2 & S3).
  apply Hlen in S1, S2, S3.
  set (smart := addAll nothing (map (fun r => r.1.1) reads)) in *.
  set (uncontrolled := addAll nothing (map (fun r => r.1.2) reads)) in *.
  set (spreadOut := addAll nothing (map (fun r => r.2) reads)) in *.
  destruct (set_returns (gridSmartDemand g) fromDT smart As) as [p1 H1].
  destruct (set_returns (gridUncontrolledDemand g) fromDT uncontrolled Au) as [p2 H2].
  destruct (set_returns (gridSpreadOutDemand g) fromDT spreadOut Ao) as [p3 H3].
  assert (Hrun : collectDemands houses fromDT toDT g
                 = (Some tt, mkRecordedDemands p1 p2 p3)).
  { unfold collectDemands, bind, eval, modify, minutesBetween, minutesIn.
    rewrite zeros_nonneg by lia. cbn [fst snd]. fold nothing.
    rewrite Hsum. cbn [fst snd].
    rewrite H1. cbn [fst snd gridUncontrolledDemand]. rewrite H2.
    cbn [fst snd gridSpreadOutDemand]. rewrite H3. reflexivity. }
  unfold g', state, result. rewrite Hrun. cbn [fst snd].
  split; [reflexivity |]. cbn [gridSmartDemand gridUncontrolledDemand gridSpreadOutDemand].
  split; [| split].
  - apply (set_get_written (gridSmartDemand g)); [exact As | lia | exact H1].
  - apply (set_get_written (gridUncontrolledDemand g)); [exact Au | lia | exact H2].
  - apply (set_get_written (gridSpreadOutDemand g)); [exact Ao | lia | exact H3].
Qed.

End GridCollect.

Section CollectExample.
Import numpy utils profile py house examples.

Lemma house_collects_the_sum_of_its_appliances_witness :
  result (collectApplianceDemand 0 2) twoCarHouse = Some tt.
Proof.
  assert (H1 : 0 <= 2) by lia.
  assert (H2 : Forall2 (readsOf 0 2) (appliances twoCarHouse)
                 [([1; 2], [3; 4], [5; 6]); ([1; 2], [3; 4], [5; 6])]%Q)
    by (repeat constructor).
  assert (H3 : extendableHouse twoCarHouse 0) by (repeat split).
  exact (proj1 (house_collects_the_sum_of_its_appliances twoCarHouse 0 2 _ H1 H2 H3)).
Defined.

Lemma grid_records_the_sum_of_the_houses_witness :
  result (collectDemands [busyHouse; busyHouse] 0 2)
         (mkRecordedDemands empty empty empty) = Some tt.
Proof.
  assert (H1 : 0 <= 2) by lia.
  assert (H2 : Forall2 (demandsOf 0 2) [busyHouse; busyHouse]
                 [([1; 2], [3; 4], [5; 6]); ([1; 2], [3; 4], [5; 6])]%Q)
    by (repeat constructor).
  assert (H3 : forall t0, startingDT empty = Some t0 -> t0 <= 0)
    by (intros t0 H; discriminate H).
  exact (proj1 (grid_records_the_sum_of_the_houses [busyHouse; busyHouse] 0 2 _
                  (mkRecordedDemands empty empty empty) H1 H2 H3 H3 H3)).
Defined.

End CollectExample.
(** ** The command line *)

Section CommandLineArguments.
Import run.

Lemma isDigit_value (c : ascii) : isDigit c = true -> 0 <= digitValue c <= 9.
Proof.
  unfold isDigit, digitValue. intros H. apply andb_true_iff in H as [H1 H2].
  apply Nat.leb_le in H1, H2. lia.
Qed.

Lemma leadingNumber_range (hi : Z) (s rest : list ascii) (v : Z) :
  9 <= hi -> leadingNumber hi s = Some (v, rest) -> 1 <= v <= hi.
Proof.
  intros Hhi. unfold leadingNumber.
  destruct s as [| a [| b s']].
  - discriminate.
  - destruct (isDigit a) eqn:Da; [| discriminate]. cbn [andb].
    destruct (Z.leb_spec 1 (digitValue a)); [| discriminate].
    intros [= <- _]. apply isDigit_value in Da. lia.
  - destruct (isDigit a) eqn:Da; [| discriminate]. cbn [andb].
    destruct (isDigit b) eqn:Db; cbn [andb].
    + destruct (Z.leb_spec 1 (digitValue a * 10 + digitValue b)); cbn [andb].
      * destruct (Z.leb_spec (digitValue a * 10 + digitValue b) hi).
        -- intros [= <- _]. lia.
        -- destruct (Z.leb_spec 1 (digitValue a)); [| discriminate].
           intros [= <- _]. apply isDigit_value in Da. lia.
      * destruct (Z.leb_spec 1 (digitValue a)); [| discriminate].
        intros [= <- _]. apply isDigit_value in Da. lia.
    + destruct (Z.leb_spec 1 (digitValue a)); [| discriminate].
      intros [= <- _]. apply isDigit_value in Da. lia.
Qed.

(** A date that [strptime] accepts is a calendar date. *)
Lemma strptime_calendar (s : string) (year month day : Z) :
  strptime s = Some (year, month, day) ->
  1 <= year <= 9999 /\ 1 <= month <= 12 /\ 1 <= day <= daysInMonth year month.
Proof.
  unfold strptime.
  destruct (list_ascii_of_string s) as [| y1 [| y2 [| y3 [| y4 [| dash rest]]]]];
    try discriminate.
  destruct (isDigit y1) eqn:D1; [| discriminate].
  destruct (isDigit y2) eqn:D2; [| discriminate].
  destruct (isDigit y3) eqn:D3; [| discriminate].
  destruct (isDigit y4) eqn:D4; [| discriminate].
  cbn [andb]. destruct (Ascii.eqb dash "-"); [| discriminate].
  apply isDigit_value in D1, D2, D3, D4.
  destruct (leadingNumber 12 rest) as [[m rest1] |] eqn:Em; [| discriminate].
  cbn [mbind option_bind].
  apply leadingNumber_range in Em; [| lia].
  destruct rest1 as [| dash2 rest2]; [discriminate |].
  destruct (Ascii.eqb dash2 "-"); [| discriminate].
  set (dayPart := match rest2 with
                  | sp :: d :: rest3 => _
                  | _ => leadingNumber 31 rest2
                  end).
  assert (Hday : forall d rest3, dayPart = Some (d, rest3) -> 1 <= d).
  { intros d rest3. unfold dayPart.
    destruct rest2 as [| sp [| d0 rest4]];
      try (intros H; apply leadingNumber_range in H; lia).
    destruct (_ && _) eqn:Epad.
    - intros [= <- _]. apply andb_true_iff in Epad as [_ Hone].
      apply Z.leb_le in Hone. exact Hone.
    - intros H; apply leadingNumber_range in H; lia. }
  destruct dayPart as [[d rest3] |] eqn:Ed; [| discriminate].
  cbn [mbind option_bind].
  destruct rest3; [| discriminate].
  destruct (Z.leb_spec 1 (((digitValue y1 * 10 + digitValue y2) * 10 + digitValue y3) * 10
                          + digitValue y4)); [| discriminate].
  cbn [andb].
  destruct (Z.leb_spec d (daysInMonth
                            (((digitValue y1 * 10 + digitValue y2) * 10 + digitValue y3) * 10
                             + digitValue y4) m)); [| discriminate].
  intros [= <- <- <-]. specialize (Hday d [] eq_refl). lia.
Qed.

(** X27.  The script hands to the simulator only arguments it has checked:
    it was given exactly four arguments, the date is a calendar date, the
    simulation length and the house count are not negative, and the
    output folder is the fourth argument as given. *)
Theorem simulator_runs_on_checked_arguments (argv : list string)
    (year month day simulationLength houseCount : Z) (outputFolder : string) :
  main argv = SimulatorRun (year, month, day) simulationLength houseCount outputFolder ->
  length argv = 5%nat
  /\ argv !! 4%nat = Some outputFolder
  /\ (1 <= year <= 9999 /\ 1 <= month <= 12 /\ 1 <= day <= daysInMonth year month)
  /\ 0 <= simulationLength /\ 0 <= houseCount.
Proof.
  unfold main.
  destruct argv as [| a0 [| a1 [| a2 [| a3 [| a4 [| a5 rest]]]]]]; try discriminate.
  destruct (strptime a1) as [[[y m] d] |] eqn:Edate; [| discriminate].
  destruct (int a2) as [n2 |]; [| discriminate].
  destruct (int a3) as [n3 |]; [| discriminate].
  intros [= <- <- <- <- <- <-].
  split; [reflexivity |]. split; [reflexivity |].
  split; [exact (strptime_calendar a1 y m d Edate) | lia].
Qed.

Lemma simulator_runs_on_checked_arguments_witness :
  length ["run.py"; "2018-07-01"; "-3"; "5"; "out"]%string = 5%nat /\ 0 <= 0 /\ 0 <= 5.
Proof.
  assert (H : main ["run.py"; "2018-07-01"; "-3"; "5"; "out"]%string
              = SimulatorRun (2018, 7, 1) 0 5 "out") by reflexivity.
  destruct (simulator_runs_on_checked_arguments _ 2018 7 1 0 5 "out" H)
    as (Hlen & _ & _ & Hn & Hh).
  split; [exact Hlen |]. split; [exact Hn | exact Hh].
Defined.

End CommandLineArguments.
(** ** Daily averages *)

Section DailyAverages.
Import numpy utils profile.

Lemma range_cons (a b : Z) : a < b -> machine.range a b = a :: machine.range (a + 1) b.
Proof.
  intros H. unfold machine.range.
  replace (Z.to_nat (b - a)) with (S (Z.to_nat (b - (a + 1)))) by lia.
  cbn [seq map]. f_equal; [lia |].
  rewrite <- seq_shift, map_map. apply map_ext. intros i. lia.
Qed.

Lemma range_empty (a b : Z) : b <= a -> machine.range a b = [].
Proof. intros H. unfold machine.range. replace (Z.to_nat (b - a)) with 0%nat by lia. reflexivity. Qed.

(** The values of a profile anchored at [t0] that belong to day [d]. *)
Lemma dailyAveragesFrom_calendar (vals : list Q) (t0 : Z) (fuel : nat) :
  forall date,
  size vals - (date * oneDay - t0) <= Z.of_nat fuel * oneDay ->
  dailyAveragesFrom fuel vals date (date * oneDay - t0) (date * oneDay - t0 + 24 * 60)
  = map (fun d => (d, mean (slice vals (Z.max 0 (d * oneDay - t0))
                                  (Z.min ((d + 1) * oneDay - t0) (size vals)))))
        (machine.range date
           (date + (size vals - (date * oneDay - t0) + 24 * 60 - 1) / (24 * 60))).
Proof.
  unfold oneDay. induction fuel as [| fuel IH]; intros date Hfuel; cbn [dailyAveragesFrom].
  - rewrite range_empty; [reflexivity |].
    assert ((size vals - (date * 1440 - t0) + 24 * 60 - 1) / (24 * 60) <= 0); [| lia].
    apply Z.lt_succ_r. apply Z.div_lt_upper_bound; lia.
  - set (s := date * 1440 - t0) in *.
    pose proof (Z.div_mod (size vals - s + 24 * 60 - 1) (24 * 60) ltac:(lia)) as Hdm.
    pose proof (Z.mod_pos_bound (size vals - s + 24 * 60 - 1) (24 * 60) ltac:(lia)) as Hmb.
    destruct (Z.ltb_spec s (size vals)) as [Hlt | Hge].
    + rewrite range_cons by nia.
      cbn [map]. f_equal.
      * f_equal. f_equal. f_equal. unfold s. lia.
      * replace (s + 24 * 60) with ((date + 1) * 1440 - t0) by (unfold s; lia).
        rewrite IH by (unfold s in *; lia).
        f_equal. f_equal.
        replace (size vals - ((date + 1) * 1440 - t0) + 24 * 60 - 1)
          with (size vals - s + 24 * 60 - 1 + (-1) * (24 * 60)) by (unfold s; lia).
        rewrite Z.div_add by lia. lia.
    + rewrite range_empty; [reflexivity |].
      assert ((size vals - s + 24 * 60 - 1) / (24 * 60) <= 0); [| lia].
      apply Z.lt_succ_r. apply Z.div_lt_upper_bound; lia.
Qed.

(** X28.  [dailyAverages] of a profile with values lists, in order, every
    date that holds a stored minute, from the date of the anchor to the
    date of the last stored minute, each with the mean of the stored
    values of the minutes of that date; no listed date is without
    values. *)
Theorem daily_averages_follow_the_calendar (p : Profile) (t0 : Z) :
  startingDT p = Some t0 -> values p <> [] ->
  let vals := values p in
  let firstIndex := fun d => Z.max 0 (d * oneDay - t0) in
  let endIndex := fun d => Z.min ((d + 1) * oneDay - t0) (size vals) in
  let dates := machine.range (dateOf t0) (dateOf (t0 + size vals - 1) + 1) in
  dailyAverages p = map (fun d => (d, mean (slice vals (firstIndex d) (endIndex d)))) dates
  /\ Forall (fun d => firstIndex d < endIndex d) dates.
Proof.
  intros Ht Hne vals firstIndex endIndex dates.
  assert (Hsize : 0 < size vals).
  { unfold vals, size. destruct (values p); [contradiction | simpl; lia]. }
  pose proof (Z.div_mod t0 1440 ltac:(lia)) as Hdm.
  pose proof (Z.mod_pos_bound t0 1440 ltac:(lia)) as Hmb.
  set (q := t0 / 1440) in *.
  assert (Hlast : dateOf (t0 + size vals - 1) + 1
                  = q + (size vals - (q * 1440 - t0) + 24 * 60 - 1) / (24 * 60)).
  { unfold dateOf, oneDay.
    replace (size vals - (q * 1440 - t0) + 24 * 60 - 1)
      with (t0 + size vals - 1 + (1 - q) * (24 * 60)) by lia.
    rewrite Z.div_add by lia. change (24 * 60) with 1440. lia. }
  split.
  - unfold dailyAverages. rewrite Ht. fold vals.
    destruct (Z.eqb_spec (size vals) 0); [lia |].
    unfold minutesBetween, minutesIn, dateOf, oneDay. fold q.
    pose proof (dailyAveragesFrom_calendar vals t0
                  (Z.to_nat ((size vals - (q * 1440 - t0) + 24 * 60 - 1) / (24 * 60))) q)
      as Hloop.
    unfold oneDay in Hloop. rewrite Hloop.
    + unfold dates, firstIndex, endIndex. rewrite Hlast.
      unfold dateOf, oneDay. fold q. reflexivity.
    + unfold oneDay.
      pose proof (Z.div_mod (size vals - (q * 1440 - t0) + 24 * 60 - 1) (24 * 60)
                    ltac:(lia)) as Hd2.
      pose proof (Z.mod_pos_bound (size vals - (q * 1440 - t0) + 24 * 60 - 1) (24 * 60)
                    ltac:(lia)) as Hm2.
      assert (0 <= (size vals - (q * 1440 - t0) + 24 * 60 - 1) / (24 * 60))
        by (apply Z.div_pos; lia).
      lia.
  - apply Forall_forall. intros d Hd. apply list_elem_of_In, in_range in Hd.
    unfold firstIndex, endIndex, dateOf, oneDay in *. fold q in Hd.
    pose proof (Z.div_mod (t0 + size vals - 1) 1440 ltac:(lia)) as Hd3.
    pose proof (Z.mod_pos_bound (t0 + size vals - 1) 1440 ltac:(lia)) as Hm3.
    lia.
Qed.

Lemma daily_averages_follow_the_calendar_witness :
  dailyAverages (mkProfile (Some 1439) [6; 2; 4]%Q)
  = [(0, mean [6]%Q); (1, mean [2; 4]%Q)].
Proof.
  assert (H1 : startingDT (mkProfile (Some 1439) [6; 2; 4]%Q) = Some 1439) by reflexivity.
  assert (H2 : values (mkProfile (Some 1439) [6; 2; 4]%Q) <> []) by discriminate.
  exact (proj1 (daily_averages_follow_the_calendar _ 1439 H1 H2)).
Defined.

End DailyAverages.
(** ** Cheap intervals: an instance *)

Section CheapIntervalDayExample.
Import numpy utils profile connection examples.

Lemma cheap_intervals_can_be_generated_witness :
  exists mask,
    cheaperIntervalsOfDay hourlyConfig evenRatios 0 (adjacentDraws 60 0 3) = Some mask.
Proof.
  assert (H1 : 1 < cheapIntervalLength hourlyConfig) by reflexivity.
  assert (H2 : 0 < cheapMinutesCount hourlyConfig <= 1440)
    by (split; [reflexivity | discriminate]).
  assert (H3 : get evenRatios (0 + cheapIntervalLength hourlyConfig)
                   (0 + cheapIntervalLength hourlyConfig + oneDay)
               = Some (replicate 1440 (1 # 2)%Q)) by (vm_compute; reflexivity).
  assert (H4 : Forall (fun p => 0 < p)%Q (replicate 1440 (1 # 2)%Q))
    by (apply Forall_replicate; reflexivity).
  exact (proj2 (cheap_intervals_can_be_generated hourlyConfig evenRatios 0 _ H1 H2 H3 H4)).
Defined.

End CheapIntervalDayExample.
